(** * Get-Check: resume ingestion and analysis pipeline

    A shallow embedding of the TypeScript sources
      - [services/fileParser.ts]   (content extraction),
      - [services/geminiService.ts] (model fallback and analysis),
      - [App.tsx]                  (length gate, sentinel check, error
                                    classification, retry countdown),
    together with the properties the design document states about them.

    Conventions of the embedding.
      - A JavaScript string is a [string]: one [ascii] per UTF-16 code unit,
        restricted to code units below 256.  [String.length] is [.length].
      - A promise that resolves is [Returned v]; one that rejects, or a
        [throw], is [Thrown e], where [e] carries the [message] of the
        thrown object ([err.message || ""] reads a missing message as the
        empty string, so a rejected event object is [Thrown] with message
        [""]).
      - Browser and SDK capabilities ([FileReader], [window.pdfjsLib],
        [window.mammoth], [ai.models.generateContent], [JSON.parse]) are
        parameters of the functions that use them. *)

From Stdlib Require Import String Ascii List ZArith QArith Qround Bool Lia.
Import ListNotations.

Close Scope Q_scope.
Open Scope string_scope.
Open Scope list_scope.

(* ================================================================== *)
(** ** Thrown values and outcomes *)

Record JsError : Type := mkError { message : string }.

Inductive Outcome (A : Type) : Type :=
| Returned (a : A)
| Thrown (e : JsError).

Arguments Returned {A} a.
Arguments Thrown {A} e.

(** Code that reads and writes a state of type [S] and may throw: the
    state reached is kept when an exception leaves the computation. *)
Definition M (S A : Type) : Type := S -> Outcome A * S.

Definition ret {S A : Type} (a : A) : M S A := fun s => (Returned a, s).

Definition throw {S A : Type} (e : JsError) : M S A := fun s => (Thrown e, s).

Definition bind {S A B : Type} (m : M S A) (k : A -> M S B) : M S B :=
  fun s =>
    match m s with
    | (Returned a, s') => k a s'
    | (Thrown e, s') => (Thrown e, s')
    end.

(** [try { m } catch (e) { handler e }]. *)
Definition tryCatch {S A : Type} (m : M S A) (handler : JsError -> M S A)
  : M S A :=
  fun s =>
    match m s with
    | (Returned a, s') => (Returned a, s')
    | (Thrown e, s') => handler e s'
    end.

(** [await] of a promise whose outcome does not depend on the state. *)
Definition await {S A : Type} (o : Outcome A) : M S A := fun s => (o, s).

(** A state write. *)
Definition modify {S : Type} (f : S -> S) : M S unit :=
  fun s => (Returned tt, f s).

Declare Scope js_scope.
Delimit Scope js_scope with js.
Notation "x <- m ;; k" := (bind m (fun x => k))
  (at level 61, m at next level, right associativity) : js_scope.
Notation "m ;; k" := (bind m (fun _ => k))
  (at level 61, right associativity) : js_scope.

(* ================================================================== *)
(** ** JavaScript string primitives *)

Module Js.

Definition LF : string := String (ascii_of_nat 10) "".

(** [!s] for a string: only the empty string is falsy. *)
Definition truthy (s : string) : bool :=
  match s with
  | "" => false
  | String _ _ => true
  end.

(** [a || b] on strings. *)
Definition orElse (a b : string) : string := if truthy a then a else b.

(** [String.prototype.toLowerCase] on code units below 256: the ASCII
    capitals and the Latin-1 capitals U+00C0..U+00DE (without the
    multiplication sign U+00D7) move up by 32; every other code unit of
    that range is its own lower case. *)
Definition lowerChar (c : ascii) : ascii :=
  let n := nat_of_ascii c in
  if ((65 <=? n) && (n <=? 90)
      || ((192 <=? n) && (n <=? 222) && negb (n =? 215)))%nat
  then ascii_of_nat (n + 32)
  else c.

Fixpoint toLowerCase (s : string) : string :=
  match s with
  | "" => ""
  | String c s' => String (lowerChar c) (toLowerCase s')
  end.

(** [s.startsWith(p)]. *)
Definition startsWith (p s : string) : bool := String.prefix p s.

(** [s.includes(sub)]. *)
Fixpoint includes (sub s : string) : bool :=
  String.prefix sub s
  || match s with
     | "" => false
     | String _ s' => includes sub s'
     end.

(** [s.slice(0, n)]. *)
Fixpoint slice0 (n : nat) (s : string) : string :=
  match n, s with
  | S n', String c s' => String c (slice0 n' s')
  | _, _ => ""
  end.

(** [s.split(sep)] for a one-character separator; the result is never
    empty. *)
Fixpoint split (sep : ascii) (s : string) : list string :=
  match s with
  | "" => [""]
  | String c s' =>
      if Ascii.eqb c sep then "" :: split sep s'
      else match split sep s' with
           | h :: t => String c h :: t
           | [] => [String c ""]
           end
  end.

(** [arr.pop()]: the last element, [undefined] on an empty array. *)
Fixpoint pop (l : list string) : option string :=
  match l with
  | [] => None
  | [x] => Some x
  | _ :: l' => pop l'
  end.

(** [arr.includes(x)]. *)
Fixpoint arrayIncludes (l : list string) (x : string) : bool :=
  match l with
  | [] => false
  | y :: l' => String.eqb y x || arrayIncludes l' x
  end.

(** Does the character occur in the string. *)
Fixpoint occurs (c : ascii) (s : string) : bool :=
  match s with
  | "" => false
  | String d s' => Ascii.eqb d c || occurs c s'
  end.

(** Line terminators, which the regular-expression dot does not match
    (U+2028 and U+2029 lie outside the modelled range). *)
Definition isLineTerminator (c : ascii) : bool :=
  Ascii.eqb c (ascii_of_nat 10) || Ascii.eqb c (ascii_of_nat 13).

End Js.

(* ================================================================== *)
(** ** types.ts *)

Inductive Strength : Type := Strong | Average | Weak.

Record SectionAnalysis : Type := {
  sectionName : string;
  strengths : list string;
  weaknesses : list string;
  improvementSuggestions : list string
}.

Record KeywordAnalysis : Type := {
  found : list string;
  missing : list string
}.

Record JobMatch : Type := {
  role : string;
  matchPercentage : Q;
  reason : string
}.

Record AtsCompatibility : Type := {
  score : Q;
  issues : list string
}.

Record ContentQuality : Type := {
  actionVerbsUsage : string;
  quantifiedAchievements : string;
  clarity : string;
  professionalTone : string
}.

Record SpecificImprovement : Type := {
  section : string;
  problem : string;
  suggestedRewrite : string
}.

Record FinalVerdict : Type := {
  impression : string;
  strength : Strength;
  priorityImprovements : list string
}.

Record ResumeAnalysisResult : Type := {
  overallScore : Q;
  overallJustification : string;
  sectionAnalysis : list SectionAnalysis;
  atsCompatibility : AtsCompatibility;
  keywordAnalysis : KeywordAnalysis;
  jobMatches : list JobMatch;
  contentQuality : ContentQuality;
  dos : list string;
  donts : list string;
  specificImprovements : list SpecificImprovement;
  finalVerdict : FinalVerdict
}.

Inductive AnalysisStatus : Type :=
| idle | parsing | validating | analyzing | success | error.

(** [FileContent].  The [data] of an image is [parts[1]] of a split, which
    is [undefined] ([None]) when the split has a single part; TypeScript
    types the index access as [string]. *)
Inductive FileContent : Type :=
| TextContent (content : string)
| ImageContent (mimeType : string) (data : option string).

(* ================================================================== *)
(** ** services/fileParser.ts *)

Module FileParser.

(** A browser [File]: its name, its declared MIME type ([file.type]) and
    its bytes, which only the host's readers interpret. *)
Record File : Type := {
  name : string;
  type : string;
  bytes : list Byte.byte
}.

(** What [pdfjsLib.getDocument(...).promise] resolves to: the number of
    pages, and for page number [i] the [str] of each item of
    [getTextContent()] (or the rejection of [getPage]/[getTextContent]). *)
Record PdfDocument : Type := {
  numPages : nat;
  getPageItems : nat -> Outcome (list string)
}.

(** The capabilities of the host page.  A [FileReader] either fires
    [onload] with [e.target?.result] (which may be null: [None]) or fires
    [onerror]; [window.pdfjsLib] and [window.mammoth] are absent ([None])
    until their scripts have loaded. *)
Record Host : Type := {
  readAsDataURL : File -> Outcome (option string);
  readAsText : File -> Outcome (option string);
  pdfjsLib : option (File -> Outcome PdfDocument);
  mammoth : option (File -> Outcome string)
}.

(** [m[1]] of [s.match(/:(.*?);/)].  From just after a colon the lazy
    group grows one character at a time until a semicolon follows; the dot
    refuses a line terminator, and the end of the input leaves no
    semicolon, so both fail at that colon. *)
Fixpoint lazyUntilSemicolon (s : string) : option string :=
  match s with
  | "" => None
  | String c s' =>
      if Ascii.eqb c ";" then Some ""
      else if Js.isLineTerminator c then None
      else option_map (String c) (lazyUntilSemicolon s')
  end.

(** The match is tried at each position from the left; the first colon at
    which the rest of the pattern succeeds wins. *)
Fixpoint matchMimeInPrefix (s : string) : option string :=
  match s with
  | "" => None
  | String c s' =>
      if Ascii.eqb c ":" then
        match lazyUntilSemicolon s' with
        | Some captured => Some captured
        | None => matchMimeInPrefix s'
        end
      else matchMimeInPrefix s'
  end.

Definition readImageFile (host : Host) (file : File) : Outcome FileContent :=
  match readAsDataURL host file with
  | Thrown e => Thrown e
  | Returned target_result =>
      match target_result with
      | None => Thrown (mkError "Failed to read image file")
      | Some result =>
          if negb (Js.truthy result)
          then Thrown (mkError "Failed to read image file")
          else
            let parts := Js.split "," result in
            let base64Data := nth_error parts 1 in
            let finalMimeType := type file in
            let finalMimeType :=
              if negb (Js.truthy finalMimeType)
                 && Js.truthy (nth 0 parts "")
              then match matchMimeInPrefix (nth 0 parts "") with
                   | Some captured => captured
                   | None => finalMimeType
                   end
              else finalMimeType in
            Returned (ImageContent (Js.orElse finalMimeType "image/jpeg")
                                   base64Data)
      end
  end.

Definition readTextFile (host : Host) (file : File) : Outcome string :=
  match readAsText host file with
  | Thrown e => Thrown e
  | Returned None => Returned ""
  | Returned (Some result) => Returned result
  end.

(** The body of [for (let i = 1; i <= pdf.numPages; i++)]: [remaining]
    counts the iterations still to run, [i] is the page number. *)
Fixpoint readPages (pdf : PdfDocument) (remaining i : nat) (fullText : string)
  : Outcome string :=
  match remaining with
  | O => Returned fullText
  | S remaining' =>
      match getPageItems pdf i with
      | Thrown e => Thrown e
      | Returned items =>
          let pageText := String.concat " " items in
          readPages pdf remaining' (S i) (fullText ++ pageText ++ Js.LF)
      end
  end.

Definition readPdfFile (host : Host) (file : File) : Outcome string :=
  match pdfjsLib host with
  | None => Thrown (mkError "PDF library not loaded")
  | Some getDocument =>
      match getDocument file with
      | Thrown e => Thrown e
      | Returned pdf => readPages pdf (numPages pdf) 1 ""
      end
  end.

Definition readDocxFile (host : Host) (file : File) : Outcome string :=
  match mammoth host with
  | None => Thrown (mkError "DOCX library not loaded")
  | Some extractRawText => extractRawText file
  end.

Definition imageExtensions : list string :=
  ["jpg"; "jpeg"; "png"; "webp"; "heic"; "heif"].

(** [file.name.split('.').pop()?.toLowerCase()]. *)
Definition extensionOf (file : File) : option string :=
  option_map Js.toLowerCase (Js.pop (Js.split "." (name file))).

(** The template literal [`${extension}`]. *)
Definition showExtension (extension : option string) : string :=
  match extension with
  | Some e => e
  | None => "undefined"
  end.

(** One [case] label of [switch (extension)]: strict equality with a
    string, which [undefined] never satisfies. *)
Definition caseIs (extension : option string) (label : string) : bool :=
  match extension with
  | Some e => String.eqb e label
  | None => false
  end.

Definition asText (r : Outcome string) : Outcome FileContent :=
  match r with
  | Thrown e => Thrown e
  | Returned text => Returned (TextContent text)
  end.

Definition extractContentFromFile (host : Host) (file : File)
  : Outcome FileContent :=
  let extension := extensionOf file in
  let mimeType := type file in
  if Js.arrayIncludes imageExtensions
       (match extension with Some e => e | None => "" end)
     || Js.startsWith "image/" mimeType
  then readImageFile host file
  else
    if caseIs extension "txt" then asText (readTextFile host file)
    else if caseIs extension "pdf" then asText (readPdfFile host file)
    else if caseIs extension "docx" then asText (readDocxFile host file)
    else Thrown (mkError ("Unsupported file type: ." ++ showExtension extension)).

End FileParser.

(* ================================================================== *)
(** ** services/geminiService.ts *)

Module GeminiService.

(** The constant texts handed to the remote service, which no code of
    the repository inspects, are kept as tokens. *)
Inductive SystemInstruction : Type := ANALYSIS_SYSTEM_INSTRUCTION.
Inductive Schema : Type := RESPONSE_SCHEMA.

Record GenerationConfig : Type := {
  temperature : Z;
  systemInstruction : SystemInstruction;
  responseMimeType : string;
  responseSchema : Schema
}.

(** [contents]: a single string, or the prompt part followed by one
    inline-data part. *)
Inductive Contents : Type :=
| PromptString (text : string)
| PromptParts (text : string) (mimeType : string) (data : option string).

Record GenerateRequest : Type := {
  model : string;
  contents : Contents;
  config : GenerationConfig
}.

(** [response.text] is a string or [undefined]. *)
Record GenerateResponse : Type := { text : option string }.

(** A record of what the service did, kept by the model so that "was
    called" and "was called before" can be stated: every entry into
    [analyzeResume], and every call of [ai.models.generateContent] with
    its outcome.  The source keeps no such record; it prints each attempt
    and each failure on the console. *)
Inductive Event : Type :=
| AnalyzeInvoked (input : FileContent)
| ModelAttempt (request : GenerateRequest) (outcome : Outcome GenerateResponse).

(** The environment of the service: the remote capability, which may
    answer differently from one call to the next ([World] is its state),
    the configured key, and [JSON.parse(jsonText) as ResumeAnalysisResult],
    whose result the source trusts to have the declared type. *)
Record Env (World : Type) : Type := {
  generateContent : GenerateRequest -> World -> Outcome GenerateResponse * World;
  VITE_GEMINI_API_KEY : option string;
  JSON_parse : string -> Outcome ResumeAnalysisResult
}.

Arguments generateContent {World} _ _ _.
Arguments VITE_GEMINI_API_KEY {World} _.
Arguments JSON_parse {World} _ _.

Record Svc (World : Type) : Type := {
  remote : World;
  log : list Event
}.

Arguments remote {World} _.
Arguments log {World} _.

Definition DQ : string := String (ascii_of_nat 34) "".

Definition MODELS_TO_TRY : list string :=
  ["gemini-2.5-flash"; "gemini-2.0-flash"; "gemini-2.0-flash-001";
   "gemini-2.5-pro"].

Definition promptText : string :=
  Js.LF ++
  "    Analyze the following resume. " ++ Js.LF ++
  "    Validation Check: Is this a resume? If no, return overallScore: 0 and overallJustification: "
    ++ DQ ++ "INVALID_RESUME" ++ DQ ++ "." ++ Js.LF ++
  "    If yes:" ++ Js.LF ++
  "    1. Identify the candidate's primary job role based on their experience." ++ Js.LF ++
  "    2. Suggest 2 other related roles they might fit." ++ Js.LF ++
  "    3. Evaluate keywords found and missing for their primary role." ++ Js.LF ++
  "    4. Provide specific actionable feedback." ++ Js.LF ++
  "  ".

Definition analysisConfig : GenerationConfig :=
  {| temperature := 0;
     systemInstruction := ANALYSIS_SYSTEM_INSTRUCTION;
     responseMimeType := "application/json";
     responseSchema := RESPONSE_SCHEMA |}.

Section Service.

Context {World : Type}.
Variable env : Env World.

Local Open Scope js_scope.

Definition record (ev : Event) : M (Svc World) unit :=
  modify (fun s => {| remote := remote s; log := log s ++ [ev] |}).

(** [getAI]: the client exists only with a truthy key. *)
Definition getAI : Outcome string :=
  match VITE_GEMINI_API_KEY env with
  | Some apiKey =>
      if Js.truthy apiKey then Returned apiKey
      else Thrown (mkError "API Key is missing. Please set VITE_GEMINI_API_KEY.")
  | None => Thrown (mkError "API Key is missing. Please set VITE_GEMINI_API_KEY.")
  end.

(** One [await ai.models.generateContent({model, contents, config})]. *)
Definition attempt (request : GenerateRequest)
  : M (Svc World) GenerateResponse :=
  fun s =>
    let (outcome, world') := generateContent env request (remote s) in
    (outcome,
     {| remote := world'; log := log s ++ [ModelAttempt request outcome] |}).

(** The [for ... of] loop of [generateWithFallback] over the models still
    to try, with the current [lastError] ([None] is [undefined]; a thrown
    error object is truthy). *)
Fixpoint fallbackLoop (models : list string) (contents : Contents)
    (config : GenerationConfig) (lastError : option JsError)
  : M (Svc World) GenerateResponse :=
  match models with
  | [] =>
      throw (match lastError with
             | Some e => e
             | None => mkError "All models failed to generate content."
             end)
  | modelName :: rest =>
      fun s =>
        match attempt {| model := modelName;
                         contents := contents;
                         config := config |} s with
        | (Returned response, s') => (Returned response, s')
        | (Thrown err, s') => fallbackLoop rest contents config (Some err) s'
        end
  end.

Definition generateWithFallback (contents : Contents) (config : GenerationConfig)
  : M (Svc World) GenerateResponse :=
  fallbackLoop MODELS_TO_TRY contents config None.

Definition buildContents (input : FileContent) : Contents :=
  match input with
  | TextContent content =>
      PromptString (promptText ++ Js.LF ++ Js.LF ++ "RESUME CONTENT:" ++ Js.LF ++ content)
  | ImageContent mimeType data => PromptParts promptText mimeType data
  end.

Definition analyzeResume (input : FileContent)
  : M (Svc World) ResumeAnalysisResult :=
  record (AnalyzeInvoked input) ;;
  ai <- await getAI ;;
  let contents := buildContents input in
  tryCatch
    (response <- generateWithFallback contents analysisConfig ;;
     match text response with
     | None => throw (mkError "Empty response from Gemini.")
     | Some jsonText =>
         if negb (Js.truthy jsonText)
         then throw (mkError "Empty response from Gemini.")
         else await (JSON_parse env jsonText)
     end)
    (fun err => throw err).

End Service.

End GeminiService.

(* ================================================================== *)
(** ** App.tsx *)

Module App.

Import FileParser GeminiService.

(** The component state that the analysis and the countdown touch. *)
Record AppState : Type := {
  status : AnalysisStatus;
  result : option ResumeAnalysisResult;
  errorMsg : option string;
  showErrorModal : bool;
  retryCountdown : option Z;
  selectedFile : option File;
  fileName : string
}.

Definition setStatus (v : AnalysisStatus) (st : AppState) : AppState :=
  {| status := v; result := result st; errorMsg := errorMsg st;
     showErrorModal := showErrorModal st; retryCountdown := retryCountdown st;
     selectedFile := selectedFile st; fileName := fileName st |}.

Definition setResult (v : option ResumeAnalysisResult) (st : AppState) : AppState :=
  {| status := status st; result := v; errorMsg := errorMsg st;
     showErrorModal := showErrorModal st; retryCountdown := retryCountdown st;
     selectedFile := selectedFile st; fileName := fileName st |}.

Definition setErrorMsg (v : option string) (st : AppState) : AppState :=
  {| status := status st; result := result st; errorMsg := v;
     showErrorModal := showErrorModal st; retryCountdown := retryCountdown st;
     selectedFile := selectedFile st; fileName := fileName st |}.

Definition setShowErrorModal (v : bool) (st : AppState) : AppState :=
  {| status := status st; result := result st; errorMsg := errorMsg st;
     showErrorModal := v; retryCountdown := retryCountdown st;
     selectedFile := selectedFile st; fileName := fileName st |}.

Definition setRetryCountdown (v : option Z) (st : AppState) : AppState :=
  {| status := status st; result := result st; errorMsg := errorMsg st;
     showErrorModal := showErrorModal st; retryCountdown := v;
     selectedFile := selectedFile st; fileName := fileName st |}.

Definition setSelectedFile (v : option File) (st : AppState) : AppState :=
  {| status := status st; result := result st; errorMsg := errorMsg st;
     showErrorModal := showErrorModal st; retryCountdown := retryCountdown st;
     selectedFile := v; fileName := fileName st |}.

Definition setFileName (v : string) (st : AppState) : AppState :=
  {| status := status st; result := result st; errorMsg := errorMsg st;
     showErrorModal := showErrorModal st; retryCountdown := retryCountdown st;
     selectedFile := selectedFile st; fileName := v |}.

(** *** The countdown effect *)

(** The countdown is a JavaScript number: an integer-valued double, kept
    here as the integer it denotes (Infinity, which only a numeral of
    more than 308 digits arms, has no counterpart).  [roundToDouble x]
    is the double nearest to the integer [x >= 0], ties going to the even
    mantissa: every integer below 2^53 is a double, and above that only
    the multiples of the spacing [2 ^ (log2 x - 52)] are. *)
Definition roundToDouble (x : Z) : Z :=
  let e := Z.log2 x in
  if (e <? 53)%Z then x
  else
    let ulp := (2 ^ (e - 52))%Z in
    let q := (x / ulp)%Z in
    let r := (x mod ulp)%Z in
    if (2 * r <? ulp)%Z then (q * ulp)%Z
    else if (ulp <? 2 * r)%Z then ((q + 1) * ulp)%Z
    else if Z.even q then (q * ulp)%Z
    else ((q + 1) * ulp)%Z.

(** The updater handed to [setRetryCountdown] by the interval callback:
    [prev => (prev !== null && prev > 0 ? prev - 1 : 0)].  The
    subtraction is the one of doubles: exact up to 2^53, rounded above
    (so that [1e20 - 1] is [1e20] again). *)
Definition tickUpdater (prev : option Z) : option Z :=
  match prev with
  | Some p => if (p >? 0)%Z then Some (roundToDouble (p - 1)) else Some 0%Z
  | None => Some 0%Z
  end.

(** What the effect does when it runs for the current [retryCountdown]:
    nothing for [null], the reset at zero or below, and otherwise it
    installs a one-second interval (cleared when the value next changes). *)
Inductive EffectResult : Type :=
| NoTimer (st : AppState)
| TimerInstalled (st : AppState).

Definition countdownEffect (st : AppState) : EffectResult :=
  match retryCountdown st with
  | None => NoTimer st
  | Some n =>
      if (n <=? 0)%Z
      then NoTimer (setShowErrorModal false (setRetryCountdown None st))
      else TimerInstalled st
  end.

(** One move of the countdown on its own: the reset when the effect finds
    zero, one firing of the interval when a timer is installed, and no
    move at all ([None]) when there is no countdown. *)
Definition countdownStep (st : AppState) : option AppState :=
  match retryCountdown st with
  | None => None
  | Some n =>
      match countdownEffect st with
      | NoTimer st' => Some st'
      | TimerInstalled st' =>
          Some (setRetryCountdown (tickUpdater (retryCountdown st')) st')
      end
  end.

(** [k] moves of the countdown, stopping early when it has come to rest. *)
Fixpoint countdownRun (k : nat) (st : AppState) : AppState :=
  match k with
  | O => st
  | S k' =>
      match countdownStep st with
      | Some st' => countdownRun k' st'
      | None => st
      end
  end.

(** *** Handlers that do not run the analysis *)

(** The overlay and the OK button of the error modal:
    [onClick={() => { setShowErrorModal(false); }}]. *)
Definition dismissError (st : AppState) : AppState :=
  setShowErrorModal false st.

Definition handleFileSelection (file : option File) (st : AppState) : AppState :=
  match file with
  | None => st
  | Some f =>
      let st1 := setFileName (name f) (setSelectedFile (Some f) st) in
      match status st with
      | error | success => setErrorMsg None (setResult None (setStatus idle st1))
      | _ => st1
      end
  end.

Definition resetAnalysis (st : AppState) : AppState :=
  setSelectedFile None (setFileName "" (setResult None (setStatus idle st))).

(** *** The error classification of the [catch] block *)

(** A value produced by [JSON.parse]. *)
#[warnings="-register-all"]
Inductive JsValue : Type :=
| JNull
| JBool (b : bool)
| JNumber (q : Q)
| JString (s : string)
| JArray (items : list JsValue)
| JObject (fields : list (string * JsValue)).

Fixpoint lookupField (key : string) (fields : list (string * JsValue))
  : option JsValue :=
  match fields with
  | [] => None
  | (k, v) :: rest => if String.eqb k key then Some v else lookupField key rest
  end.

(** [v?.key] for the keys [error] and [message], with [undefined] as
    [None]: only an object produced by the parser can own them. *)
Definition optProp (v : option JsValue) (key : string) : option JsValue :=
  match v with
  | Some (JObject fields) => lookupField key fields
  | _ => None
  end.

(** Truthiness of a possibly undefined value. *)
Definition truthyValue (v : option JsValue) : bool :=
  match v with
  | None => false
  | Some JNull => false
  | Some (JBool b) => b
  | Some (JNumber q) => negb (Qeq_bool q 0)
  | Some (JString s) => Js.truthy s
  | Some (JArray _) => true
  | Some (JObject _) => true
  end.

(** [a || b] where [a] may be undefined. *)
Definition orValue (a : option JsValue) (b : JsValue) : JsValue :=
  match a with
  | Some v => if truthyValue a then v else b
  | None => b
  end.

Inductive ErrorKind : Type :=
| RateLimited | ServiceUnavailable | AuthError | NetworkError | Unknown.

(** What the [catch] block computes before it writes the state: the
    branch taken, the message shown, and [retrySeconds] ([None] is NaN). *)
Record Classified : Type := {
  kind : ErrorKind;
  userMessage : string;
  retryAfterSeconds : option Z
}.

(** Case folding of the regular-expression flag [i] without [u]: a code
    unit from 128 upwards is never folded onto an ASCII one, so only the
    ASCII capitals meet the lower-case letters of a pattern. *)
Definition foldAscii (c : ascii) : ascii :=
  let n := nat_of_ascii c in
  if ((65 <=? n) && (n <=? 90))%nat then ascii_of_nat (n + 32) else c.

(** Matching a literal [pat] (lower-case letters and spaces) at the start
    of [s] under the flag [i]; the rest of [s] on success. *)
Fixpoint stripPrefixCI (pat s : string) : option string :=
  match pat with
  | "" => Some s
  | String p pat' =>
      match s with
      | "" => None
      | String c s' =>
          if Ascii.eqb (foldAscii c) p then stripPrefixCI pat' s' else None
      end
  end.

Definition isDigit (c : ascii) : bool :=
  let n := nat_of_ascii c in ((48 <=? n) && (n <=? 57))%nat.

(** The class [[0-9.]]. *)
Definition isNumChar (c : ascii) : bool := isDigit c || Ascii.eqb c ".".

(** The longest run of characters satisfying [p] at the start of [s], and
    what follows it. *)
Fixpoint span (p : ascii -> bool) (s : string) : string * string :=
  match s with
  | "" => ("", "")
  | String c s' =>
      if p c then let (run, rest) := span p s' in (String c run, rest)
      else ("", s)
  end.

(** [/retry in ([0-9.]+)s/i] tried at the start of [s].  The greedy class
    takes the whole run; giving characters back cannot help, because the
    character then facing the final [s] would be one of the run. *)
Definition retryMatchAt (s : string) : option string :=
  match stripPrefixCI "retry in " s with
  | None => None
  | Some rest =>
      match span isNumChar rest with
      | (String d run, String c _) =>
          if Ascii.eqb (foldAscii c) "s" then Some (String d run) else None
      | _ => None
      end
  end.

(** [m[1]] of [s.match(/retry in ([0-9.]+)s/i)]: the leftmost position
    at which the pattern matches. *)
Fixpoint retryMatch (s : string) : option string :=
  match retryMatchAt s with
  | Some captured => Some captured
  | None =>
      match s with
      | "" => None
      | String _ s' => retryMatch s'
      end
  end.

Fixpoint digitsValue (acc : Z) (s : string) : Z :=
  match s with
  | "" => acc
  | String c s' => digitsValue (10 * acc + Z.of_nat (nat_of_ascii c - 48))%Z s'
  end.

(** [parseFloat] on a text made of digits and dots (all that the capture
    can hold): the longest prefix of the form digits, digits-dot-digits
    or dot-digits, and NaN ([None]) when there is none.  The value is the
    exact decimal; the source rounds it to the nearest double (to
    Infinity beyond the largest one, to 0 below the smallest), which has
    the same ceiling for numerals of up to 15 significant digits and may
    have another one beyond that. *)
Definition parseFloat (s : string) : option Q :=
  let (intPart, rest) := span isDigit s in
  let fracPart :=
    match rest with
    | String c rest' => if Ascii.eqb c "." then fst (span isDigit rest') else ""
    | "" => ""
    end in
  if negb (Js.truthy intPart) && negb (Js.truthy fracPart) then None
  else Some (Qmake (digitsValue 0 (intPart ++ fracPart))
                   (Z.to_pos (10 ^ Z.of_nat (String.length fracPart)))).

(** [Math.ceil], NaN to NaN. *)
Definition Math_ceil (x : option Q) : option Z := option_map Qceiling x.

(** [retrySeconds > 0]. *)
Definition isPositive (x : option Z) : bool :=
  match x with
  | Some z => (0 <? z)%Z
  | None => false
  end.

(** *** The analysis run *)

Record Sys (World : Type) : Type := {
  app : AppState;
  svc : Svc World
}.

Arguments app {World} _.
Arguments svc {World} _.

Definition RATE_LIMIT_MESSAGE : string :=
  "Too many requests. Please wait a moment and try again.".

Definition HIGH_DEMAND_MESSAGE : string :=
  "The AI service is currently experiencing high demand. Please try again in a moment.".

Definition AUTH_MESSAGE : string :=
  "Authentication error. Please check the API configuration.".

Definition NETWORK_MESSAGE : string :=
  "Network error. Please check your connection and try again.".

Definition TOO_SHORT_MESSAGE : string :=
  "Document is too short to be a valid resume. Please upload a complete resume or CV.".

Definition INVALID_DOCUMENT_MESSAGE : string :=
  "The uploaded document does not appear to be a valid resume or CV. Please upload a professional resume containing sections like Education, Skills, Experience, or Projects.".

Section Analysis.

Context {World : Type}.
Variable host : Host.
Variable env : Env World.

(** The untyped [JSON.parse] of the [catch] block. *)
Variable JSON_parse_any : string -> Outcome JsValue.

Local Open Scope js_scope.

(** Lines 118-123: the message after the attempt to unwrap a JSON text.
    The result is whatever [parsed?.error?.message || parsed?.message ||
    rawMsg] evaluates to, which need not be a string. *)
Definition unwrapMessage (rawMsg : string) : JsValue :=
  if Js.startsWith "{" rawMsg || Js.startsWith "[" rawMsg then
    match JSON_parse_any rawMsg with
    | Thrown _ => JString rawMsg
    | Returned parsed =>
        let viaError := optProp (optProp (Some parsed) "error") "message" in
        let direct := optProp (Some parsed) "message" in
        orValue viaError (orValue direct (JString rawMsg))
    end
  else JString rawMsg.

(** Lines 125-149 on a string message. *)
Definition classifyMessage (rawMsg : string) : Classified :=
  let retrySeconds :=
    match retryMatch rawMsg with
    | Some captured => Math_ceil (parseFloat captured)
    | None => Some 0%Z
    end in
  let lowerMsg := Js.toLowerCase rawMsg in
  if Js.includes "quota" lowerMsg || Js.includes "429" lowerMsg
     || Js.includes "rate limit" lowerMsg || Js.includes "exceeded" lowerMsg
  then {| kind := RateLimited; userMessage := RATE_LIMIT_MESSAGE;
          retryAfterSeconds := retrySeconds |}
  else if Js.includes "503" rawMsg || Js.includes "unavailable" lowerMsg
          || Js.includes "high demand" lowerMsg
  then {| kind := ServiceUnavailable; userMessage := HIGH_DEMAND_MESSAGE;
          retryAfterSeconds := retrySeconds |}
  else if Js.includes "API Key" rawMsg || Js.includes "api_key" rawMsg
          || Js.includes "401" rawMsg
  then {| kind := AuthError; userMessage := AUTH_MESSAGE;
          retryAfterSeconds := retrySeconds |}
  else if Js.includes "network" lowerMsg || Js.includes "fetch" lowerMsg
          || Js.includes "failed to fetch" lowerMsg
  then {| kind := NetworkError; userMessage := NETWORK_MESSAGE;
          retryAfterSeconds := retrySeconds |}
  else {| kind := Unknown; userMessage := Js.slice0 500 rawMsg;
          retryAfterSeconds := retrySeconds |}.

(** The classification of a thrown error.  When the unwrapped message is
    not a string, [rawMsg.match] is not a function and the [catch] block
    itself throws a TypeError. *)
Definition classify (err : JsError) : Outcome Classified :=
  match unwrapMessage (message err) with
  | JString rawMsg => Returned (classifyMessage rawMsg)
  | _ => Thrown (mkError "rawMsg.match is not a function")
  end.

Definition update (f : AppState -> AppState) : M (Sys World) unit :=
  modify (fun s => {| app := f (app s); svc := svc s |}).

(** A call into the service from the component. *)
Definition call {A : Type} (m : M (Svc World) A) : M (Sys World) A :=
  fun s =>
    let (outcome, svc') := m (svc s) in
    (outcome, {| app := app s; svc := svc' |}).

(** The [catch (err)] block of [startAnalysis]. *)
Definition handleFailure (err : JsError) : M (Sys World) unit :=
  c <- await (classify err) ;;
  (match kind c with
   | RateLimited =>
       if isPositive (retryAfterSeconds c)
       then update (setRetryCountdown (retryAfterSeconds c))
       else ret tt
   | _ => ret tt
   end) ;;
  update (setErrorMsg (Some (userMessage c))) ;;
  update (setShowErrorModal true) ;;
  update (setStatus error).

(** The length gate of lines 96-98. *)
Definition lengthGate (content : FileContent) : M (Sys World) unit :=
  match content with
  | TextContent text =>
      if (String.length text <? 200)%nat
      then throw (mkError TOO_SHORT_MESSAGE)
      else ret tt
  | ImageContent _ _ => ret tt
  end.

(** The sentinel test of line 103. *)
Definition isSentinel (analysis : ResumeAnalysisResult) : bool :=
  Qeq_bool (overallScore analysis) 0
  && Js.startsWith "INVALID_RESUME" (overallJustification analysis).

Definition startAnalysis : M (Sys World) unit :=
  fun s =>
    match selectedFile (app s) with
    | None =>
        (update (setErrorMsg (Some "Please select a file to analyze.")) ;;
         update (setShowErrorModal true)) s
    | Some file =>
        tryCatch
          (update (setStatus parsing) ;;
           update (setErrorMsg None) ;;
           content <- await (extractContentFromFile host file) ;;
           lengthGate content ;;
           update (setStatus analyzing) ;;
           analysis <- call (analyzeResume env content) ;;
           (if isSentinel analysis
            then throw (mkError INVALID_DOCUMENT_MESSAGE)
            else ret tt) ;;
           update (setResult (Some analysis)) ;;
           update (setStatus success))
          handleFailure s
    end.

End Analysis.

End App.

(* ================================================================== *)
(** ** Notions of the design document *)

Module Spec.

Local Open Scope string_scope.

(** The text of a paginated document: for each page in order, its tokens
    joined by one space, followed by one newline. *)
Definition pagesText (pages : list (list string)) : string :=
  fold_right (fun items rest => (String.concat " " items ++ Js.LF ++ rest)%string)
             "" pages.

(** [needle] occurs in [s]. *)
Definition contains (needle s : string) : Prop :=
  exists pre post, s = pre ++ needle ++ post.

(** [needle] (in lower case) occurs in [s] in some mix of cases. *)
Definition containsIgnoringCase (needle s : string) : Prop :=
  exists pre mid post, s = pre ++ mid ++ post /\ Js.toLowerCase mid = needle.

(** The MIME type the extractor is to report for an image: the declared
    type, else the one of the data-URI prefix, else the default. *)
Definition expectedMime (declared fromPrefix : string) : string :=
  if Js.truthy declared then declared
  else if Js.truthy fromPrefix then fromPrefix
  else "image/jpeg".

(** The file is one the extractor treats as an image. *)
Definition isImageFile (file : FileParser.File) : Prop :=
  (exists e, FileParser.extensionOf file = Some e /\ In e FileParser.imageExtensions)
  \/ Js.startsWith "image/" (FileParser.type file) = true.

(** *** The fallback chain *)

(** One call of the remote capability and what came back. *)
Definition Attempt : Type :=
  (GeminiService.GenerateRequest * Outcome GeminiService.GenerateResponse)%type.

Definition asEvents (attempts : list Attempt) : list GeminiService.Event :=
  map (fun a => GeminiService.ModelAttempt (fst a) (snd a)) attempts.

Definition requestFor (contents : GeminiService.Contents)
    (config : GeminiService.GenerationConfig) (modelName : string)
  : GeminiService.GenerateRequest :=
  {| GeminiService.model := modelName;
     GeminiService.contents := contents;
     GeminiService.config := config |}.

Definition failed (a : Attempt) : Prop := exists e, snd a = Thrown e.

Fixpoint lastOf {A : Type} (l : list A) : option A :=
  match l with
  | [] => None
  | [x] => Some x
  | _ :: l' => lastOf l'
  end.

(** The attempts are real calls, made one after the other: each outcome
    is what the remote capability answered in the state the previous call
    left. *)
Inductive Played {World : Type} (env : GeminiService.Env World)
  : World -> list Attempt -> World -> Prop :=
| Played_none (w : World) : Played env w [] w
| Played_call (w w' w'' : World) (request : GeminiService.GenerateRequest)
    (outcome : Outcome GeminiService.GenerateResponse) (rest : list Attempt) :
    GeminiService.generateContent env request w = (outcome, w') ->
    Played env w' rest w'' ->
    Played env w ((request, outcome) :: rest) w''.

(** The service state just after [analyzeResume] has been entered. *)
Definition entered {World : Type} (input : FileContent)
    (s : GeminiService.Svc World) : GeminiService.Svc World :=
  {| GeminiService.remote := GeminiService.remote s;
     GeminiService.log := GeminiService.log s ++ [GeminiService.AnalyzeInvoked input] |}.

(** The text payload of a response is empty, or does not parse; [e] is
    the error this raises. *)
Definition unparsable {World : Type} (env : GeminiService.Env World)
    (response : GeminiService.GenerateResponse) (e : JsError) : Prop :=
  ((GeminiService.text response = None \/ GeminiService.text response = Some "")
   /\ e = mkError "Empty response from Gemini.")
  \/ (exists jsonText,
        GeminiService.text response = Some jsonText /\ jsonText <> ""
        /\ GeminiService.JSON_parse env jsonText = Thrown e).

(** *** The sentinel *)

Definition isSentinel (analysis : ResumeAnalysisResult) : Prop :=
  Qeq (overallScore analysis) 0
  /\ exists rest, overallJustification analysis = "INVALID_RESUME" ++ rest.

(** *** Retry delays *)

(** Two texts that differ in case only. *)
Definition equalIgnoringCase (a b : string) : Prop :=
  Js.toLowerCase a = Js.toLowerCase b.

Fixpoint allChars (p : ascii -> bool) (s : string) : bool :=
  match s with
  | "" => true
  | String c s' => p c && allChars p s'
  end.

(** The number a row of decimal digits writes, by place value. *)
Fixpoint digitsNumber (s : string) : Z :=
  match s with
  | "" => 0%Z
  | String c s' =>
      (Z.of_nat (nat_of_ascii c - 48) * 10 ^ Z.of_nat (String.length s')
       + digitsNumber s')%Z
  end.

(** A decimal numeral: the integer digits, and when there are fraction
    digits a dot followed by them. *)
Definition decimalText (intPart fracPart : string) : string :=
  if Js.truthy fracPart then intPart ++ "." ++ fracPart else intPart.

(** The number that numeral writes. *)
Definition decimalValue (intPart fracPart : string) : Q :=
  (inject_Z (digitsNumber intPart)
   + Qmake (digitsNumber fracPart)
           (Z.to_pos (10 ^ Z.of_nat (String.length fracPart))))%Q.

(** The text [R] opens with an r and an e, in either case. *)
Definition opensKeyword (R : string) : Prop :=
  exists r0 e0 R', R = String r0 (String e0 R')
                   /\ App.foldAscii r0 = "r"%char /\ App.foldAscii e0 = "e"%char.

(** *** The state the [catch] block leaves *)

(** Arming of the countdown: only in the rate-limit branch, and only
    with a delay above zero. *)
Definition armed (c : App.Classified) (st : App.AppState) : App.AppState :=
  match App.kind c with
  | App.RateLimited =>
      if App.isPositive (App.retryAfterSeconds c)
      then App.setRetryCountdown (App.retryAfterSeconds c) st
      else st
  | _ => st
  end.

Definition reported (c : App.Classified) (st : App.AppState) : App.AppState :=
  App.setStatus error
    (App.setShowErrorModal true
       (App.setErrorMsg (Some (App.userMessage c)) (armed c st))).

(** The component state when the analysis is about to be requested. *)
Definition analyzingState (st : App.AppState) : App.AppState :=
  App.setStatus analyzing (App.setErrorMsg None (App.setStatus parsing st)).

End Spec.

(* ================================================================== *)
(** ** Concrete hosts, files and services *)

Module Samples.

Import FileParser.
Local Open Scope string_scope.

Definition noReader : File -> Outcome (option string) :=
  fun _ => Thrown (mkError "").

Definition threePages : PdfDocument :=
  {| numPages := 3;
     getPageItems := fun i =>
       match i with
       | 1 => Returned ["A"]
       | 2 => Returned ["B"]
       | 3 => Returned ["C"]
       | _ => Thrown (mkError "Invalid page request.")
       end |}.

Definition pdfHost : Host :=
  {| readAsDataURL := noReader;
     readAsText := noReader;
     pdfjsLib := Some (fun _ => Returned threePages);
     mammoth := None |}.

Definition resumePdf : File :=
  {| name := "RESUME.PDF"; type := "application/pdf"; bytes := [] |}.

(** A reader that hands every file back as a PNG data URI. *)
Definition pngHost : Host :=
  {| readAsDataURL := fun _ => Returned (Some "data:image/png;base64,iVBORw0KGgo=");
     readAsText := noReader;
     pdfjsLib := None;
     mammoth := None |}.

(** A reader whose data URI carries no media type. *)
Definition bareHost : Host :=
  {| readAsDataURL := fun _ => Returned (Some "data:;base64,iVBORw0KGgo=");
     readAsText := noReader;
     pdfjsLib := None;
     mammoth := None |}.

Definition untypedPhoto : File :=
  {| name := "photo.png"; type := ""; bytes := [] |}.

(** A plain-text host and a file whose name has no dot. *)
Definition textHost : Host :=
  {| readAsDataURL := noReader;
     readAsText := fun _ => Returned (Some "curriculum vitae");
     pdfjsLib := None;
     mammoth := None |}.

Definition fileNamedTxt : File :=
  {| name := "txt"; type := ""; bytes := [] |}.

Definition fileNamedReadme : File :=
  {| name := "README"; type := ""; bytes := [] |}.

(** *** Remote services *)

Import GeminiService.

Definition analysisOf (overall : Q) (justification : string)
  : ResumeAnalysisResult :=
  {| overallScore := overall;
     overallJustification := justification;
     sectionAnalysis := [];
     atsCompatibility := {| score := overall; issues := [] |};
     keywordAnalysis := {| found := []; missing := [] |};
     jobMatches := [];
     contentQuality := {| actionVerbsUsage := "N/A";
                          quantifiedAchievements := "N/A";
                          clarity := "N/A";
                          professionalTone := "N/A" |};
     dos := [];
     donts := [];
     specificImprovements := [];
     finalVerdict := {| impression := "N/A";
                        strength := Average;
                        priorityImprovements := [] |} |}.

(** The first model answers with a page of HTML, every other model with
    a JSON text that parses. *)
Definition htmlFirstEnv : Env unit :=
  {| generateContent := fun request w =>
       (if String.eqb (model request) "gemini-2.5-flash"
        then Returned {| text := Some "<html>" |}
        else Returned {| text := Some "{}" |}, w);
     VITE_GEMINI_API_KEY := Some "key";
     JSON_parse := fun jsonText =>
       if String.eqb jsonText "{}" then Returned (analysisOf (7 # 1) "Solid.")
       else Thrown (mkError "Unexpected token < in JSON at position 0") |}.

(** Every model fails, each with its own message. *)
Definition allFailEnv : Env unit :=
  {| generateContent := fun request w =>
       (Thrown (mkError ("no answer from " ++ model request)), w);
     VITE_GEMINI_API_KEY := Some "key";
     JSON_parse := fun _ => Thrown (mkError "Unexpected end of JSON input") |}.

(** The remote service answers at once; the parsed result is [analysis]. *)
Definition answeringEnv (analysis : ResumeAnalysisResult) : Env unit :=
  {| generateContent := fun _ w => (Returned {| text := Some "{}" |}, w);
     VITE_GEMINI_API_KEY := Some "key";
     JSON_parse := fun _ => Returned analysis |}.

Definition freshSvc : Svc unit := {| remote := tt; log := [] |}.

(** *** Component states *)

Import App.

Definition initialState (file : option File) : AppState :=
  {| status := idle; result := None; errorMsg := None;
     showErrorModal := false; retryCountdown := None;
     selectedFile := file; fileName := "" |}.

Definition sysWith {World : Type} (file : File) (service : Svc World) : Sys World :=
  {| app := initialState (Some file); svc := service |}.

(** A [JSON.parse] that accepts nothing. *)
Definition noJson : string -> Outcome JsValue :=
  fun _ => Thrown (mkError "Unexpected token").

Definition shortCv : File :=
  {| name := "cv.txt"; type := "text/plain"; bytes := [] |}.

Fixpoint repeatText (n : nat) (s : string) : string :=
  match n with
  | O => ""
  | S n' => s ++ repeatText n' s
  end.

(** 240 characters of text. *)
Definition longText : string := repeatText 20 "Experience. ".

Definition longTextHost : Host :=
  {| readAsDataURL := noReader;
     readAsText := fun _ => Returned (Some longText);
     pdfjsLib := None;
     mammoth := None |}.

(** A countdown at three seconds, with the error modal open. *)
Definition countingAtThree : AppState :=
  {| status := error; result := None;
     errorMsg := Some RATE_LIMIT_MESSAGE;
     showErrorModal := true; retryCountdown := Some 3%Z;
     selectedFile := None; fileName := "" |}.

End Samples.

(* ================================================================== *)
(** ** components/ScoreGauge.tsx *)

Module ScoreGauge.

Local Open Scope string_scope.

(** Scores are the numbers of the parsed result, kept exact here; the
    source compares doubles, which agree with the exact comparison for
    every score written with up to 15 significant digits. *)
Record ScoreDetails : Type := {
  color : string;
  shadowColor : string;
  label : string
}.

Definition getScoreDetails (s : Q) : ScoreDetails :=
  if Qle_bool s 0 then
    {| color := "#4B5563"; shadowColor := "rgba(75, 85, 99, 0.4)";
       label := "Not Capable" |}
  else if Qle_bool s (7 # 2) then
    {| color := "#EF4444"; shadowColor := "rgba(239, 68, 68, 0.4)";
       label := "Worst" |}
  else if Qle_bool s (11 # 2) then
    {| color := "#F97316"; shadowColor := "rgba(249, 115, 22, 0.4)";
       label := "Bad" |}
  else if Qle_bool s (15 # 2) then
    {| color := "#EAB308"; shadowColor := "rgba(234, 179, 8, 0.4)";
       label := "Average" |}
  else if negb (Qle_bool (49 # 5) s) then
    {| color := "#22C55E"; shadowColor := "rgba(34, 197, 94, 0.4)";
       label := "Good" |}
  else
    {| color := "#FFD700"; shadowColor := "rgba(255, 215, 0, 0.5)";
       label := "Best" |}.

(** [Math.max] and [Math.min] on numbers that are not NaN. *)
Definition Math_max (a b : Q) : Q := if Qle_bool a b then b else a.
Definition Math_min (a b : Q) : Q := if Qle_bool a b then a else b.

(** [const progress = Math.min(Math.max(score, 0), 10)]. *)
Definition progress (score : Q) : Q := Math_min (Math_max score 0) 10.

(** [circumference - (progress / 10) * circumference], for the
    circumference [2 * Math.PI * radius] of the ring. *)
Definition strokeDashoffset (circumference score : Q) : Q :=
  (circumference - (progress score / 10) * circumference)%Q.

(** [const isPerfect = score >= 9.8], which decides the sparkles. *)
Definition isPerfect (score : Q) : bool := Qle_bool (49 # 5) score.

End ScoreGauge.

(* ================================================================== *)
(** ** App.tsx: what is rendered, and the report file name *)

Module AppRender.

Import App.
Local Open Scope string_scope.

(** The three views of [main], each guarded by the status. *)
Definition showsLanding (st : AppState) : bool :=
  match status st with
  | idle | error => true
  | _ => false
  end.

Definition showsLoading (st : AppState) : bool :=
  match status st with
  | parsing | validating | analyzing => true
  | _ => false
  end.

(** [status === 'success' && result]. *)
Definition showsResults (st : AppState) : bool :=
  match status st, result st with
  | success, Some _ => true
  | _, _ => false
  end.

(** [showErrorModal && errorMsg]: the overlay needs a truthy message. *)
Definition errorModalVisible (st : AppState) : bool :=
  showErrorModal st
  && match errorMsg st with
     | Some msg => Js.truthy msg
     | None => false
     end.

(** The title of the modal: [errorMsg?.includes(...) ||
    errorMsg?.includes(...) ? 'Invalid Document' : 'Something went wrong']. *)
Definition modalTitle (st : AppState) : string :=
  match errorMsg st with
  | Some msg =>
      if Js.includes "does not appear to be a valid resume" msg
         || Js.includes "too short" msg
      then "Invalid Document"
      else "Something went wrong"
  | None => "Something went wrong"
  end.

(** The line "You can retry in {n}s" inside the modal:
    [retryCountdown !== null && retryCountdown > 0]. *)
Definition retryLineVisible (st : AppState) : bool :=
  errorModalVisible st
  && match retryCountdown st with
     | Some n => (0 <? n)%Z
     | None => false
     end.

(** The heading beside the gauge. *)
Definition headline (overall : Q) : string :=
  if Qle_bool 8 overall then "Excellent Potential"
  else if Qle_bool 6 overall then "Good Potential"
  else "Needs Improvement".

(** The class [[^/.]]. *)
Definition isStemChar (c : ascii) : bool :=
  negb (Ascii.eqb c "/" || Ascii.eqb c ".").

Fixpoint every (p : ascii -> bool) (s : string) : bool :=
  match s with
  | "" => true
  | String c s' => p c && every p s'
  end.

(** [fileName.replace(/\.[^/.]+$/, "")]: the pattern matches at the
    first dot that is followed, up to the end of the name, by one or more
    characters other than a slash or a dot; the match is removed. *)
Fixpoint stripExtension (fileName : string) : string :=
  match fileName with
  | "" => ""
  | String c rest =>
      if Ascii.eqb c "." && Js.truthy rest && every isStemChar rest
      then ""
      else String c (stripExtension rest)
  end.

(** [const safeFileName = fileName.replace(/\.[^/.]+$/, "") || 'resume']. *)
Definition safeFileName (fileName : string) : string :=
  Js.orElse (stripExtension fileName) "resume".

(** [`${safeFileName}_analysis_report.pdf`]. *)
Definition savedReportName (fileName : string) : string :=
  safeFileName fileName ++ "_analysis_report.pdf".

End AppRender.

(* ================================================================== *)
(** ** Further notions *)

Module Notions.

Import App.
Local Open Scope string_scope.

(** The markers the classification looks for. *)
Definition rateMarked (msg : string) : Prop :=
  Spec.containsIgnoringCase "quota" msg
  \/ Spec.containsIgnoringCase "429" msg
  \/ Spec.containsIgnoringCase "rate limit" msg
  \/ Spec.containsIgnoringCase "exceeded" msg.

Definition unavailableMarked (msg : string) : Prop :=
  Spec.contains "503" msg
  \/ Spec.containsIgnoringCase "unavailable" msg
  \/ Spec.containsIgnoringCase "high demand" msg.

Definition authMarked (msg : string) : Prop :=
  Spec.contains "API Key" msg
  \/ Spec.contains "api_key" msg
  \/ Spec.contains "401" msg.

Definition networkMarked (msg : string) : Prop :=
  Spec.containsIgnoringCase "network" msg
  \/ Spec.containsIgnoringCase "fetch" msg
  \/ Spec.containsIgnoringCase "failed to fetch" msg.

Definition fixedMessages : list string :=
  [RATE_LIMIT_MESSAGE; HIGH_DEMAND_MESSAGE; AUTH_MESSAGE; NETWORK_MESSAGE].

(** A stored result is never a sentinel, and the success status always
    comes with a stored result. *)
Definition consistent (st : AppState) : Prop :=
  (status st = success -> result st <> None)
  /\ (forall r, result st = Some r -> isSentinel r = false).

(** The extension is one of the three text formats. *)
Definition textExtension (e : string) : Prop :=
  e = "txt" \/ e = "pdf" \/ e = "docx".

(** The configured key is absent or empty. *)
Definition keyMissing {World : Type} (env : GeminiService.Env World) : Prop :=
  GeminiService.VITE_GEMINI_API_KEY env = None
  \/ GeminiService.VITE_GEMINI_API_KEY env = Some "".

Definition KEY_MISSING_MESSAGE : string :=
  "API Key is missing. Please set VITE_GEMINI_API_KEY.".

(** The numeral that the retry pattern captures in the unwrapped message
    of the error, if there is one, has at most 15 characters: the doubles
    of the source then read it without rounding its ceiling. *)
Definition shortDelay (parse : string -> Outcome JsValue) (err : JsError) : Prop :=
  forall msg captured,
    unwrapMessage parse (message err) = JString msg ->
    retryMatch msg = Some captured ->
    (String.length captured <= 15)%nat.

(** The component state once the file is being read. *)
Definition parsingState (st : AppState) : AppState :=
  setErrorMsg None (setStatus parsing st).

End Notions.

(* ================================================================== *)
(** ** Further concrete hosts, files and services *)

Module MoreSamples.

Import FileParser GeminiService App.
Local Open Scope string_scope.

Definition archive : File :=
  {| name := "backup.tar.gz"; type := "application/gzip"; bytes := [] |}.

(** A name without a dot that spells an extension in capitals. *)
Definition fileNamedDocx : File :=
  {| name := "DOCX"; type := ""; bytes := [] |}.

Definition reportDocx : File :=
  {| name := "Report.DOCX"; type := ""; bytes := [] |}.

(** Page 1 reads, page 2 is damaged, page 3 would read. *)
Definition damagedPdf : PdfDocument :=
  {| numPages := 3;
     getPageItems := fun i =>
       match i with
       | 1 => Returned ["Jane"; "Doe"]
       | 2 => Returned ["Skills"]
       | 3 => Thrown (mkError "Invalid page structure")
       | _ => Thrown (mkError "Invalid page request.")
       end |}.

Definition damagedPdfHost : Host :=
  {| readAsDataURL := Samples.noReader;
     readAsText := Samples.noReader;
     pdfjsLib := Some (fun _ => Returned damagedPdf);
     mammoth := None |}.

(** A reader whose result has no comma. *)
Definition commalessHost : Host :=
  {| readAsDataURL := fun _ => Returned (Some "data:image/png;base64");
     readAsText := Samples.noReader;
     pdfjsLib := None;
     mammoth := None |}.

(** A service without a key. *)
Definition keylessEnv : Env unit :=
  {| generateContent := fun _ w => (Returned {| text := Some "{}" |}, w);
     VITE_GEMINI_API_KEY := None;
     JSON_parse := fun _ => Returned (Samples.analysisOf (7 # 1) "Solid.") |}.

(** An untyped [JSON.parse] that reads every text as the body
    [{"message": 404}]. *)
Definition numericMessageJson : string -> Outcome JsValue :=
  fun _ => Returned (JObject [("message", JNumber (404 # 1))]).

(** One that reads every text as
    [{"error": {"code": 429, "message": "Resource has been exhausted"}}]. *)
Definition exhaustedBodyJson : string -> Outcome JsValue :=
  fun _ => Returned
    (JObject [("error",
               JObject [("code", JNumber (429 # 1));
                        ("message", JString "Resource has been exhausted")])]).

(** The text of that body. *)
Definition exhaustedBodyText : string :=
  "{" ++ DQ ++ "error" ++ DQ ++ ":{" ++ DQ ++ "code" ++ DQ ++ ":429,"
  ++ DQ ++ "message" ++ DQ ++ ":" ++ DQ ++ "Resource has been exhausted"
  ++ DQ ++ "}}".

(** The component after a successful analysis, before the catch block
    of a later failed run reports a rate limit. *)
Definition afterSuccess : AppState :=
  {| status := analyzing;
     result := Some (Samples.analysisOf (7 # 1) "Solid.");
     errorMsg := None; showErrorModal := false; retryCountdown := None;
     selectedFile := Some Samples.shortCv; fileName := "cv.txt" |}.

(** Every model fails with a JSON text as its message. *)
Definition jsonFailEnv : Env unit :=
  {| generateContent := fun _ w =>
       (Thrown (mkError ("{" ++ DQ ++ "message" ++ DQ ++ ":404}")), w);
     VITE_GEMINI_API_KEY := Some "key";
     JSON_parse := fun _ => Thrown (mkError "Unexpected end of JSON input") |}.

Definition longCv : File :=
  {| name := "cv.txt"; type := "text/plain"; bytes := [] |}.

End MoreSamples.

(* ================================================================== *)
(** ** Facts about the string primitives *)

Module JsFacts.

Import Js.
Local Open Scope string_scope.

Lemma append_assoc (a b c : string) : (a ++ b) ++ c = a ++ b ++ c.
Proof. induction a as [|x a IH]; simpl; [reflexivity | now rewrite IH]. Qed.

Lemma append_empty_r (a : string) : a ++ "" = a.
Proof. induction a as [|x a IH]; simpl; [reflexivity | now rewrite IH]. Qed.

Lemma toLowerCase_app (a b : string) :
  toLowerCase (a ++ b) = toLowerCase a ++ toLowerCase b.
Proof. induction a as [|x a IH]; simpl; [reflexivity | now rewrite IH]. Qed.

Lemma prefix_app (p s : string) : String.prefix p (p ++ s) = true.
Proof.
  induction p as [|x p IH]; simpl.
  - now destruct s.
  - destruct (ascii_dec x x) as [_|N]; [exact IH | now elim N].
Qed.

Lemma includes_unfold (sub s : string) :
  includes sub s
  = String.prefix sub s
    || match s with
       | "" => false
       | String _ s' => includes sub s'
       end.
Proof. destruct s; reflexivity. Qed.

Lemma includes_here (sub s : string) : includes sub (sub ++ s) = true.
Proof. rewrite includes_unfold, prefix_app. reflexivity. Qed.

Lemma includes_app (pre sub post : string) :
  includes sub (pre ++ sub ++ post) = true.
Proof.
  induction pre as [|x pre IH].
  - change ("" ++ sub ++ post) with (sub ++ post). apply includes_here.
  - change (String x pre ++ sub ++ post) with (String x (pre ++ sub ++ post)).
    rewrite includes_unfold, IH. apply orb_true_r.
Qed.

Lemma split_not_nil (sep : ascii) (s : string) : split sep s <> [].
Proof.
  destruct s as [|c s]; simpl; [discriminate|].
  destruct (Ascii.eqb c sep); [discriminate|].
  destruct (split sep s); discriminate.
Qed.

Lemma split_no_sep (sep : ascii) (s : string) :
  occurs sep s = false -> split sep s = [s].
Proof.
  induction s as [|c s IH]; simpl; intros H; [reflexivity|].
  apply orb_false_iff in H as [Hc Hs].
  rewrite Hc, (IH Hs). reflexivity.
Qed.

Lemma split_at_first (sep : ascii) (a b : string) :
  occurs sep a = false ->
  split sep (a ++ String sep b) = a :: split sep b.
Proof.
  induction a as [|c a IH]; simpl; intros H.
  - now rewrite Ascii.eqb_refl.
  - apply orb_false_iff in H as [Hc Ha].
    rewrite Hc, (IH Ha). reflexivity.
Qed.

Lemma occurs_app (c : ascii) (a b : string) :
  occurs c (a ++ b) = occurs c a || occurs c b.
Proof.
  induction a as [|x a IH]; simpl; [reflexivity|].
  now rewrite IH, orb_assoc.
Qed.

Lemma pop_cons (x : string) (l : list string) :
  l <> [] -> pop (x :: l) = pop l.
Proof. destruct l; [congruence | reflexivity]. Qed.

Lemma pop_app (l l' : list string) : l' <> [] -> pop (l ++ l') = pop l'.
Proof.
  intros H. induction l as [|x l IH]; [reflexivity|].
  change (pop (x :: (l ++ l')%list) = pop l').
  rewrite pop_cons; [exact IH|].
  destruct l; simpl; [exact H | discriminate].
Qed.

Lemma split_app_sep (sep : ascii) (pre suf : string) :
  exists l, l <> [] /\ split sep (pre ++ String sep suf) = (l ++ split sep suf)%list.
Proof.
  induction pre as [|c pre [l [N IH]]]; simpl.
  - rewrite Ascii.eqb_refl. exists [""]. split; [discriminate | reflexivity].
  - destruct (Ascii.eqb c sep).
    + exists ("" :: l). split; [discriminate | now rewrite IH].
    + rewrite IH. destruct l as [|h t]; [congruence|].
      exists (String c h :: t). split; [discriminate | reflexivity].
Qed.

Lemma pop_split_after_last (sep : ascii) (pre suf : string) :
  occurs sep suf = false ->
  pop (split sep (pre ++ String sep suf)) = Some suf.
Proof.
  intros H. destruct (split_app_sep sep pre suf) as [l [_ E]].
  rewrite E, pop_app by apply split_not_nil.
  now rewrite (split_no_sep _ _ H).
Qed.

Lemma arrayIncludes_In (l : list string) (x : string) :
  arrayIncludes l x = true <-> In x l.
Proof.
  induction l as [|y l IH]; simpl.
  - split; [discriminate | tauto].
  - rewrite orb_true_iff, IH, String.eqb_eq. tauto.
Qed.

End JsFacts.

(* ================================================================== *)
(** ** Content extraction *)

Module FileParserFacts.

Import Js FileParser JsFacts.
Local Open Scope string_scope.

(** The page loop, started at page [i] with [acc] already collected, adds
    the pages from [i] on in their order. *)
Lemma readPages_collects (pdf : PdfDocument) (pages : list (list string)) :
  forall (i : nat) (acc : string),
    (forall k, (k < length pages)%nat ->
               getPageItems pdf (i + k) = Returned (nth k pages [])) ->
    readPages pdf (length pages) i acc = Returned (acc ++ Spec.pagesText pages).
Proof.
  induction pages as [|items pages IH]; intros i acc H; simpl.
  - now rewrite append_empty_r.
  - pose proof (H 0%nat) as H0. simpl in H0.
    rewrite Nat.add_0_r in H0. rewrite H0 by lia.
    rewrite IH.
    + now rewrite !append_assoc.
    + intros k Hk. specialize (H (S k)). simpl in H.
      rewrite Nat.add_succ_r in H. apply H. lia.
Qed.

(** C7.  A paginated document whose pages 1..n deliver the token lists
    [pages] is extracted as the pages in order, the tokens of a page
    joined by one space and one newline after every page. *)
Theorem readPdfFile_pages_in_order
    (host : Host) (file : File) (getDocument : File -> Outcome PdfDocument)
    (pdf : PdfDocument) (pages : list (list string)) :
  pdfjsLib host = Some getDocument ->
  getDocument file = Returned pdf ->
  numPages pdf = length pages ->
  (forall k, (k < length pages)%nat ->
             getPageItems pdf (S k) = Returned (nth k pages [])) ->
  readPdfFile host file = Returned (Spec.pagesText pages).
Proof.
  intros Hlib Hdoc Hn Hpages. unfold readPdfFile.
  rewrite Hlib, Hdoc, Hn.
  apply (readPages_collects pdf pages 1 "").
  intros k Hk. now apply Hpages.
Qed.

(** The three pages "A", "B", "C" give "A\nB\nC\n". *)
Lemma readPdfFile_three_pages :
  readPdfFile Samples.pdfHost Samples.resumePdf
  = Returned ("A" ++ LF ++ "B" ++ LF ++ "C" ++ LF).
Proof.
  apply (readPdfFile_pages_in_order Samples.pdfHost Samples.resumePdf
           (fun _ => Returned Samples.threePages) Samples.threePages
           [["A"]; ["B"]; ["C"]]).
  - reflexivity.
  - reflexivity.
  - reflexivity.
  - intros k Hk. simpl in Hk.
    destruct k as [|[|[|k]]]; [reflexivity | reflexivity | reflexivity | lia].
Defined.

Lemma lazyUntilSemicolon_plain (m rest : string) :
  occurs ";" m = false ->
  (forall c, isLineTerminator c = true -> occurs c m = false) ->
  lazyUntilSemicolon (m ++ String ";" rest) = Some m.
Proof.
  induction m as [|c m IH]; simpl; intros Hs Hl; [reflexivity|].
  apply orb_false_iff in Hs as [Hc Hm]. rewrite Hc.
  destruct (isLineTerminator c) eqn:Lc.
  - specialize (Hl c Lc). simpl in Hl. now rewrite Ascii.eqb_refl in Hl.
  - rewrite IH; [reflexivity | exact Hm |].
    intros d Hd. specialize (Hl d Hd). simpl in Hl.
    now apply orb_false_iff in Hl.
Qed.

Lemma dispatch_image (host : Host) (file : File) :
  Spec.isImageFile file ->
  extractContentFromFile host file = readImageFile host file.
Proof.
  intros H. unfold extractContentFromFile.
  destruct H as [[e [He Hin]] | Hm].
  - rewrite He. apply arrayIncludes_In in Hin. now rewrite Hin.
  - rewrite Hm, orb_true_r. reflexivity.
Qed.

(** C8.  For an image file whose reader delivers the data URI
    [data:<m>;<params>,<payload>] (no comma inside the three pieces, no
    semicolon or line break inside [m]), the extracted payload is exactly
    [payload], and the MIME type is the declared one when it is not
    empty, else [m] when that is not empty, else [image/jpeg]. *)
Theorem readImageFile_payload_and_mime
    (host : Host) (file : File) (m params payload : string) :
  Spec.isImageFile file ->
  readAsDataURL host file
  = Returned (Some ("data:" ++ m ++ ";" ++ params ++ "," ++ payload)) ->
  occurs "," m = false ->
  occurs "," params = false ->
  occurs "," payload = false ->
  occurs ";" m = false ->
  (forall c, isLineTerminator c = true -> occurs c m = false) ->
  extractContentFromFile host file
  = Returned (ImageContent (Spec.expectedMime (type file) m) (Some payload)).
Proof.
  intros Himg Hread Hm Hp Hd Hsemi Hlt.
  rewrite (dispatch_image host file Himg).
  unfold readImageFile. rewrite Hread.
  change (negb (truthy ("data:" ++ m ++ ";" ++ params ++ "," ++ payload)))
    with false. cbv iota.
  assert (Hsplit : split "," ("data:" ++ m ++ ";" ++ params ++ "," ++ payload)
                   = [("data:" ++ m ++ ";" ++ params); payload]).
  { replace ("data:" ++ m ++ ";" ++ params ++ "," ++ payload)
      with (("data:" ++ m ++ ";" ++ params) ++ String "," payload)
      by (now rewrite !append_assoc).
    rewrite split_at_first.
    - now rewrite (split_no_sep _ _ Hd).
    - rewrite !occurs_app, Hm, Hp. reflexivity. }
  rewrite Hsplit. cbn [nth_error nth].
  assert (Hmatch : matchMimeInPrefix ("data:" ++ m ++ ";" ++ params) = Some m).
  { cbn. now rewrite lazyUntilSemicolon_plain. }
  rewrite Hmatch.
  unfold Spec.expectedMime, orElse.
  destruct (truthy (type file)) eqn:Tt; cbn.
  - now rewrite Tt.
  - reflexivity.
Qed.

(** The data-URI prefix [data:image/png;base64,] with no declared type
    gives [image/png]; an empty media type gives the default. *)
Lemma readImageFile_png_and_default :
  extractContentFromFile Samples.pngHost Samples.untypedPhoto
  = Returned (ImageContent "image/png" (Some "iVBORw0KGgo="))
  /\ extractContentFromFile Samples.bareHost Samples.untypedPhoto
     = Returned (ImageContent "image/jpeg" (Some "iVBORw0KGgo=")).
Proof.
  split.
  - apply (readImageFile_payload_and_mime Samples.pngHost Samples.untypedPhoto
             "image/png" "base64" "iVBORw0KGgo=").
    + left. exists "png". split; [reflexivity | simpl; tauto].
    + reflexivity.
    + reflexivity.
    + reflexivity.
    + reflexivity.
    + reflexivity.
    + intros c Hc. unfold isLineTerminator in Hc.
      apply orb_true_iff in Hc as [Hc | Hc];
        apply Ascii.eqb_eq in Hc; subst c; reflexivity.
  - apply (readImageFile_payload_and_mime Samples.bareHost Samples.untypedPhoto
             "" "base64" "iVBORw0KGgo=").
    + left. exists "png". split; [reflexivity | simpl; tauto].
    + reflexivity.
    + reflexivity.
    + reflexivity.
    + reflexivity.
    + reflexivity.
    + intros c Hc. reflexivity.
Defined.

Lemma dispatch_not_image (host : Host) (file : File) :
  ~ Spec.isImageFile file ->
  extractContentFromFile host file
  = let extension := extensionOf file in
    if caseIs extension "txt" then asText (readTextFile host file)
    else if caseIs extension "pdf" then asText (readPdfFile host file)
    else if caseIs extension "docx" then asText (readDocxFile host file)
    else Thrown (mkError ("Unsupported file type: ." ++ showExtension extension)).
Proof.
  intros N. unfold extractContentFromFile.
  destruct (startsWith "image/" (type file)) eqn:Hm.
  { elim N. now right. }
  rewrite orb_false_r.
  destruct (extensionOf file) as [e|] eqn:He.
  - destruct (arrayIncludes imageExtensions e) eqn:Hi; [|reflexivity].
    elim N. left. exists e. split; [exact He | now apply arrayIncludes_In].
  - reflexivity.
Qed.

Lemma extensionOf_no_dot (file : File) :
  occurs "." (name file) = false ->
  extensionOf file = Some (toLowerCase (name file)).
Proof.
  intros H. unfold extensionOf. now rewrite (split_no_sep _ _ H).
Qed.

(** C10, as the code has it.  The extension is the lower-cased text after
    the last dot of the name, and the whole lower-cased name when there
    is no dot.  A file that is not an image is read by the plain-text
    reader when its extension is [txt], by the paginated-document reader
    when it is [pdf] and by the structured-document reader when it is
    [docx]; this holds for a name without a dot too, whose lower-cased
    whole is then the extension.  A name without a dot is refused as
    unsupported when the file is not an image and the lower-cased name
    is none of [txt], [pdf], [docx]. *)
Theorem extension_dispatch (host : Host) (file : File) :
  (forall pre suf, name file = pre ++ "." ++ suf -> occurs "." suf = false ->
                   extensionOf file = Some (toLowerCase suf))
  /\ (occurs "." (name file) = false ->
      extensionOf file = Some (toLowerCase (name file)))
  /\ (~ Spec.isImageFile file ->
      (extensionOf file = Some "txt" ->
       extractContentFromFile host file = asText (readTextFile host file))
      /\ (extensionOf file = Some "pdf" ->
          extractContentFromFile host file = asText (readPdfFile host file))
      /\ (extensionOf file = Some "docx" ->
          extractContentFromFile host file = asText (readDocxFile host file)))
  /\ (occurs "." (name file) = false -> ~ Spec.isImageFile file ->
      (toLowerCase (name file) = "txt" ->
       extractContentFromFile host file = asText (readTextFile host file))
      /\ (toLowerCase (name file) = "pdf" ->
          extractContentFromFile host file = asText (readPdfFile host file))
      /\ (toLowerCase (name file) = "docx" ->
          extractContentFromFile host file = asText (readDocxFile host file)))
  /\ (occurs "." (name file) = false -> ~ Spec.isImageFile file ->
      ~ In (toLowerCase (name file)) ["txt"; "pdf"; "docx"] ->
      extractContentFromFile host file
      = Thrown (mkError ("Unsupported file type: ." ++ toLowerCase (name file)))).
Proof.
  assert (D : ~ Spec.isImageFile file ->
              (extensionOf file = Some "txt" ->
               extractContentFromFile host file = asText (readTextFile host file))
              /\ (extensionOf file = Some "pdf" ->
                  extractContentFromFile host file = asText (readPdfFile host file))
              /\ (extensionOf file = Some "docx" ->
                  extractContentFromFile host file = asText (readDocxFile host file))).
  { intros N. rewrite (dispatch_not_image host file N).
    split; [|split]; intros He; rewrite He; reflexivity. }
  split; [|split; [|split; [|split]]].
  - intros pre suf Hn Hs. unfold extensionOf. rewrite Hn.
    change ("." ++ suf) with (String "." suf).
    now rewrite pop_split_after_last.
  - apply extensionOf_no_dot.
  - exact D.
  - intros Hd N. destruct (D N) as (Dt & Dp & Dd).
    pose proof (extensionOf_no_dot file Hd) as He.
    split; [|split]; intros Hl; rewrite Hl in He; auto.
  - intros Hd N Hno. rewrite (dispatch_not_image host file N).
    rewrite (extensionOf_no_dot file Hd). cbv zeta. unfold caseIs.
    destruct (String.eqb_spec (toLowerCase (name file)) "txt") as [E|_].
    { elim Hno. rewrite E. simpl. tauto. }
    destruct (String.eqb_spec (toLowerCase (name file)) "pdf") as [E|_].
    { elim Hno. rewrite E. simpl. tauto. }
    destruct (String.eqb_spec (toLowerCase (name file)) "docx") as [E|_].
    { elim Hno. rewrite E. simpl. tauto. }
    reflexivity.
Qed.

Lemma not_image_by_computation (file : File) (e : string) :
  extensionOf file = Some e ->
  arrayIncludes imageExtensions e = false ->
  startsWith "image/" (type file) = false ->
  ~ Spec.isImageFile file.
Proof.
  intros He Hi Hm [[e' [He' Hin]] | H]; [|congruence].
  rewrite He in He'. injection He' as <-.
  apply arrayIncludes_In in Hin. congruence.
Qed.

(** [RESUME.PDF] is read by the paginated-document reader, the dot-less
    names [txt] and [DOCX] by the plain-text and the structured-document
    reader, and the dot-less name [README] is refused. *)
Lemma extension_dispatch_examples :
  extractContentFromFile Samples.pdfHost Samples.resumePdf
  = asText (readPdfFile Samples.pdfHost Samples.resumePdf)
  /\ extractContentFromFile Samples.textHost Samples.fileNamedTxt
     = asText (readTextFile Samples.textHost Samples.fileNamedTxt)
  /\ extractContentFromFile Samples.textHost MoreSamples.fileNamedDocx
     = asText (readDocxFile Samples.textHost MoreSamples.fileNamedDocx)
  /\ extractContentFromFile Samples.textHost Samples.fileNamedReadme
     = Thrown (mkError "Unsupported file type: .readme").
Proof.
  split; [|split; [|split]].
  - refine (proj1 (proj2 (proj1 (proj2 (proj2
              (extension_dispatch Samples.pdfHost Samples.resumePdf))) _)) eq_refl).
    apply (not_image_by_computation _ "pdf"); reflexivity.
  - refine (proj1 (proj1 (proj2 (proj2 (proj2
              (extension_dispatch Samples.textHost Samples.fileNamedTxt))))
              eq_refl _) eq_refl).
    apply (not_image_by_computation _ "txt"); reflexivity.
  - refine (proj2 (proj2 (proj1 (proj2 (proj2 (proj2
              (extension_dispatch Samples.textHost MoreSamples.fileNamedDocx))))
              eq_refl _)) eq_refl).
    apply (not_image_by_computation _ "docx"); reflexivity.
  - refine (proj2 (proj2 (proj2 (proj2
              (extension_dispatch Samples.textHost Samples.fileNamedReadme))))
              eq_refl _ _).
    + apply (not_image_by_computation _ "readme"); reflexivity.
    + simpl. intros [H | [H | [H | []]]]; discriminate H.
Defined.

(** C10 as stated fails: the dot-less name [txt], with no declared type,
    is neither in the image set nor of an image MIME type, and yet it is
    accepted and read as plain text. *)
Lemma dotless_name_read_as_text :
  occurs "." (name Samples.fileNamedTxt) = false
  /\ ~ Spec.isImageFile Samples.fileNamedTxt
  /\ extractContentFromFile Samples.textHost Samples.fileNamedTxt
     = Returned (TextContent "curriculum vitae").
Proof.
  split; [reflexivity | split].
  - apply (not_image_by_computation _ "txt"); reflexivity.
  - reflexivity.
Qed.

End FileParserFacts.

(* ================================================================== *)
(** ** The model fallback and the analysis *)

Module GeminiFacts.

Import Js GeminiService JsFacts.
Local Open Scope string_scope.

Section WithEnv.

Context {World : Type}.
Variable env : Env World.
Variable cts : Contents.
Variable cfg : GenerationConfig.

Lemma lastOf_defined {A : Type} (l : list A) :
  forall y, exists z, Spec.lastOf (y :: l) = Some z.
Proof.
  induction l as [|x l IH]; intros y.
  - now exists y.
  - destruct (IH x) as [z Hz]. exists z. exact Hz.
Qed.

Lemma lastOf_cons {A : Type} (x : A) (l : list A) :
  Spec.lastOf (x :: l) = match Spec.lastOf l with Some y => Some y | None => Some x end.
Proof.
  destruct l as [|y l]; [reflexivity|].
  destruct (lastOf_defined l y) as [z Hz].
  change (Spec.lastOf (x :: y :: l)) with (Spec.lastOf (y :: l)).
  now rewrite Hz.
Qed.

Lemma lastOf_None {A : Type} (l : list A) : Spec.lastOf l = None -> l = [].
Proof.
  destruct l as [|x l]; [reflexivity|].
  rewrite lastOf_cons. destruct (Spec.lastOf l); discriminate.
Qed.

(** What one run of the loop over [models] does, whatever [lastError] it
    starts with. *)
Lemma fallbackLoop_run (models : list string) :
  forall (lastError : option JsError) (s : Svc World),
  exists attempts : list Spec.Attempt,
    let out := fst (fallbackLoop env models cts cfg lastError s) in
    let s' := snd (fallbackLoop env models cts cfg lastError s) in
    log s' = (log s ++ Spec.asEvents attempts)%list
    /\ Spec.Played env (remote s) attempts (remote s')
    /\ map fst attempts
       = map (Spec.requestFor cts cfg) (firstn (length attempts) models)
    /\ Forall Spec.failed (removelast attempts)
    /\ match out with
       | Returned response =>
           Spec.lastOf (map snd attempts) = Some (Returned response)
       | Thrown e =>
           length attempts = length models
           /\ match Spec.lastOf (map snd attempts) with
              | Some o => o = Thrown e
              | None =>
                  e = match lastError with
                      | Some e0 => e0
                      | None => mkError "All models failed to generate content."
                      end
              end
       end.
Proof.
  induction models as [|modelName rest IH]; intros lastError s.
  - exists []. simpl. rewrite app_nil_r.
    repeat split; constructor.
  - simpl. unfold attempt.
    change {| model := modelName; contents := cts; config := cfg |}
      with (Spec.requestFor cts cfg modelName).
    destruct (generateContent env (Spec.requestFor cts cfg modelName) (remote s))
      as [[response | err] w'] eqn:Hcall.
    + exists [(Spec.requestFor cts cfg modelName, Returned response)].
      simpl. repeat split.
      * econstructor; [exact Hcall | constructor].
      * constructor.
    + destruct (IH (Some err)
                  {| remote := w';
                     log := log s ++ [ModelAttempt (Spec.requestFor cts cfg modelName)
                                                   (Thrown err)] |})
        as [attempts (Hlog & Hplay & Hreq & Hfail & Hout)].
      exists ((Spec.requestFor cts cfg modelName, Thrown err) :: attempts).
      cbv zeta in *. simpl remote in *. simpl log in *.
      split; [|split; [|split; [|split]]].
      * rewrite Hlog, <- app_assoc. reflexivity.
      * econstructor; [exact Hcall | exact Hplay].
      * simpl. now rewrite Hreq.
      * destruct attempts as [|a attempts]; [constructor|].
        change (removelast ((Spec.requestFor cts cfg modelName, Thrown err)
                              :: a :: attempts))
          with ((Spec.requestFor cts cfg modelName, Thrown err)
                  :: removelast (a :: attempts)).
        constructor; [now exists err | exact Hfail].
      * change (map snd ((Spec.requestFor cts cfg modelName, Thrown err)
                           :: attempts))
          with (Thrown err :: map snd attempts).
        rewrite lastOf_cons.
        destruct (fst (fallbackLoop env rest cts cfg (Some err) _))
          as [response | e].
        -- now rewrite Hout.
        -- destruct Hout as [Hlen Hlast]. split; [simpl; now rewrite Hlen|].
           destruct (Spec.lastOf (map snd attempts)); [exact Hlast|].
           now subst e.
Qed.

End WithEnv.

(** C4.  One run of [generateWithFallback] makes real calls to the remote
    capability, one after the other, for the first models of
    [MODELS_TO_TRY] in list order and with the same contents and
    configuration; every call before the last one failed; when the run
    returns a response it is the answer to the last call made; and when
    it throws, all the configured models have been called and the error
    thrown is the one of the last (fourth) call. *)
Theorem generateWithFallback_in_order {World : Type} (env : Env World)
    (contents : Contents) (config : GenerationConfig) (s : Svc World) :
  exists attempts : list Spec.Attempt,
    let out := fst (generateWithFallback env contents config s) in
    let s' := snd (generateWithFallback env contents config s) in
    log s' = (log s ++ Spec.asEvents attempts)%list
    /\ Spec.Played env (remote s) attempts (remote s')
    /\ map fst attempts
       = map (Spec.requestFor contents config)
             (firstn (length attempts) MODELS_TO_TRY)
    /\ Forall Spec.failed (removelast attempts)
    /\ match out with
       | Returned response =>
           Spec.lastOf (map snd attempts) = Some (Returned response)
       | Thrown e =>
           map fst attempts = map (Spec.requestFor contents config) MODELS_TO_TRY
           /\ Spec.lastOf (map snd attempts) = Some (Thrown e)
           /\ nth_error (map snd attempts) 3 = Some (Thrown e)
       end.
Proof.
  unfold generateWithFallback.
  destruct (fallbackLoop_run env contents config MODELS_TO_TRY None s)
    as [attempts (Hlog & Hplay & Hreq & Hfail & Hout)].
  exists attempts. cbv zeta in *.
  split; [exact Hlog | split; [exact Hplay | split; [exact Hreq | split; [exact Hfail|]]]].
  destruct (fst (fallbackLoop env MODELS_TO_TRY contents config None s))
    as [response | e]; [exact Hout|].
  destruct Hout as [Hlen Hlast].
  destruct attempts as [|a1 [|a2 [|a3 [|a4 [|a5 attempts]]]]]; try discriminate Hlen.
  split; [exact Hreq|].
  simpl in Hlast |- *. now rewrite Hlast.
Qed.

(** When all four models fail, the error raised is the fourth one. *)
Example all_models_fail :
  fst (generateWithFallback Samples.allFailEnv (PromptString "cv") analysisConfig
         Samples.freshSvc)
  = Thrown (mkError "no answer from gemini-2.5-pro").
Proof. reflexivity. Qed.

Lemma analyzeResume_log {World : Type} (env : Env World)
    (input : FileContent) (s : Svc World) :
  exists more,
    log (snd (analyzeResume env input s))
    = (log s ++ AnalyzeInvoked input :: more)%list.
Proof.
  unfold analyzeResume, bind, record, modify, await, tryCatch, throw.
  destruct (getAI env) as [apiKey | e].
  - destruct (fallbackLoop_run env (buildContents input) analysisConfig
                MODELS_TO_TRY None (Spec.entered input s))
      as [attempts (Hlog & _)].
    cbv zeta in Hlog. exists (Spec.asEvents attempts).
    unfold generateWithFallback.
    change {| remote := remote s; log := log s ++ [AnalyzeInvoked input] |}
      with (Spec.entered input s).
    destruct (fallbackLoop env MODELS_TO_TRY (buildContents input) analysisConfig
                None (Spec.entered input s)) as [[response | e] s'].
    + simpl in Hlog.
      assert (E : log s' = (log s ++ AnalyzeInvoked input :: Spec.asEvents attempts)%list).
      { rewrite Hlog. simpl. now rewrite <- app_assoc. }
      destruct (text response) as [jsonText|]; [|exact E].
      destruct (negb (truthy jsonText)); [exact E|].
      destruct (JSON_parse env jsonText); exact E.
    + simpl in Hlog |- *. rewrite Hlog. simpl. now rewrite <- app_assoc.
  - exists []. reflexivity.
Qed.

(** C3, as the code has it.  Once a model has answered, the fallback loop
    is over: when the text payload of that answer is empty or does not
    parse, [analyzeResume] fails with that error in the very state the
    loop returned in, so no further model is called. *)
Theorem parse_failure_aborts {World : Type} (env : Env World)
    (input : FileContent) (s s1 : Svc World) (apiKey : string)
    (response : GenerateResponse) (e : JsError) :
  getAI env = Returned apiKey ->
  generateWithFallback env (buildContents input) analysisConfig
    (Spec.entered input s) = (Returned response, s1) ->
  Spec.unparsable env response e ->
  analyzeResume env input s = (Thrown e, s1).
Proof.
  intros Hkey Hrun Hbad.
  unfold analyzeResume, bind, record, modify, await, tryCatch, throw.
  rewrite Hkey.
  change {| remote := remote s; log := log s ++ [AnalyzeInvoked input] |}
    with (Spec.entered input s).
  rewrite Hrun.
  destruct Hbad as [[[Ht | Ht] He] | [jsonText (Ht & Hne & Hparse)]];
    rewrite Ht.
  - now subst e.
  - now subst e.
  - destruct jsonText as [|c jsonText]; [congruence|].
    cbn [truthy negb]. now rewrite Hparse.
Qed.

(** With a first model that answers in HTML, the analysis ends with the
    parse error right after that first call. *)
Lemma parse_failure_aborts_html :
  analyzeResume Samples.htmlFirstEnv (TextContent "cv") Samples.freshSvc
  = (Thrown (mkError "Unexpected token < in JSON at position 0"),
     {| remote := tt;
        log := [AnalyzeInvoked (TextContent "cv");
                ModelAttempt
                  (Spec.requestFor (buildContents (TextContent "cv"))
                     analysisConfig "gemini-2.5-flash")
                  (Returned {| text := Some "<html>" |})] |}).
Proof.
  apply (parse_failure_aborts Samples.htmlFirstEnv (TextContent "cv")
           Samples.freshSvc _ "key" {| text := Some "<html>" |}).
  - reflexivity.
  - reflexivity.
  - right. exists "<html>".
    split; [reflexivity | split; [discriminate | reflexivity]].
Defined.

(** C3 as stated fails: the first model's payload does not parse, the
    second model would have delivered one that does, and yet the analysis
    ends with the parse error after a single call; the second model is
    never asked. *)
Lemma parse_failure_not_retried :
  let run := analyzeResume Samples.htmlFirstEnv (TextContent "cv")
               Samples.freshSvc in
  JSON_parse Samples.htmlFirstEnv "<html>"
  = Thrown (mkError "Unexpected token < in JSON at position 0")
  /\ fst (generateContent Samples.htmlFirstEnv
            (Spec.requestFor (buildContents (TextContent "cv")) analysisConfig
               "gemini-2.0-flash") tt)
     = Returned {| text := Some "{}" |}
  /\ JSON_parse Samples.htmlFirstEnv "{}"
     = Returned (Samples.analysisOf (7 # 1) "Solid.")
  /\ fst run = Thrown (mkError "Unexpected token < in JSON at position 0")
  /\ map (fun ev => match ev with
                    | ModelAttempt request _ => model request
                    | AnalyzeInvoked _ => "analyzeResume"
                    end) (log (snd run))
     = ["analyzeResume"; "gemini-2.5-flash"].
Proof. repeat split. Qed.

End GeminiFacts.

(* ================================================================== *)
(** ** The analysis run of the component *)

Module AppFacts.

Import Js FileParser GeminiService App JsFacts GeminiFacts.
Local Open Scope string_scope.

Lemma startsWith_iff (p s : string) :
  startsWith p s = true <-> exists rest, s = p ++ rest.
Proof.
  unfold startsWith. split.
  - revert s. induction p as [|a p IH]; intros s H.
    + now exists s.
    + destruct s as [|b s]; [discriminate|]. simpl in H.
      destruct (ascii_dec a b) as [<-|]; [|discriminate].
      destruct (IH s H) as [rest ->]. now exists rest.
  - intros [rest ->]. apply prefix_app.
Qed.

Lemma isSentinel_iff (analysis : ResumeAnalysisResult) :
  isSentinel analysis = true <-> Spec.isSentinel analysis.
Proof.
  unfold isSentinel, Spec.isSentinel.
  now rewrite andb_true_iff, Qeq_bool_iff, startsWith_iff.
Qed.

Section WithEnv.

Context {World : Type}.
Variable host : Host.
Variable env : Env World.
Variable parse : string -> Outcome JsValue.

(** The fixed messages of the two validation failures pass the
    classification untouched. *)
Lemma classify_too_short :
  classify parse (mkError TOO_SHORT_MESSAGE)
  = Returned {| kind := Unknown; userMessage := TOO_SHORT_MESSAGE;
                retryAfterSeconds := Some 0%Z |}.
Proof. vm_compute. reflexivity. Qed.

Lemma classify_invalid_document :
  classify parse (mkError INVALID_DOCUMENT_MESSAGE)
  = Returned {| kind := Unknown; userMessage := INVALID_DOCUMENT_MESSAGE;
                retryAfterSeconds := Some 0%Z |}.
Proof. vm_compute. reflexivity. Qed.

Lemma handleFailure_classified (err : JsError) (c : Classified) (s : Sys World) :
  classify parse err = Returned c ->
  handleFailure parse err s
  = (Returned tt, {| app := Spec.reported c (app s); svc := svc s |}).
Proof.
  intros H. unfold handleFailure, bind, await, update, modify, ret.
  rewrite H. unfold Spec.reported, Spec.armed.
  destruct (kind c); try reflexivity.
  destruct (isPositive (retryAfterSeconds c)); reflexivity.
Qed.

Lemma handleFailure_svc (err : JsError) (s : Sys World) :
  svc (snd (handleFailure parse err s)) = svc s.
Proof.
  destruct (classify parse err) as [c | e] eqn:H.
  - now rewrite (handleFailure_classified err c s H).
  - unfold handleFailure, bind, await. now rewrite H.
Qed.

(** The run up to the request of the analysis, and what follows it. *)
Lemma startAnalysis_after_gate (s : Sys World) (file : File)
    (content : FileContent) :
  selectedFile (app s) = Some file ->
  extractContentFromFile host file = Returned content ->
  (forall text, content = TextContent text -> (200 <= String.length text)%nat) ->
  startAnalysis host env parse s
  = match analyzeResume env content (svc s) with
    | (Returned analysis, svc1) =>
        if isSentinel analysis
        then handleFailure parse (mkError INVALID_DOCUMENT_MESSAGE)
               {| app := Spec.analyzingState (app s); svc := svc1 |}
        else (Returned tt,
              {| app := setStatus success
                          (setResult (Some analysis)
                             (Spec.analyzingState (app s)));
                 svc := svc1 |})
    | (Thrown e, svc1) =>
        handleFailure parse e
          {| app := Spec.analyzingState (app s); svc := svc1 |}
    end.
Proof.
  intros Hsel Hext Hlen.
  unfold startAnalysis. rewrite Hsel.
  unfold tryCatch, bind, update, modify, await, call, ret, throw.
  cbn [app svc]. rewrite Hext.
  assert (Hgate : forall s0 : Sys World, lengthGate content s0 = (Returned tt, s0)).
  { intros s0. destruct content as [text | mimeType data]; [|reflexivity].
    unfold lengthGate. specialize (Hlen text eq_refl).
    apply Nat.ltb_ge in Hlen. now rewrite Hlen. }
  rewrite Hgate. cbn [app svc].
  destruct (analyzeResume env content (svc s)) as [[analysis | e] svc1].
  - destruct (isSentinel analysis); reflexivity.
  - reflexivity.
Qed.

End WithEnv.

(** C1.  With a file selected: when extraction yields text of fewer than
    200 characters, the run ends in the error state with the too-short
    message, and the service is left exactly as it was, so that
    [analyzeResume] was not entered and no remote call was made; when
    extraction yields an image, whatever its size, [analyzeResume] is
    entered with that image. *)
Theorem length_gate {World : Type} (host : Host) (env : Env World)
    (parse : string -> Outcome JsValue) (s : Sys World) (file : File) :
  selectedFile (app s) = Some file ->
  (forall text,
      extractContentFromFile host file = Returned (TextContent text) ->
      (String.length text < 200)%nat ->
      let s' := snd (startAnalysis host env parse s) in
      fst (startAnalysis host env parse s) = Returned tt
      /\ svc s' = svc s
      /\ status (app s') = error
      /\ errorMsg (app s') = Some TOO_SHORT_MESSAGE
      /\ showErrorModal (app s') = true
      /\ result (app s') = result (app s))
  /\ (forall mimeType data,
        extractContentFromFile host file = Returned (ImageContent mimeType data) ->
        exists more,
          log (svc (snd (startAnalysis host env parse s)))
          = (log (svc s) ++ AnalyzeInvoked (ImageContent mimeType data) :: more)%list).
Proof.
  intros Hsel. split.
  - intros text Hext Hshort.
    assert (E : startAnalysis host env parse s
                = handleFailure parse (mkError TOO_SHORT_MESSAGE)
                    {| app := setErrorMsg None (setStatus parsing (app s));
                       svc := svc s |}).
    { unfold startAnalysis. rewrite Hsel.
      unfold tryCatch, bind, update, modify, await, throw.
      cbn [app svc]. rewrite Hext. unfold lengthGate.
      apply Nat.ltb_lt in Hshort. now rewrite Hshort. }
    rewrite E, (handleFailure_classified parse _ _ _ (classify_too_short parse)).
    repeat split.
  - intros mimeType data Hext.
    rewrite (startAnalysis_after_gate host env parse s file
               (ImageContent mimeType data) Hsel Hext)
      by (intros text H; discriminate H).
    destruct (analyzeResume_log env (ImageContent mimeType data) (svc s))
      as [more Hlog].
    exists more.
    destruct (analyzeResume env (ImageContent mimeType data) (svc s))
      as [[analysis | e] svc1]; cbn [snd] in Hlog.
    + destruct (isSentinel analysis); [|exact Hlog].
      now rewrite handleFailure_svc.
    + now rewrite handleFailure_svc.
Qed.

(** A short text file stops at the gate with the service untouched; an
    image goes on into [analyzeResume]. *)
Lemma length_gate_examples :
  (let run := startAnalysis Samples.textHost
                (Samples.answeringEnv (Samples.analysisOf (7 # 1) "Solid."))
                Samples.noJson (Samples.sysWith Samples.shortCv Samples.freshSvc) in
   fst run = Returned tt
   /\ svc (snd run) = Samples.freshSvc
   /\ status (app (snd run)) = error
   /\ errorMsg (app (snd run)) = Some TOO_SHORT_MESSAGE
   /\ showErrorModal (app (snd run)) = true
   /\ result (app (snd run)) = None)
  /\ (exists more,
        log (svc (snd (startAnalysis Samples.pngHost
                         (Samples.answeringEnv (Samples.analysisOf (7 # 1) "Solid."))
                         Samples.noJson
                         (Samples.sysWith Samples.untypedPhoto Samples.freshSvc))))
        = AnalyzeInvoked (ImageContent "image/png" (Some "iVBORw0KGgo=")) :: more).
Proof.
  split.
  - destruct (length_gate Samples.textHost
                (Samples.answeringEnv (Samples.analysisOf (7 # 1) "Solid."))
                Samples.noJson (Samples.sysWith Samples.shortCv Samples.freshSvc)
                Samples.shortCv eq_refl) as [H _].
    apply (H "curriculum vitae"); [reflexivity | simpl; lia].
  - destruct (length_gate Samples.pngHost
                (Samples.answeringEnv (Samples.analysisOf (7 # 1) "Solid."))
                Samples.noJson (Samples.sysWith Samples.untypedPhoto Samples.freshSvc)
                Samples.untypedPhoto eq_refl) as [_ H].
    apply (H "image/png" (Some "iVBORw0KGgo=")). reflexivity.
Defined.

(** C2.  With a file selected whose content passes the gate, and an
    analysis that returns the parsed result [analysis]: when [analysis]
    carries the sentinel (score 0 and a justification starting with
    INVALID_RESUME) the run ends in the error state with the
    invalid-document message and the stored result is left as it was;
    otherwise the run ends in the success state and the stored result is
    [analysis] itself. *)
Theorem sentinel_is_a_failure {World : Type} (host : Host) (env : Env World)
    (parse : string -> Outcome JsValue) (s : Sys World) (file : File)
    (content : FileContent) (analysis : ResumeAnalysisResult)
    (svc1 : Svc World) :
  selectedFile (app s) = Some file ->
  extractContentFromFile host file = Returned content ->
  (forall text, content = TextContent text -> (200 <= String.length text)%nat) ->
  analyzeResume env content (svc s) = (Returned analysis, svc1) ->
  let s' := snd (startAnalysis host env parse s) in
  fst (startAnalysis host env parse s) = Returned tt
  /\ svc s' = svc1
  /\ (Spec.isSentinel analysis ->
      status (app s') = error
      /\ errorMsg (app s') = Some INVALID_DOCUMENT_MESSAGE
      /\ showErrorModal (app s') = true
      /\ result (app s') = result (app s))
  /\ (~ Spec.isSentinel analysis ->
      status (app s') = success
      /\ result (app s') = Some analysis
      /\ errorMsg (app s') = None).
Proof.
  intros Hsel Hext Hlen Hrun.
  rewrite (startAnalysis_after_gate host env parse s file content Hsel Hext Hlen).
  rewrite Hrun.
  destruct (isSentinel analysis) eqn:Hs.
  - rewrite (handleFailure_classified parse _ _ _ (classify_invalid_document parse)).
    cbv zeta. cbn [fst snd app svc].
    split; [reflexivity | split; [reflexivity | split]].
    + intros _. repeat split.
    + intros N. elim N. now apply isSentinel_iff.
  - cbv zeta. cbn [fst snd app svc].
    split; [reflexivity | split; [reflexivity | split]].
    + intros Y. apply isSentinel_iff in Y. congruence.
    + intros _. repeat split.
Qed.

(** A long text that the remote service marks with the sentinel ends as
    an error; one it scores is stored as the result. *)
Lemma sentinel_examples :
  (let run := startAnalysis Samples.longTextHost
                (Samples.answeringEnv
                   (Samples.analysisOf (0 # 1) "INVALID_RESUME: a recipe."))
                Samples.noJson (Samples.sysWith Samples.shortCv Samples.freshSvc) in
   status (app (snd run)) = error
   /\ errorMsg (app (snd run)) = Some INVALID_DOCUMENT_MESSAGE
   /\ showErrorModal (app (snd run)) = true
   /\ result (app (snd run)) = None)
  /\ (let run := startAnalysis Samples.longTextHost
                   (Samples.answeringEnv (Samples.analysisOf (7 # 1) "Solid."))
                   Samples.noJson (Samples.sysWith Samples.shortCv Samples.freshSvc) in
      status (app (snd run)) = success
      /\ result (app (snd run)) = Some (Samples.analysisOf (7 # 1) "Solid.")
      /\ errorMsg (app (snd run)) = None).
Proof.
  split.
  - refine (proj1 (proj2 (proj2
      (sentinel_is_a_failure Samples.longTextHost
         (Samples.answeringEnv (Samples.analysisOf (0 # 1) "INVALID_RESUME: a recipe."))
         Samples.noJson (Samples.sysWith Samples.shortCv Samples.freshSvc)
         Samples.shortCv (TextContent Samples.longText)
         (Samples.analysisOf (0 # 1) "INVALID_RESUME: a recipe.")
         _ eq_refl eq_refl _ eq_refl))) _).
    + intros text H. injection H as <-. apply Nat.leb_le. reflexivity.
    + split; [reflexivity | now exists ": a recipe."].
  - refine (proj2 (proj2 (proj2
      (sentinel_is_a_failure Samples.longTextHost
         (Samples.answeringEnv (Samples.analysisOf (7 # 1) "Solid."))
         Samples.noJson (Samples.sysWith Samples.shortCv Samples.freshSvc)
         Samples.shortCv (TextContent Samples.longText)
         (Samples.analysisOf (7 # 1) "Solid.")
         _ eq_refl eq_refl _ eq_refl))) _).
    + intros text H. injection H as <-. apply Nat.leb_le. reflexivity.
    + intros [H _]. discriminate H.
Defined.




(** *** The countdown *)

Lemma roundToDouble_exact (x : Z) :
  (0 <= x < 2 ^ 53)%Z -> roundToDouble x = x.
Proof.
  intros [H0 H]. unfold roundToDouble.
  destruct (Z.ltb_spec (Z.log2 x) 53) as [_ | L]; [reflexivity|].
  exfalso. destruct (Z.eq_dec x 0) as [-> | N]; [simpl in L; lia|].
  apply Z.log2_lt_pow2 in H; lia.
Qed.

(** Above 2^53 a tick need not move the countdown: [1e20 - 1] is [1e20]. *)
Example tick_stalls_at_1e20 :
  tickUpdater (Some (10 ^ 20)%Z) = Some (10 ^ 20)%Z.
Proof. vm_compute. reflexivity. Qed.

Lemma countdownStep_counting (st : AppState) (n : Z) :
  (0 < n <= 2 ^ 53)%Z -> retryCountdown st = Some n ->
  countdownStep st = Some (setRetryCountdown (Some (n - 1)%Z) st).
Proof.
  intros Hn H. unfold countdownStep, countdownEffect. rewrite H.
  destruct (Z.leb_spec n 0) as [L|_]; [lia|].
  rewrite H. unfold tickUpdater.
  destruct (Z.gtb_spec n 0) as [_|L]; [|lia].
  now rewrite roundToDouble_exact by lia.
Qed.

Lemma countdownStep_zero (st : AppState) :
  retryCountdown st = Some 0%Z ->
  countdownStep st = Some (setShowErrorModal false (setRetryCountdown None st)).
Proof.
  intros H. unfold countdownStep, countdownEffect. now rewrite H.
Qed.

Lemma countdownRun_counting (k : nat) :
  forall (st : AppState) (n : Z),
    (n <= 2 ^ 53)%Z ->
    retryCountdown st = Some n -> (Z.of_nat k <= n)%Z ->
    retryCountdown (countdownRun k st) = Some (n - Z.of_nat k)%Z
    /\ showErrorModal (countdownRun k st) = showErrorModal st.
Proof.
  induction k as [|k IH]; intros st n Hb H Hk.
  - simpl. rewrite H. split; [f_equal; lia | reflexivity].
  - cbn [countdownRun]. rewrite (countdownStep_counting st n) by (lia || exact H).
    destruct (IH (setRetryCountdown (Some (n - 1)%Z) st) (n - 1)%Z) as [Hc Hm];
      [lia | reflexivity | lia|].
    rewrite Hc, Hm. split; [f_equal; lia | reflexivity].
Qed.

(** C9, as the code has it.  A countdown armed at [n > 0], with [n] at
    most 2^53 (where the subtraction on doubles is exact), goes down by
    exactly one with each tick, through [n-1], ..., [1], [0], leaving the
    error modal as it is; on finding 0 it returns to [null] and closes
    the error modal, and then rests.  Dismissing the modal closes it and
    leaves the countdown running, and neither the selection of a file
    nor the reset touches the countdown. *)
Theorem countdown_behaviour (st : AppState) (n : Z) :
  (0 < n)%Z ->
  (n <= 2 ^ 53)%Z ->
  retryCountdown st = Some n ->
  countdownStep st = Some (setRetryCountdown (Some (n - 1)%Z) st)
  /\ (forall k : nat, (Z.of_nat k <= n)%Z ->
        retryCountdown (countdownRun k st) = Some (n - Z.of_nat k)%Z
        /\ showErrorModal (countdownRun k st) = showErrorModal st)
  /\ (let rest := countdownRun (S (Z.to_nat n)) st in
      retryCountdown rest = None
      /\ showErrorModal rest = false
      /\ countdownStep rest = None)
  /\ (retryCountdown (dismissError st) = Some n
      /\ showErrorModal (dismissError st) = false)
  /\ retryCountdown (resetAnalysis st) = Some n
  /\ (forall file, retryCountdown (handleFileSelection file st) = Some n).
Proof.
  intros Hn Hb H.
  split; [apply countdownStep_counting; [lia | exact H]|].
  split; [intros k Hk; now apply countdownRun_counting|].
  split.
  - assert (R : forall k (s0 : AppState),
               countdownRun (S k) s0
               = match countdownStep (countdownRun k s0) with
                 | Some s1 => s1
                 | None => countdownRun k s0
                 end).
    { induction k as [|k IHk]; intros s0.
      - cbn [countdownRun]. now destruct (countdownStep s0).
      - change (countdownRun (S (S k)) s0)
          with (match countdownStep s0 with
                | Some s1 => countdownRun (S k) s1
                | None => s0
                end).
        cbn [countdownRun].
        destruct (countdownStep s0) as [s1|] eqn:E.
        + rewrite <- (IHk s1). reflexivity.
        + now rewrite E. }
    destruct (countdownRun_counting (Z.to_nat n) st n Hb H) as [Hc Hm]; [lia|].
    rewrite Z2Nat.id, Z.sub_diag in Hc by lia.
    cbv zeta. rewrite R, (countdownStep_zero _ Hc).
    repeat split.
  - split; [split; [exact H | reflexivity]|].
    split; [exact H|].
    intros [f|]; [|exact H].
    unfold handleFileSelection. destruct (status st); exact H.
Qed.

(** Armed at 3, the countdown shows 2, 1, 0 and then rests at [null]
    with the modal closed. *)
Lemma countdown_from_three :
  map (fun k => retryCountdown (countdownRun k Samples.countingAtThree))
      [1%nat; 2%nat; 3%nat]
  = [Some 2%Z; Some 1%Z; Some 0%Z]
  /\ retryCountdown (countdownRun 4 Samples.countingAtThree) = None
  /\ showErrorModal (countdownRun 4 Samples.countingAtThree) = false
  /\ countdownStep (countdownRun 4 Samples.countingAtThree) = None.
Proof.
  destruct (countdown_behaviour Samples.countingAtThree 3 eq_refl
              ltac:(discriminate) eq_refl)
    as (_ & Hk & Hrest & _).
  split; [|exact Hrest].
  cbn [map].
  rewrite (proj1 (Hk 1%nat ltac:(discriminate))).
  rewrite (proj1 (Hk 2%nat ltac:(discriminate))).
  rewrite (proj1 (Hk 3%nat ltac:(discriminate))).
  reflexivity.
Defined.

(** C9 as stated fails: dismissing the error modal while the countdown
    stands at 3 does not bring it to [null]; it stays at 3 and the next
    tick takes it to 2. *)
Lemma dismissal_keeps_counting :
  retryCountdown (dismissError Samples.countingAtThree) = Some 3%Z
  /\ retryCountdown (dismissError Samples.countingAtThree) <> None
  /\ option_map retryCountdown (countdownStep (dismissError Samples.countingAtThree))
     = Some (Some 2%Z).
Proof. repeat split. discriminate. Qed.

(** *** The retry delay *)

(** Where [toLowerCase] lands on an ASCII code unit, the case folding of
    the regular expression agrees with it. *)
Lemma foldAscii_lowerChar (c : ascii) :
  (nat_of_ascii (lowerChar c) <? 128)%nat = true ->
  foldAscii c = lowerChar c.
Proof.
  destruct c as [[] [] [] [] [] [] [] []]; vm_compute; intros H;
    first [reflexivity | discriminate H].
Qed.

Lemma folded_letter_not_numeric (c p : ascii) :
  foldAscii c = p -> (97 <=? nat_of_ascii p)%nat = true -> isNumChar c = false.
Proof.
  intros <-.
  destruct c as [[] [] [] [] [] [] [] []]; vm_compute; intros H;
    first [reflexivity | discriminate H].
Qed.

Lemma stripPrefixCI_keyword (kw rest : string) :
  Spec.allChars (fun c => (nat_of_ascii c <? 128)%nat) (toLowerCase kw) = true ->
  stripPrefixCI (toLowerCase kw) (kw ++ rest) = Some rest.
Proof.
  induction kw as [|c kw IH]; simpl; intros H; [reflexivity|].
  apply andb_true_iff in H as [Hc Hkw].
  rewrite (foldAscii_lowerChar c Hc), Ascii.eqb_refl. now apply IH.
Qed.

Lemma stripPrefixCI_app (pat : string) :
  forall p rest R, stripPrefixCI pat p = Some rest ->
                   stripPrefixCI pat (p ++ R) = Some (rest ++ R).
Proof.
  induction pat as [|a pat IH]; simpl; intros p rest R H.
  - now injection H as ->.
  - destruct p as [|c p]; [discriminate|]. simpl.
    destruct (Ascii.eqb (foldAscii c) a); [now apply IH | discriminate].
Qed.

(** A text that has failed against a pattern still fails when more text
    follows it, provided that text cannot complete any started match. *)
Lemma stripPrefixCI_app_None (R : string) (pat : string) :
  forall p,
    (forall x q, pat = x ++ q -> q <> "" -> stripPrefixCI q R = None) ->
    stripPrefixCI pat p = None ->
    stripPrefixCI pat (p ++ R) = None.
Proof.
  induction pat as [|a pat IH]; intros p Hsuf H; [discriminate H|].
  destruct p as [|c p].
  - apply (Hsuf "" (String a pat)); [reflexivity | discriminate].
  - simpl in H |- *.
    destruct (Ascii.eqb (foldAscii c) a); [|reflexivity].
    apply IH; [|exact H].
    intros x q -> Hq. apply (Hsuf (String a x) q); [reflexivity | exact Hq].
Qed.

Lemma span_all (p : ascii -> bool) (run rest : string) :
  Spec.allChars p run = true ->
  match rest with String c _ => p c = false | "" => True end ->
  span p (run ++ rest) = (run, rest).
Proof.
  intros Hrun Hrest. induction run as [|c run IH]; simpl in *.
  - destruct rest as [|c rest]; [reflexivity|]. simpl. now rewrite Hrest.
  - apply andb_true_iff in Hrun as [Hc Hrun'].
    rewrite Hc, (IH Hrun'). reflexivity.
Qed.

Lemma span_whole (p : ascii -> bool) (s : string) :
  Spec.allChars p s = true -> span p s = (s, "").
Proof.
  intros H. pose proof (span_all p s "" H I) as E.
  now rewrite append_empty_r in E.
Qed.

Lemma span_app_stopped (p : ascii -> bool) (s R run after : string) (c : ascii) :
  span p s = (run, String c after) ->
  span p (s ++ R) = (run, String c after ++ R).
Proof.
  revert run. induction s as [|d s IH]; simpl; intros run H; [discriminate H|].
  destruct (p d) eqn:Hd.
  - destruct (span p s) as [run' rest'] eqn:E.
    injection H as <- ->. now rewrite (IH run' eq_refl).
  - injection H as <- <- <-. reflexivity.
Qed.

Lemma span_app_exhausted (p : ascii -> bool) (s R run : string) :
  span p s = (run, "") ->
  match R with String c _ => p c = false | "" => True end ->
  span p (s ++ R) = (run, R).
Proof.
  revert run. induction s as [|d s IH]; simpl; intros run H HR.
  - injection H as <-. destruct R as [|c R]; [reflexivity|]. simpl. now rewrite HR.
  - destruct (p d) eqn:Hd; [|discriminate H].
    destruct (span p s) as [run' rest'] eqn:E.
    injection H as <- ->. now rewrite (IH run' eq_refl HR).
Qed.

Lemma keyword_not_completed (R : string) :
  Spec.opensKeyword R ->
  forall x q, "etry in " = x ++ q -> q <> "" -> stripPrefixCI q R = None.
Proof.
  intros (r0 & e0 & R' & -> & Hr & He) x q H Hq.
  destruct x as [|c1 x]; cbn [append] in H;
    [subst q; cbn; rewrite Hr; reflexivity | injection H as _ H].
  destruct x as [|c2 x]; cbn [append] in H;
    [subst q; cbn; rewrite Hr; reflexivity | injection H as _ H].
  destruct x as [|c3 x]; cbn [append] in H;
    [subst q; cbn; rewrite Hr; cbn; rewrite He; reflexivity | injection H as _ H].
  destruct x as [|c4 x]; cbn [append] in H;
    [subst q; cbn; rewrite Hr; reflexivity | injection H as _ H].
  destruct x as [|c5 x]; cbn [append] in H;
    [subst q; cbn; rewrite Hr; reflexivity | injection H as _ H].
  destruct x as [|c6 x]; cbn [append] in H;
    [subst q; cbn; rewrite Hr; reflexivity | injection H as _ H].
  destruct x as [|c7 x]; cbn [append] in H;
    [subst q; cbn; rewrite Hr; reflexivity | injection H as _ H].
  destruct x as [|c8 x]; cbn [append] in H;
    [subst q; cbn; rewrite Hr; reflexivity | injection H as _ H].
  destruct x as [|c9 x]; cbn [append] in H; [subst q; congruence | discriminate H].
Qed.

Lemma retryMatchAt_app_None (p R : string) (c : ascii) :
  Spec.opensKeyword R ->
  retryMatchAt (String c p) = None ->
  retryMatchAt (String c p ++ R) = None.
Proof.
  intros HR H. unfold retryMatchAt in *.
  destruct (stripPrefixCI "retry in " (String c p)) as [rest|] eqn:E.
  - rewrite (stripPrefixCI_app _ _ _ R E).
    destruct HR as (r0 & e0 & R' & -> & Hr & He).
    assert (Nr : isNumChar r0 = false)
      by (apply (folded_letter_not_numeric r0 "r" Hr); reflexivity).
    destruct (span isNumChar rest) as [run after] eqn:S.
    destruct after as [|a after].
    + rewrite (span_app_exhausted isNumChar rest (String r0 (String e0 R')) run S Nr).
      destruct run; [reflexivity|]. now rewrite Hr.
    + rewrite (span_app_stopped isNumChar rest _ run after a S).
      destruct run; [reflexivity|]. exact H.
  - cbn [append].
    change (stripPrefixCI "retry in " (String c (p ++ R)))
      with (if Ascii.eqb (foldAscii c) "r"
            then stripPrefixCI "etry in " (p ++ R) else None).
    change (stripPrefixCI "retry in " (String c p))
      with (if Ascii.eqb (foldAscii c) "r"
            then stripPrefixCI "etry in " p else None) in E.
    destruct (Ascii.eqb (foldAscii c) "r"); [|reflexivity].
    now rewrite (stripPrefixCI_app_None R "etry in " p (keyword_not_completed R HR) E).
Qed.

(** Text before the keyword in which the pattern does not match cannot
    hide or produce a match: the search moves on to the keyword. *)
Lemma retryMatch_skip (pre R : string) :
  Spec.opensKeyword R ->
  retryMatch pre = None ->
  retryMatch (pre ++ R) = retryMatch R.
Proof.
  intros HR. induction pre as [|c pre IH]; intros H; [reflexivity|].
  change (retryMatch (String c pre))
    with (match retryMatchAt (String c pre) with
          | Some captured => Some captured
          | None => retryMatch pre
          end) in H.
  destruct (retryMatchAt (String c pre)) eqn:E; [discriminate H|].
  change (retryMatch (String c pre ++ R))
    with (match retryMatchAt (String c pre ++ R) with
          | Some captured => Some captured
          | None => retryMatch (pre ++ R)
          end).
  rewrite (retryMatchAt_app_None pre R c HR E). now apply IH.
Qed.

Lemma retryMatch_unfold (s : string) :
  retryMatch s
  = match retryMatchAt s with
    | Some captured => Some captured
    | None => match s with
              | "" => None
              | String _ s' => retryMatch s'
              end
    end.
Proof. destruct s; reflexivity. Qed.

Lemma retryMatch_here (s captured : string) :
  retryMatchAt s = Some captured -> retryMatch s = Some captured.
Proof. intros H. now rewrite retryMatch_unfold, H. Qed.

(** At the keyword, followed by a run of digits and dots and the unit
    letter, the pattern matches and captures the run. *)
Lemma retryMatchAt_keyword (kw num unit post : string) :
  Spec.equalIgnoringCase kw "retry in " ->
  Spec.equalIgnoringCase unit "s" ->
  num <> "" ->
  Spec.allChars isNumChar num = true ->
  retryMatchAt (kw ++ num ++ unit ++ post) = Some num.
Proof.
  unfold Spec.equalIgnoringCase. intros Hkw Hunit Hne Hnum.
  change (toLowerCase "retry in ") with "retry in " in Hkw.
  change (toLowerCase "s") with "s" in Hunit.
  unfold retryMatchAt.
  rewrite <- Hkw at 1.
  rewrite stripPrefixCI_keyword by (now rewrite Hkw).
  destruct unit as [|u [|u' unit]]; try discriminate Hunit.
  injection Hunit as Hu.
  assert (Fu : foldAscii u = "s"%char).
  { rewrite foldAscii_lowerChar; [exact Hu | now rewrite Hu]. }
  rewrite (span_all isNumChar num (String u "" ++ post) Hnum).
  - destruct num as [|d num]; [congruence|].
    cbn [append]. now rewrite Fu.
  - cbn [append]. apply (folded_letter_not_numeric u "s" Fu). reflexivity.
Qed.

Lemma keyword_opens (kw rest : string) :
  Spec.equalIgnoringCase kw "retry in " -> Spec.opensKeyword (kw ++ rest).
Proof.
  unfold Spec.equalIgnoringCase. intros H.
  change (toLowerCase "retry in ") with "retry in " in H.
  destruct kw as [|r0 [|e0 kw]]; try discriminate H.
  cbn [toLowerCase] in H. injection H as Hr He _.
  exists r0, e0, (kw ++ rest). split; [reflexivity|].
  split; (rewrite foldAscii_lowerChar; [assumption|]).
  - now rewrite Hr.
  - now rewrite He.
Qed.

Lemma allChars_weaken (p q : ascii -> bool) (s : string) :
  (forall c, p c = true -> q c = true) ->
  Spec.allChars p s = true -> Spec.allChars q s = true.
Proof.
  intros Hpq. induction s as [|c s IH]; simpl; [reflexivity|].
  intros H. apply andb_true_iff in H as [Hc Hs].
  now rewrite (Hpq c Hc), (IH Hs).
Qed.

Lemma allChars_app (p : ascii -> bool) (a b : string) :
  Spec.allChars p (a ++ b) = Spec.allChars p a && Spec.allChars p b.
Proof.
  induction a as [|c a IH]; simpl; [reflexivity|].
  now rewrite IH, andb_assoc.
Qed.

Lemma decimalText_numeric (intPart fracPart : string) :
  intPart <> "" ->
  Spec.allChars isDigit intPart = true ->
  Spec.allChars isDigit fracPart = true ->
  Spec.decimalText intPart fracPart <> ""
  /\ Spec.allChars isNumChar (Spec.decimalText intPart fracPart) = true.
Proof.
  intros Hne Hi Hf.
  assert (W : forall c, isDigit c = true -> isNumChar c = true)
    by (intros c Hc; unfold isNumChar; now rewrite Hc).
  unfold Spec.decimalText. destruct (truthy fracPart).
  - split.
    + destruct intPart; [congruence | discriminate].
    + rewrite !allChars_app, (allChars_weaken _ _ _ W Hi),
        (allChars_weaken _ _ _ W Hf). reflexivity.
  - split; [exact Hne | exact (allChars_weaken _ _ _ W Hi)].
Qed.

Lemma parseFloat_decimalText (intPart fracPart : string) :
  intPart <> "" ->
  Spec.allChars isDigit intPart = true ->
  Spec.allChars isDigit fracPart = true ->
  parseFloat (Spec.decimalText intPart fracPart)
  = Some (Qmake (digitsValue 0 (intPart ++ fracPart))
                (Z.to_pos (10 ^ Z.of_nat (String.length fracPart)))).
Proof.
  intros Hne Hi Hf. unfold parseFloat, Spec.decimalText.
  assert (Ti : truthy intPart = true) by (destruct intPart; [congruence | reflexivity]).
  destruct fracPart as [|c fracPart]; cbn [truthy].
  - rewrite (span_whole isDigit intPart Hi), Ti, append_empty_r. reflexivity.
  - rewrite (span_all isDigit intPart ("." ++ String c fracPart) Hi eq_refl).
    cbn [append]. rewrite Ascii.eqb_refl.
    rewrite (span_whole isDigit (String c fracPart) Hf), Ti. reflexivity.
Qed.

Lemma length_app (a b : string) :
  String.length (a ++ b) = (String.length a + String.length b)%nat.
Proof. induction a as [|c a IH]; simpl; [reflexivity | now rewrite IH]. Qed.

Lemma digitsValue_place_value (s : string) :
  forall acc : Z,
    digitsValue acc s
    = (acc * 10 ^ Z.of_nat (String.length s) + Spec.digitsNumber s)%Z.
Proof.
  induction s as [|c s IH]; intros acc.
  - simpl. lia.
  - cbn [digitsValue Spec.digitsNumber String.length].
    rewrite IH, Nat2Z.inj_succ, Z.pow_succ_r by lia. ring.
Qed.

Lemma digitsNumber_app (a b : string) :
  Spec.digitsNumber (a ++ b)
  = (Spec.digitsNumber a * 10 ^ Z.of_nat (String.length b) + Spec.digitsNumber b)%Z.
Proof.
  induction a as [|c a IH].
  - simpl. lia.
  - cbn [append Spec.digitsNumber]. rewrite IH, length_app, Nat2Z.inj_add,
      Z.pow_add_r by lia. ring.
Qed.

Lemma parsed_value (intPart fracPart : string) :
  Qeq (Qmake (digitsValue 0 (intPart ++ fracPart))
             (Z.to_pos (10 ^ Z.of_nat (String.length fracPart))))
      (Spec.decimalValue intPart fracPart).
Proof.
  unfold Spec.decimalValue.
  rewrite digitsValue_place_value, digitsNumber_app.
  set (P := (10 ^ Z.of_nat (String.length fracPart))%Z).
  assert (HP : (0 < P)%Z) by (apply Z.pow_pos_nonneg; lia).
  unfold Qeq, Qplus, inject_Z. cbn [Qnum Qden].
  rewrite Pos.mul_1_l, Z2Pos.id by exact HP.
  rewrite length_app, Nat2Z.inj_add, Z.pow_add_r by lia.
  fold P. ring.
Qed.

Lemma retryAfterSeconds_classifyMessage (msg : string) :
  retryAfterSeconds (classifyMessage msg)
  = match retryMatch msg with
    | Some captured => Math_ceil (parseFloat captured)
    | None => Some 0%Z
    end.
Proof.
  unfold classifyMessage.
  repeat match goal with
         | |- context [if ?b then _ else _] => destruct b
         end; reflexivity.
Qed.

(** C6, as the code has it.  When the message, after the JSON
    unwrapping, holds the keyword "retry in " (in any mix of cases)
    followed by a decimal numeral of at most 15 digits and the letter s,
    and the pattern matches nowhere in the text before that keyword, the
    classified delay is the ceiling of the number the numeral writes. *)
Theorem retry_delay_is_ceiling (parse : string -> Outcome JsValue)
    (err : JsError) (pre kw intPart fracPart unit post : string) :
  unwrapMessage parse (message err)
  = JString (pre ++ kw ++ Spec.decimalText intPart fracPart ++ unit ++ post) ->
  retryMatch pre = None ->
  Spec.equalIgnoringCase kw "retry in " ->
  Spec.equalIgnoringCase unit "s" ->
  intPart <> "" ->
  Spec.allChars isDigit intPart = true ->
  Spec.allChars isDigit fracPart = true ->
  (String.length intPart + String.length fracPart <= 15)%nat ->
  exists c,
    classify parse err = Returned c
    /\ retryAfterSeconds c
       = Some (Qceiling (Spec.decimalValue intPart fracPart)).
Proof.
  intros Hmsg Hpre Hkw Hunit Hne Hi Hf _.
  unfold classify. rewrite Hmsg. eexists. split; [reflexivity|].
  rewrite retryAfterSeconds_classifyMessage.
  destruct (decimalText_numeric intPart fracPart Hne Hi Hf) as [Hnn Hnum].
  rewrite (retryMatch_skip pre _ (keyword_opens kw _ Hkw) Hpre).
  rewrite (retryMatch_here _ _
             (retryMatchAt_keyword kw _ unit post Hkw Hunit Hnn Hnum)).
  rewrite (parseFloat_decimalText intPart fracPart Hne Hi Hf).
  unfold Math_ceil, option_map. f_equal.
  apply Qceiling_comp, parsed_value.
Qed.

(** A message with "retry in 18.6s" gives a delay of 19 seconds. *)
Lemma retry_in_18_6 :
  exists c,
    classify Samples.noJson (mkError "Please retry in 18.6s.") = Returned c
    /\ retryAfterSeconds c = Some 19%Z.
Proof.
  apply (retry_delay_is_ceiling Samples.noJson
           (mkError "Please retry in 18.6s.")
           "Please " "retry in " "18" "6" "s" ".").
  - reflexivity.
  - reflexivity.
  - reflexivity.
  - reflexivity.
  - discriminate.
  - reflexivity.
  - reflexivity.
  - simpl. lia.
Defined.

(** C6 as stated fails.  The first message holds "retry in 5s", yet the
    pattern first matches "retry in .s", whose capture is no number, and
    the delay is NaN; the second holds "retry in 5s" after "retry in
    9s", and the delay is 9. *)
Lemma later_delay_is_ignored :
  Spec.contains ("retry in " ++ Spec.decimalText "5" "" ++ "s")
    "retry in .s, then retry in 5s"
  /\ Qceiling (Spec.decimalValue "5" "") = 5%Z
  /\ classify Samples.noJson (mkError "retry in .s, then retry in 5s")
     = Returned {| kind := Unknown;
                   userMessage := "retry in .s, then retry in 5s";
                   retryAfterSeconds := None |}
  /\ Spec.contains ("retry in " ++ Spec.decimalText "5" "" ++ "s")
       "retry in 9s or retry in 5s"
  /\ classify Samples.noJson (mkError "retry in 9s or retry in 5s")
     = Returned {| kind := Unknown;
                   userMessage := "retry in 9s or retry in 5s";
                   retryAfterSeconds := Some 9%Z |}.
Proof.
  split; [now exists "retry in .s, then ", ""|].
  split; [reflexivity|].
  split; [reflexivity|].
  split; [now exists "retry in 9s or ", "" | reflexivity].
Qed.

End AppFacts.

(* ================================================================== *)
(** ** Further facts about content extraction *)

Module FileParserMore.

Import Js FileParser JsFacts FileParserFacts.
Local Open Scope string_scope.

Lemma isImageFile_decide (file : File) :
  Spec.isImageFile file \/ ~ Spec.isImageFile file.
Proof.
  destruct (startsWith "image/" (type file)) eqn:Hm; [left; now right|].
  destruct (extensionOf file) as [e|] eqn:He.
  - destruct (arrayIncludes imageExtensions e) eqn:Hi.
    + left. left. exists e. split; [exact He | now apply arrayIncludes_In].
    + right. now apply (not_image_by_computation file e).
  - right. intros [[e [He' _]] | H]; congruence.
Qed.

Lemma caseIs_true (extension : option string) (label : string) :
  caseIs extension label = true <-> extension = Some label.
Proof.
  destruct extension as [e|]; simpl.
  - rewrite String.eqb_eq. split; [now intros -> | now intros [= ->]].
  - split; discriminate.
Qed.

(** X1.  A file that is not an image and whose extension is none of txt,
    pdf, docx is refused with the unsupported-type error naming that
    extension, whatever the host offers: no reader is consulted. *)
Theorem unsupported_extension (host : Host) (file : File) (e : string) :
  ~ Spec.isImageFile file ->
  extensionOf file = Some e ->
  ~ Notions.textExtension e ->
  extractContentFromFile host file
  = Thrown (mkError ("Unsupported file type: ." ++ e)).
Proof.
  intros N He Hno. rewrite (dispatch_not_image host file N), He.
  cbv zeta. unfold caseIs, Notions.textExtension in *.
  destruct (String.eqb_spec e "txt"); [tauto|].
  destruct (String.eqb_spec e "pdf"); [tauto|].
  destruct (String.eqb_spec e "docx"); [tauto|].
  reflexivity.
Qed.

Lemma unsupported_archive :
  extractContentFromFile Samples.pdfHost MoreSamples.archive
  = Thrown (mkError "Unsupported file type: .gz").
Proof.
  apply (unsupported_extension Samples.pdfHost MoreSamples.archive "gz").
  - apply (not_image_by_computation _ "gz"); reflexivity.
  - reflexivity.
  - intros [H | [H | H]]; discriminate H.
Defined.

(** X2.  For a file that is not an image: with the extension pdf and no
    PDF library on the page the extraction fails with "PDF library not
    loaded", and with the extension docx and no DOCX library it fails
    with "DOCX library not loaded". *)
Theorem missing_backend (host : Host) (file : File) :
  ~ Spec.isImageFile file ->
  (extensionOf file = Some "pdf" -> pdfjsLib host = None ->
   extractContentFromFile host file = Thrown (mkError "PDF library not loaded"))
  /\ (extensionOf file = Some "docx" -> mammoth host = None ->
      extractContentFromFile host file = Thrown (mkError "DOCX library not loaded")).
Proof.
  intros N. rewrite (dispatch_not_image host file N). split; intros He Hlib;
    rewrite He; cbn; unfold readPdfFile, readDocxFile; now rewrite Hlib.
Qed.

Lemma missing_backend_examples :
  extractContentFromFile Samples.textHost Samples.resumePdf
  = Thrown (mkError "PDF library not loaded")
  /\ extractContentFromFile Samples.textHost MoreSamples.reportDocx
     = Thrown (mkError "DOCX library not loaded").
Proof.
  split.
  - apply (missing_backend Samples.textHost Samples.resumePdf);
      [apply (not_image_by_computation _ "pdf") | |]; reflexivity.
  - apply (missing_backend Samples.textHost MoreSamples.reportDocx);
      [apply (not_image_by_computation _ "docx") | |]; reflexivity.
Defined.

Lemma readImageFile_variant (host : Host) (file : File) (content : FileContent) :
  readImageFile host file = Returned content ->
  exists mimeType data, content = ImageContent mimeType data /\ mimeType <> "".
Proof.
  unfold readImageFile.
  destruct (readAsDataURL host file) as [[result|]|e]; try discriminate.
  destruct (negb (truthy result)); [discriminate|].
  intros [= <-]. eexists _, _. split; [reflexivity|].
  unfold orElse.
  match goal with |- (if truthy ?m then _ else _) <> _ =>
    destruct m; cbn; discriminate end.
Qed.

(** X3.  The variant a successful extraction returns tells how the file
    was dispatched: text comes only from a file that is not an image and
    has the extension txt, pdf or docx; an image comes only from an image
    file, and its MIME type is never empty. *)
Theorem variant_tells_dispatch (host : Host) (file : File) (content : FileContent) :
  extractContentFromFile host file = Returned content ->
  match content with
  | TextContent _ =>
      ~ Spec.isImageFile file
      /\ exists e, extensionOf file = Some e /\ Notions.textExtension e
  | ImageContent mimeType _ => Spec.isImageFile file /\ mimeType <> ""
  end.
Proof.
  intros H. destruct (isImageFile_decide file) as [Y | N].
  - rewrite (dispatch_image host file Y) in H.
    destruct (readImageFile_variant host file content H) as (m & d & -> & Hm).
    now split.
  - rewrite (dispatch_not_image host file N) in H. cbv zeta in H.
    assert (T : forall r, asText r = Returned content ->
                          exists text, content = TextContent text).
    { intros [text|e0]; simpl; [intros [= <-]; now exists text | discriminate]. }
    destruct (caseIs (extensionOf file) "txt") eqn:E1.
    { destruct (T _ H) as [text ->]. split; [exact N|].
      exists "txt". split; [now apply caseIs_true | now left]. }
    destruct (caseIs (extensionOf file) "pdf") eqn:E2.
    { destruct (T _ H) as [text ->]. split; [exact N|].
      exists "pdf". split; [now apply caseIs_true | right; now left]. }
    destruct (caseIs (extensionOf file) "docx") eqn:E3.
    { destruct (T _ H) as [text ->]. split; [exact N|].
      exists "docx". split; [now apply caseIs_true | right; now right]. }
    discriminate H.
Qed.

Lemma variant_tells_dispatch_examples :
  (~ Spec.isImageFile Samples.fileNamedTxt
   /\ exists e, extensionOf Samples.fileNamedTxt = Some e /\ Notions.textExtension e)
  /\ (Spec.isImageFile Samples.untypedPhoto /\ "image/png" <> "").
Proof.
  split.
  - apply (variant_tells_dispatch Samples.textHost Samples.fileNamedTxt
             (TextContent "curriculum vitae")). reflexivity.
  - apply (variant_tells_dispatch Samples.pngHost Samples.untypedPhoto
             (ImageContent "image/png" (Some "iVBORw0KGgo="))). reflexivity.
Defined.

Lemma readPages_prefix (pdf : PdfDocument) (pages : list (list string)) :
  forall (m i : nat) (acc : string),
    (forall k, (k < length pages)%nat ->
               getPageItems pdf (i + k) = Returned (nth k pages [])) ->
    readPages pdf (length pages + m) i acc
    = readPages pdf m (i + length pages) (acc ++ Spec.pagesText pages).
Proof.
  induction pages as [|items pages IH]; intros m i acc H.
  - cbn [length Nat.add Spec.pagesText fold_right].
    now rewrite Nat.add_0_r, append_empty_r.
  - cbn [length Nat.add readPages].
    pose proof (H 0%nat) as H0. cbn [nth] in H0.
    rewrite Nat.add_0_r in H0. rewrite H0 by (simpl; lia).
    rewrite IH.
    + cbn [Spec.pagesText fold_right]. rewrite !append_assoc.
      now rewrite Nat.add_succ_r.
    + intros k Hk. specialize (H (S k)). cbn [nth] in H.
      rewrite Nat.add_succ_r in H. apply H. simpl. lia.
Qed.

(** X4.  When the pages before page [n+1] of a paginated document read
    and page [n+1] (one of its pages) does not, the extraction fails with
    the error of that page: the text read so far is dropped and no later
    page matters. *)
Theorem first_failing_page_aborts
    (host : Host) (file : File) (getDocument : File -> Outcome PdfDocument)
    (pdf : PdfDocument) (pages : list (list string)) (e : JsError) :
  pdfjsLib host = Some getDocument ->
  getDocument file = Returned pdf ->
  (length pages < numPages pdf)%nat ->
  (forall k, (k < length pages)%nat ->
             getPageItems pdf (S k) = Returned (nth k pages [])) ->
  getPageItems pdf (S (length pages)) = Thrown e ->
  readPdfFile host file = Thrown e.
Proof.
  intros Hlib Hdoc Hlt Hpages Hbad. unfold readPdfFile. rewrite Hlib, Hdoc.
  replace (numPages pdf)
    with (length pages + S (numPages pdf - S (length pages)))%nat by lia.
  rewrite readPages_prefix by (intros k Hk; now apply Hpages).
  cbn [readPages]. change (1 + length pages)%nat with (S (length pages)).
  now rewrite Hbad.
Qed.

Lemma damaged_third_page :
  readPdfFile MoreSamples.damagedPdfHost Samples.resumePdf
  = Thrown (mkError "Invalid page structure").
Proof.
  apply (first_failing_page_aborts MoreSamples.damagedPdfHost Samples.resumePdf
           (fun _ => Returned MoreSamples.damagedPdf) MoreSamples.damagedPdf
           [["Jane"; "Doe"]; ["Skills"]]).
  - reflexivity.
  - reflexivity.
  - simpl. lia.
  - intros k Hk. simpl in Hk.
    destruct k as [|[|k]]; [reflexivity | reflexivity | lia].
  - reflexivity.
Defined.

(** X5.  For an image file: a reader that delivers nothing (null or the
    empty string) makes the extraction fail with "Failed to read image
    file"; a reader error is passed on as it is; and a reader result
    without any comma gives an image whose payload is undefined. *)
Theorem image_reader_edges (host : Host) (file : File) :
  Spec.isImageFile file ->
  (readAsDataURL host file = Returned None
   \/ readAsDataURL host file = Returned (Some "") ->
   extractContentFromFile host file
   = Thrown (mkError "Failed to read image file"))
  /\ (forall e, readAsDataURL host file = Thrown e ->
                extractContentFromFile host file = Thrown e)
  /\ (forall result,
         readAsDataURL host file = Returned (Some result) ->
         result <> "" -> occurs "," result = false ->
         exists mimeType,
           extractContentFromFile host file
           = Returned (ImageContent mimeType None)).
Proof.
  intros Y. rewrite (dispatch_image host file Y). unfold readImageFile.
  split; [|split].
  - intros [H | H]; now rewrite H.
  - intros e H. now rewrite H.
  - intros result H Hne Hc. rewrite H.
    destruct result as [|c result]; [congruence|]. cbn [truthy negb].
    rewrite (split_no_sep _ _ Hc). cbn [nth_error]. eexists. reflexivity.
Qed.

Lemma image_reader_edges_examples :
  extractContentFromFile Samples.textHost Samples.untypedPhoto
  = Thrown (mkError "")
  /\ exists mimeType,
       extractContentFromFile MoreSamples.commalessHost Samples.untypedPhoto
       = Returned (ImageContent mimeType None).
Proof.
  assert (Y : Spec.isImageFile Samples.untypedPhoto).
  { left. exists "png". split; [reflexivity | simpl; tauto]. }
  split.
  - apply (image_reader_edges Samples.textHost Samples.untypedPhoto Y).
    reflexivity.
  - apply (proj2 (proj2 (image_reader_edges MoreSamples.commalessHost
                           Samples.untypedPhoto Y)) "data:image/png;base64");
      [reflexivity | discriminate | reflexivity].
Defined.

Lemma lowerChar_idempotent (c : ascii) : lowerChar (lowerChar c) = lowerChar c.
Proof. destruct c as [[] [] [] [] [] [] [] []]; reflexivity. Qed.

Lemma lowerChar_dot (c : ascii) :
  Ascii.eqb (lowerChar c) "." = Ascii.eqb c ".".
Proof. destruct c as [[] [] [] [] [] [] [] []]; reflexivity. Qed.

Lemma toLowerCase_idempotent (s : string) :
  toLowerCase (toLowerCase s) = toLowerCase s.
Proof.
  induction s as [|c s IH]; [reflexivity|].
  cbn [toLowerCase]. now rewrite lowerChar_idempotent, IH.
Qed.

Lemma occurs_dot_lower (s : string) :
  occurs "." (toLowerCase s) = occurs "." s.
Proof.
  induction s as [|c s IH]; [reflexivity|].
  cbn [toLowerCase occurs]. now rewrite lowerChar_dot, IH.
Qed.

Lemma pop_split_piece (sep : ascii) (s : string) :
  exists x, pop (split sep s) = Some x /\ occurs sep x = false.
Proof.
  induction s as [|c s (x & Hx & Hs)].
  - now exists "".
  - cbn [split]. destruct (Ascii.eqb c sep) eqn:E.
    + exists x. rewrite pop_cons by apply split_not_nil. now split.
    + destruct (split sep s) as [|h [|h' t]] eqn:S.
      * discriminate Hx.
      * cbn [pop] in Hx |- *. injection Hx as <-.
        exists (String c h). split; [reflexivity|].
        cbn [occurs]. now rewrite E, Hs.
      * exists x. split; [|exact Hs]. exact Hx.
Qed.

(** X25.  Every file name has an extension for the dispatch (it is never
    undefined), and that extension contains no dot and is in lower case
    already: lower-casing it again changes nothing. *)
Theorem extension_is_normalised (file : File) :
  exists e,
    extensionOf file = Some e
    /\ occurs "." e = false
    /\ toLowerCase e = e.
Proof.
  unfold extensionOf.
  destruct (pop_split_piece "." (name file)) as (x & -> & Hx).
  exists (toLowerCase x). cbn [option_map].
  split; [reflexivity | split].
  - now rewrite occurs_dot_lower.
  - apply toLowerCase_idempotent.
Qed.

End FileParserMore.

(* ================================================================== *)
(** ** Further facts about the analysis service *)

Module GeminiMore.

Import Js GeminiService JsFacts GeminiFacts.
Local Open Scope string_scope.

Lemma getAI_missing {World : Type} (env : Env World) :
  Notions.keyMissing env ->
  getAI env = Thrown (mkError Notions.KEY_MISSING_MESSAGE).
Proof. unfold getAI. intros [H | H]; now rewrite H. Qed.

(** X6.  Without a configured key (absent or empty) [analyzeResume]
    fails with the key-missing error for every input, and the remote
    capability is not called: the service is left as it was on entry. *)
Theorem missing_key_makes_no_call {World : Type} (env : Env World)
    (input : FileContent) (s : Svc World) :
  Notions.keyMissing env ->
  analyzeResume env input s
  = (Thrown (mkError Notions.KEY_MISSING_MESSAGE), Spec.entered input s).
Proof.
  intros H. unfold analyzeResume, bind, record, modify, await.
  now rewrite (getAI_missing env H).
Qed.

Lemma missing_key_example :
  analyzeResume MoreSamples.keylessEnv (TextContent Samples.longText) Samples.freshSvc
  = (Thrown (mkError "API Key is missing. Please set VITE_GEMINI_API_KEY."),
     {| remote := tt; log := [AnalyzeInvoked (TextContent Samples.longText)] |}).
Proof.
  apply (missing_key_makes_no_call MoreSamples.keylessEnv
           (TextContent Samples.longText) Samples.freshSvc).
  now left.
Defined.

(** X7.  Whatever the remote capability does, one [analyzeResume] makes
    at most four calls to it, one after the other and all after the entry
    into the function; no call follows a call that succeeded; and a
    result is returned only when the last call made has succeeded. *)
Theorem analysis_call_budget {World : Type} (env : Env World)
    (input : FileContent) (s : Svc World) :
  exists attempts : list Spec.Attempt,
    let run := analyzeResume env input s in
    log (snd run) = (log s ++ AnalyzeInvoked input :: Spec.asEvents attempts)%list
    /\ Spec.Played env (remote s) attempts (remote (snd run))
    /\ (length attempts <= 4)%nat
    /\ Forall Spec.failed (removelast attempts)
    /\ (forall r, fst run = Returned r ->
                  exists response,
                    Spec.lastOf (map snd attempts) = Some (Returned response)).
Proof.
  unfold analyzeResume, bind, record, modify, await, tryCatch, throw.
  destruct (getAI env) as [apiKey | e].
  - destruct (fallbackLoop_run env (buildContents input) analysisConfig
                MODELS_TO_TRY None (Spec.entered input s))
      as [attempts (Hlog & Hplay & Hreq & Hfail & Hout)].
    cbv zeta in Hlog, Hplay, Hout. exists attempts.
    unfold generateWithFallback.
    change {| remote := remote s; log := log s ++ [AnalyzeInvoked input] |}
      with (Spec.entered input s).
    assert (Hlen : (length attempts <= 4)%nat).
    { apply (f_equal (@length _)) in Hreq. rewrite !length_map in Hreq.
      rewrite length_firstn in Hreq.
      change (length MODELS_TO_TRY) with 4%nat in Hreq.
      symmetry in Hreq. now apply Nat.min_l_iff in Hreq. }
    destruct (fallbackLoop env MODELS_TO_TRY (buildContents input) analysisConfig
                None (Spec.entered input s)) as [[response | e] s'].
    + cbn [fst snd] in Hlog, Hplay, Hout.
      assert (E : log s' = (log s ++ AnalyzeInvoked input :: Spec.asEvents attempts)%list).
      { rewrite Hlog. simpl. now rewrite <- app_assoc. }
      assert (K : forall (o : Outcome ResumeAnalysisResult),
                 log (snd (o, s')) = (log s ++ AnalyzeInvoked input :: Spec.asEvents attempts)%list
                 /\ Spec.Played env (remote s) attempts (remote (snd (o, s')))
                 /\ (length attempts <= 4)%nat
                 /\ Forall Spec.failed (removelast attempts)
                 /\ (forall r, fst (o, s') = Returned r ->
                               exists response0,
                                 Spec.lastOf (map snd attempts) = Some (Returned response0))).
      { intros o. repeat split; try assumption. intros r _. now exists response. }
      cbv zeta.
      destruct (text response) as [jsonText|]; [|apply K].
      destruct (negb (truthy jsonText)); [apply K|].
      destruct (JSON_parse env jsonText); apply K.
    + cbn [fst snd] in Hlog, Hplay |- *. cbv zeta. cbn [fst snd].
      repeat split; try assumption.
      * rewrite Hlog. simpl. now rewrite <- app_assoc.
      * intros r Hr. discriminate Hr.
  - exists []. cbv zeta. cbn [fst snd remote log Spec.asEvents map length removelast].
    repeat split; try constructor.
    + lia.
    + intros r Hr. discriminate Hr.
Qed.

(** X8.  When the first model of the chain answers with a text payload
    that is not empty and parses, [analyzeResume] returns the parsed
    result after that single call: the other models are not asked. *)
Theorem preferred_model_answers {World : Type} (env : Env World)
    (input : FileContent) (s : Svc World) (apiKey jsonText : string)
    (response : GenerateResponse) (world' : World) (r : ResumeAnalysisResult) :
  getAI env = Returned apiKey ->
  generateContent env
    (Spec.requestFor (buildContents input) analysisConfig "gemini-2.5-flash")
    (remote s) = (Returned response, world') ->
  text response = Some jsonText ->
  jsonText <> "" ->
  JSON_parse env jsonText = Returned r ->
  analyzeResume env input s
  = (Returned r,
     {| remote := world';
        log := log s ++ [AnalyzeInvoked input;
                         ModelAttempt
                           (Spec.requestFor (buildContents input) analysisConfig
                              "gemini-2.5-flash")
                           (Returned response)] |}).
Proof.
  intros Hkey Hcall Htext Hne Hparse.
  unfold analyzeResume, bind, record, modify, await, tryCatch, throw.
  rewrite Hkey. unfold generateWithFallback, MODELS_TO_TRY.
  cbn [fallbackLoop]. unfold attempt. cbn [remote log].
  change {| model := "gemini-2.5-flash"; contents := buildContents input;
            config := analysisConfig |}
    with (Spec.requestFor (buildContents input) analysisConfig "gemini-2.5-flash").
  rewrite Hcall, Htext.
  destruct jsonText as [|c jsonText]; [congruence|].
  cbn [truthy negb]. rewrite Hparse. now rewrite <- app_assoc.
Qed.

Lemma preferred_model_example :
  analyzeResume (Samples.answeringEnv (Samples.analysisOf (7 # 1) "Solid."))
    (ImageContent "image/png" (Some "iVBORw0KGgo=")) Samples.freshSvc
  = (Returned (Samples.analysisOf (7 # 1) "Solid."),
     {| remote := tt;
        log := [AnalyzeInvoked (ImageContent "image/png" (Some "iVBORw0KGgo="));
                ModelAttempt
                  (Spec.requestFor
                     (buildContents (ImageContent "image/png" (Some "iVBORw0KGgo=")))
                     analysisConfig "gemini-2.5-flash")
                  (Returned {| text := Some "{}" |})] |}).
Proof.
  apply (preferred_model_answers
           (Samples.answeringEnv (Samples.analysisOf (7 # 1) "Solid."))
           (ImageContent "image/png" (Some "iVBORw0KGgo=")) Samples.freshSvc
           "key" "{}" {| text := Some "{}" |} tt).
  - reflexivity.
  - reflexivity.
  - reflexivity.
  - discriminate.
  - reflexivity.
Defined.

(** X9.  The request built for an input determines that input: two
    different inputs (another text, another image, MIME type or payload)
    never give the same request contents. *)
Theorem buildContents_injective (a b : FileContent) :
  a <> b -> buildContents a <> buildContents b.
Proof.
  intros N H. apply N.
  destruct a as [ta | ma da], b as [tb | mb db]; simpl in H;
    try discriminate H.
  - injection H as H. now subst.
  - now injection H as -> ->.
Qed.

Lemma buildContents_injective_example :
  buildContents (TextContent "a") <> buildContents (TextContent "b").
Proof.
  apply (buildContents_injective (TextContent "a") (TextContent "b")).
  discriminate.
Defined.

End GeminiMore.

(* ================================================================== *)
(** ** Further facts about the error classification *)

Module ClassifyMore.

Import Js FileParser GeminiService App JsFacts GeminiFacts AppFacts.
Local Open Scope string_scope.

Lemma includes_contains (sub s : string) :
  includes sub s = true <-> Spec.contains sub s.
Proof.
  split.
  - induction s as [|c s IH]; rewrite includes_unfold; intros H;
      apply orb_true_iff in H as [H | H].
    + apply startsWith_iff in H as [rest ->]. now exists "", rest.
    + discriminate H.
    + apply startsWith_iff in H as [rest ->]. now exists "", rest.
    + destruct (IH H) as (pre & post & ->). now exists (String c pre), post.
  - intros (pre & post & ->). apply includes_app.
Qed.

Lemma toLowerCase_split (a b : string) :
  forall s, toLowerCase s = a ++ b ->
            exists x y, s = x ++ y /\ toLowerCase x = a /\ toLowerCase y = b.
Proof.
  induction a as [|c a IH]; intros s H.
  - now exists "", s.
  - destruct s as [|d s]; [discriminate H|].
    cbn [toLowerCase append] in H. injection H as Hd H.
    destruct (IH s H) as (x & y & -> & Hx & Hy).
    exists (String d x), y. cbn [toLowerCase append]. now rewrite Hd, Hx.
Qed.

Lemma includes_lower (needle s : string) :
  includes needle (toLowerCase s) = true <-> Spec.containsIgnoringCase needle s.
Proof.
  rewrite includes_contains. split.
  - intros (pre & post & H).
    destruct (toLowerCase_split pre (needle ++ post) s H) as (x & yz & -> & _ & H2).
    destruct (toLowerCase_split needle post yz H2) as (y & z & -> & Hy & _).
    now exists x, y, z.
  - intros (x & y & z & -> & Hy).
    exists (toLowerCase x), (toLowerCase z).
    now rewrite !toLowerCase_app, Hy.
Qed.

Lemma rate_test (msg : string) :
  includes "quota" (toLowerCase msg) || includes "429" (toLowerCase msg)
  || includes "rate limit" (toLowerCase msg)
  || includes "exceeded" (toLowerCase msg) = true
  <-> Notions.rateMarked msg.
Proof.
  unfold Notions.rateMarked.
  rewrite !orb_true_iff, !includes_lower. tauto.
Qed.

Lemma unavailable_test (msg : string) :
  includes "503" msg || includes "unavailable" (toLowerCase msg)
  || includes "high demand" (toLowerCase msg) = true
  <-> Notions.unavailableMarked msg.
Proof.
  unfold Notions.unavailableMarked.
  rewrite !orb_true_iff, !includes_lower, includes_contains. tauto.
Qed.

Lemma auth_test (msg : string) :
  includes "API Key" msg || includes "api_key" msg || includes "401" msg = true
  <-> Notions.authMarked msg.
Proof.
  unfold Notions.authMarked.
  rewrite !orb_true_iff, !includes_contains. tauto.
Qed.

Lemma network_test (msg : string) :
  includes "network" (toLowerCase msg) || includes "fetch" (toLowerCase msg)
  || includes "failed to fetch" (toLowerCase msg) = true
  <-> Notions.networkMarked msg.
Proof.
  unfold Notions.networkMarked.
  rewrite !orb_true_iff, !includes_lower. tauto.
Qed.

(** X10.  The class of a message is decided by its markers in a fixed
    order: rate limit when it holds quota, 429, rate limit or exceeded
    (in any case); else service unavailable when it holds 503, or
    unavailable or high demand in any case; else authentication when it
    holds API Key, api_key or 401 exactly as written; else network when
    it holds network or fetch in any case; and unknown only when it
    holds none of these. *)
Theorem classification_table (msg : string) :
  let k := kind (classifyMessage msg) in
  (k = RateLimited <-> Notions.rateMarked msg)
  /\ (k = ServiceUnavailable <->
      ~ Notions.rateMarked msg /\ Notions.unavailableMarked msg)
  /\ (k = AuthError <->
      ~ Notions.rateMarked msg /\ ~ Notions.unavailableMarked msg
      /\ Notions.authMarked msg)
  /\ (k = NetworkError <->
      ~ Notions.rateMarked msg /\ ~ Notions.unavailableMarked msg
      /\ ~ Notions.authMarked msg /\ Notions.networkMarked msg)
  /\ (k = Unknown <->
      ~ Notions.rateMarked msg /\ ~ Notions.unavailableMarked msg
      /\ ~ Notions.authMarked msg /\ ~ Notions.networkMarked msg).
Proof.
  cbv zeta. unfold classifyMessage.
  pose proof (rate_test msg) as R.
  pose proof (unavailable_test msg) as U.
  pose proof (auth_test msg) as A.
  pose proof (network_test msg) as N.
  destruct (includes "quota" (toLowerCase msg) || includes "429" (toLowerCase msg)
            || includes "rate limit" (toLowerCase msg)
            || includes "exceeded" (toLowerCase msg)) eqn:ER;
    [cbn [kind]; repeat split; intros; try discriminate; tauto|].
  destruct (includes "503" msg || includes "unavailable" (toLowerCase msg)
            || includes "high demand" (toLowerCase msg)) eqn:EU;
    [cbn [kind];
     repeat split; intros; try discriminate; try tauto;
     (destruct R, U; intuition discriminate)|].
  destruct (includes "API Key" msg || includes "api_key" msg || includes "401" msg)
    eqn:EA;
    [cbn [kind];
     repeat split; intros; try discriminate; try tauto;
     (destruct R, U, A; intuition discriminate)|].
  destruct (includes "network" (toLowerCase msg) || includes "fetch" (toLowerCase msg)
            || includes "failed to fetch" (toLowerCase msg)) eqn:EN;
    cbn [kind];
    repeat split; intros; try discriminate; try tauto;
    (destruct R, U, A, N; intuition discriminate).
Qed.

Lemma slice0_prefix (n : nat) :
  forall s, exists rest, s = slice0 n s ++ rest.
Proof.
  induction n as [|n IH]; intros s.
  - exists s. now destruct s.
  - destruct s as [|c s]; [now exists ""|].
    destruct (IH s) as [rest H]. exists rest. cbn [slice0 append]. now rewrite <- H.
Qed.

Lemma slice0_length (n : nat) :
  forall s, String.length (slice0 n s) = Nat.min n (String.length s).
Proof.
  induction n as [|n IH]; intros s; [now destruct s|].
  destruct s as [|c s]; [reflexivity|]. cbn [slice0 String.length]. now rewrite IH.
Qed.

Lemma slice0_short (n : nat) :
  forall s, (String.length s <= n)%nat -> slice0 n s = s.
Proof.
  induction n as [|n IH]; intros s H.
  - destruct s; [reflexivity | simpl in H; lia].
  - destruct s as [|c s]; [reflexivity|]. cbn [slice0]. rewrite IH; [reflexivity|].
    simpl in H. lia.
Qed.

(** X11.  The message shown to the user is never longer than 500
    characters.  In every class but the unknown one it is one of the four
    fixed messages; in the unknown class it is the start of the raw
    message, and the whole raw message when that has at most 500
    characters. *)
Theorem user_message_shape (msg : string) :
  let c := classifyMessage msg in
  (String.length (userMessage c) <= 500)%nat
  /\ (kind c <> Unknown -> In (userMessage c) Notions.fixedMessages)
  /\ (kind c = Unknown ->
      (exists rest, msg = userMessage c ++ rest)
      /\ ((String.length msg <= 500)%nat -> userMessage c = msg)).
Proof.
  cbv zeta. unfold classifyMessage, Notions.fixedMessages.
  repeat match goal with
         | |- context [if ?b then _ else _] => destruct b
         end; cbn [kind userMessage].
  1-4: split; [apply Nat.leb_le; reflexivity|];
       split; [intros _; simpl; tauto | intros H; discriminate H].
  split; [rewrite slice0_length; apply Nat.le_min_l|].
  split; [intros H; now elim H|].
  intros _. split; [apply slice0_prefix | apply slice0_short].
Qed.

Lemma user_message_example :
  userMessage (classifyMessage "boom") = "boom".
Proof.
  apply (proj2 (proj2 (proj2 (user_message_shape "boom")) eq_refl)).
  simpl. lia.
Defined.

End ClassifyMore.

(* ================================================================== *)
(** ** Further facts about the analysis run *)

Module RunMore.

Import Js FileParser GeminiService App JsFacts GeminiFacts AppFacts AppRender.
Local Open Scope string_scope.

Section WithEnv.

Context {World : Type}.
Variable host : Host.
Variable env : Env World.
Variable parse : string -> Outcome JsValue.

Lemma handleFailure_cases (err : JsError) (s : Sys World) :
  (exists c, classify parse err = Returned c
             /\ handleFailure parse err s
                = (Returned tt, {| app := Spec.reported c (app s); svc := svc s |}))
  \/ (exists e, classify parse err = Thrown e
                /\ handleFailure parse err s = (Thrown e, s)).
Proof.
  destruct (classify parse err) as [c | e] eqn:H.
  - left. exists c. split; [reflexivity | now apply handleFailure_classified].
  - right. exists e. split; [reflexivity|].
    unfold handleFailure, bind, await. now rewrite H.
Qed.

(** Every way a run can go. *)
Lemma startAnalysis_cases (s : Sys World) :
  match selectedFile (app s) with
  | None =>
      startAnalysis host env parse s
      = (Returned tt,
         {| app := setShowErrorModal true
                     (setErrorMsg (Some "Please select a file to analyze.") (app s));
            svc := svc s |})
  | Some file =>
      match extractContentFromFile host file with
      | Thrown e =>
          startAnalysis host env parse s
          = handleFailure parse e
              {| app := Notions.parsingState (app s); svc := svc s |}
      | Returned content =>
          (exists text, content = TextContent text
                        /\ (String.length text < 200)%nat
                        /\ startAnalysis host env parse s
                           = handleFailure parse (mkError TOO_SHORT_MESSAGE)
                               {| app := Notions.parsingState (app s);
                                  svc := svc s |})
          \/ ((forall text, content = TextContent text ->
                            (200 <= String.length text)%nat)
              /\ startAnalysis host env parse s
                 = match analyzeResume env content (svc s) with
                   | (Returned analysis, svc1) =>
                       if isSentinel analysis
                       then handleFailure parse (mkError INVALID_DOCUMENT_MESSAGE)
                              {| app := Spec.analyzingState (app s); svc := svc1 |}
                       else (Returned tt,
                             {| app := setStatus success
                                         (setResult (Some analysis)
                                            (Spec.analyzingState (app s)));
                                svc := svc1 |})
                   | (Thrown e, svc1) =>
                       handleFailure parse e
                         {| app := Spec.analyzingState (app s); svc := svc1 |}
                   end)
      end
  end.
Proof.
  destruct (selectedFile (app s)) as [file|] eqn:Hsel.
  - destruct (extractContentFromFile host file) as [content | e] eqn:Hext.
    + assert (G : (exists text, content = TextContent text
                                /\ (String.length text < 200)%nat)
                  \/ (forall text, content = TextContent text ->
                                   (200 <= String.length text)%nat)).
      { destruct content as [text | m d].
        - destruct (Nat.ltb_spec (String.length text) 200) as [L | L].
          + left. now exists text.
          + right. intros t [= <-]. exact L.
        - right. intros t H. discriminate H. }
      destruct G as [(text & -> & L) | G].
      * left. exists text. split; [reflexivity | split; [exact L|]].
        unfold startAnalysis. rewrite Hsel.
        unfold tryCatch, bind, update, modify, await, throw.
        cbn [app svc]. rewrite Hext. unfold lengthGate.
        apply Nat.ltb_lt in L. now rewrite L.
      * right. split; [exact G|].
        now apply startAnalysis_after_gate with (file := file).
    + unfold startAnalysis. rewrite Hsel.
      unfold tryCatch, bind, update, modify, await.
      cbn [app svc]. now rewrite Hext.
  - unfold startAnalysis. now rewrite Hsel.
Qed.

End WithEnv.

(** X12.  For an error whose retry numeral, if any, has at most 15
    characters: when the error is of the rate-limit class and carries a
    delay above zero, the [catch] block sets the countdown to that delay;
    when it is of another class, or carries no delay above zero, or when
    the classification itself throws, the countdown is left as it was. *)
Theorem countdown_armed_only_by_rate_limit {World : Type}
    (parse : string -> Outcome JsValue) (err : JsError) (s : Sys World) :
  Notions.shortDelay parse err ->
  let s' := snd (handleFailure parse err s) in
  (forall c n,
      classify parse err = Returned c ->
      kind c = RateLimited ->
      retryAfterSeconds c = Some n ->
      (0 < n)%Z ->
      retryCountdown (app s') = Some n)
  /\ (forall c,
        classify parse err = Returned c ->
        kind c <> RateLimited ->
        retryCountdown (app s') = retryCountdown (app s))
  /\ (forall c,
        classify parse err = Returned c ->
        ~ (exists n, retryAfterSeconds c = Some n /\ (0 < n)%Z) ->
        retryCountdown (app s') = retryCountdown (app s))
  /\ (forall e,
        classify parse err = Thrown e ->
        retryCountdown (app s') = retryCountdown (app s)).
Proof.
  intros _. cbv zeta. split; [|split; [|split]].
  - intros c n Hc Hk Hr Hn.
    rewrite (handleFailure_classified parse err c s Hc). cbn [snd app].
    unfold Spec.reported, Spec.armed. rewrite Hk, Hr. cbn [isPositive].
    destruct (Z.ltb_spec 0 n) as [_ | L]; [reflexivity | lia].
  - intros c Hc Hk.
    rewrite (handleFailure_classified parse err c s Hc). cbn [snd app].
    unfold Spec.reported, Spec.armed.
    destruct (kind c); first [reflexivity | now elim Hk].
  - intros c Hc Hno.
    rewrite (handleFailure_classified parse err c s Hc). cbn [snd app].
    unfold Spec.reported, Spec.armed.
    destruct (kind c); try reflexivity.
    destruct (retryAfterSeconds c) as [n|]; cbn [isPositive]; [|reflexivity].
    destruct (Z.ltb_spec 0 n) as [L | _]; [|reflexivity].
    elim Hno. now exists n.
  - intros e He. unfold handleFailure, bind, await. now rewrite He.
Qed.

(** A quota error that asks to retry in 1.2s arms the countdown at 2; a
    503 error with the same request leaves it alone. *)
Lemma countdown_arming_examples :
  retryCountdown
    (app (snd (handleFailure Samples.noJson
                 (mkError "Quota exceeded. Please retry in 1.2s.")
                 {| app := MoreSamples.afterSuccess; svc := Samples.freshSvc |})))
  = Some 2%Z
  /\ retryCountdown
       (app (snd (handleFailure Samples.noJson
                    (mkError "503 Service Unavailable. Please retry in 1.2s.")
                    {| app := MoreSamples.afterSuccess; svc := Samples.freshSvc |})))
     = None.
Proof.
  split.
  - refine (proj1 (countdown_armed_only_by_rate_limit Samples.noJson
                     (mkError "Quota exceeded. Please retry in 1.2s.")
                     {| app := MoreSamples.afterSuccess; svc := Samples.freshSvc |} _)
              {| kind := RateLimited; userMessage := RATE_LIMIT_MESSAGE;
                 retryAfterSeconds := Some 2%Z |} 2%Z eq_refl eq_refl eq_refl eq_refl).
    intros msg captured Hm Hr. injection Hm as <-.
    vm_compute in Hr. injection Hr as <-. simpl. lia.
  - refine (proj1 (proj2 (countdown_armed_only_by_rate_limit Samples.noJson
                     (mkError "503 Service Unavailable. Please retry in 1.2s.")
                     {| app := MoreSamples.afterSuccess; svc := Samples.freshSvc |} _))
              {| kind := ServiceUnavailable; userMessage := HIGH_DEMAND_MESSAGE;
                 retryAfterSeconds := Some 2%Z |} eq_refl _).
    + intros msg captured Hm Hr. injection Hm as <-.
      vm_compute in Hr. injection Hr as <-. simpl. lia.
    + discriminate.
Defined.

(** X13.  A run of the analysis leaves the service (remote state and
    call log) exactly as it was when no file is selected, when the
    extraction fails, and when the extracted text has fewer than 200
    characters.  When a file is selected, its content extracted and the
    length gate passed, [analyzeResume] is entered with that content: the
    service ends in the state that call leaves, whose log holds the entry
    right after what was logged before. *)
Theorem service_untouched_before_gate {World : Type} (host : Host)
    (env : Env World) (parse : string -> Outcome JsValue) (s : Sys World) :
  let s' := snd (startAnalysis host env parse s) in
  (selectedFile (app s) = None -> svc s' = svc s)
  /\ (forall file e,
        selectedFile (app s) = Some file ->
        extractContentFromFile host file = Thrown e ->
        svc s' = svc s)
  /\ (forall file text,
        selectedFile (app s) = Some file ->
        extractContentFromFile host file = Returned (TextContent text) ->
        (String.length text < 200)%nat ->
        svc s' = svc s)
  /\ (forall file content,
        selectedFile (app s) = Some file ->
        extractContentFromFile host file = Returned content ->
        (forall text, content = TextContent text ->
                      (200 <= String.length text)%nat) ->
        svc s' = snd (analyzeResume env content (svc s))
        /\ exists more,
             log (svc s')
             = (log (svc s) ++ AnalyzeInvoked content :: more)%list).
Proof.
  cbv zeta. pose proof (startAnalysis_cases host env parse s) as C.
  split; [|split; [|split]].
  - intros Hsel. rewrite Hsel in C. now rewrite C.
  - intros file e Hsel Hext. rewrite Hsel, Hext in C.
    rewrite C. now rewrite handleFailure_svc.
  - intros file text Hsel Hext Hshort. rewrite Hsel, Hext in C.
    destruct C as [(t & _ & _ & ->) | [G _]].
    + now rewrite handleFailure_svc.
    + specialize (G text eq_refl). lia.
  - intros file content Hsel Hext Hlen.
    rewrite (startAnalysis_after_gate host env parse s file content Hsel Hext Hlen).
    destruct (analyzeResume_log env content (svc s)) as [more Hlog].
    assert (E : svc (snd (match analyzeResume env content (svc s) with
                          | (Returned analysis, svc1) =>
                              if isSentinel analysis
                              then handleFailure parse (mkError INVALID_DOCUMENT_MESSAGE)
                                     {| app := Spec.analyzingState (app s); svc := svc1 |}
                              else (Returned tt,
                                    {| app := setStatus success
                                                (setResult (Some analysis)
                                                   (Spec.analyzingState (app s)));
                                       svc := svc1 |})
                          | (Thrown e, svc1) =>
                              handleFailure parse e
                                {| app := Spec.analyzingState (app s); svc := svc1 |}
                          end))
                = snd (analyzeResume env content (svc s))).
    { destruct (analyzeResume env content (svc s)) as [[analysis | e] svc1].
      - destruct (isSentinel analysis); [now rewrite handleFailure_svc | reflexivity].
      - now rewrite handleFailure_svc. }
    rewrite E. split; [reflexivity|]. now exists more.
Qed.

(** An image goes into the analysis, whose single call is in the log; a
    short text and an unreadable file leave the service alone. *)
Lemma service_examples :
  svc (snd (startAnalysis Samples.pngHost
              (Samples.answeringEnv (Samples.analysisOf (7 # 1) "Solid."))
              Samples.noJson
              (Samples.sysWith Samples.untypedPhoto Samples.freshSvc)))
  = snd (analyzeResume
           (Samples.answeringEnv (Samples.analysisOf (7 # 1) "Solid."))
           (ImageContent "image/png" (Some "iVBORw0KGgo=")) Samples.freshSvc)
  /\ svc (snd (startAnalysis Samples.textHost
                 (Samples.answeringEnv (Samples.analysisOf (7 # 1) "Solid."))
                 Samples.noJson
                 (Samples.sysWith Samples.shortCv Samples.freshSvc)))
     = Samples.freshSvc
  /\ svc (snd (startAnalysis Samples.textHost
                 (Samples.answeringEnv (Samples.analysisOf (7 # 1) "Solid."))
                 Samples.noJson
                 (Samples.sysWith Samples.untypedPhoto Samples.freshSvc)))
     = Samples.freshSvc.
Proof.
  split; [|split].
  - refine (proj1 (proj2 (proj2 (proj2
              (service_untouched_before_gate Samples.pngHost
                 (Samples.answeringEnv (Samples.analysisOf (7 # 1) "Solid."))
                 Samples.noJson
                 (Samples.sysWith Samples.untypedPhoto Samples.freshSvc))))
              Samples.untypedPhoto
              (ImageContent "image/png" (Some "iVBORw0KGgo=")) eq_refl eq_refl _)).
    intros text H. discriminate H.
  - refine (proj1 (proj2 (proj2
              (service_untouched_before_gate Samples.textHost
                 (Samples.answeringEnv (Samples.analysisOf (7 # 1) "Solid."))
                 Samples.noJson
                 (Samples.sysWith Samples.shortCv Samples.freshSvc))))
              Samples.shortCv "curriculum vitae" eq_refl eq_refl _).
    simpl. lia.
  - exact (proj1 (proj2
              (service_untouched_before_gate Samples.textHost
                 (Samples.answeringEnv (Samples.analysisOf (7 # 1) "Solid."))
                 Samples.noJson
                 (Samples.sysWith Samples.untypedPhoto Samples.freshSvc)))
              Samples.untypedPhoto (mkError "") eq_refl eq_refl).
Defined.

Lemma reported_fields (c : Classified) (st : AppState) :
  status (Spec.reported c st) = error
  /\ result (Spec.reported c st) = result st
  /\ errorMsg (Spec.reported c st) = Some (userMessage c)
  /\ showErrorModal (Spec.reported c st) = true.
Proof.
  unfold Spec.reported, Spec.armed.
  destruct (kind c); try (repeat split; reflexivity).
  destruct (isPositive (retryAfterSeconds c)); repeat split; reflexivity.
Qed.

Lemma consistent_carried (st st' : AppState) :
  result st' = result st -> status st' <> success ->
  Notions.consistent st -> Notions.consistent st'.
Proof.
  intros Hr Hs [_ C]. split; [intros H; congruence|].
  intros r H. apply C. congruence.
Qed.

Lemma handleFailure_keeps_consistent {World : Type}
    (parse : string -> Outcome JsValue) (err : JsError) (s : Sys World) :
  status (app s) <> success ->
  Notions.consistent (app s) ->
  Notions.consistent (app (snd (handleFailure parse err s))).
Proof.
  intros Hs C.
  destruct (handleFailure_cases parse err s) as [(c & _ & ->) | (e & _ & ->)];
    [|exact C].
  cbn [snd app]. destruct (reported_fields c (app s)) as (S1 & R1 & _).
  apply (consistent_carried (app s)); [exact R1 | congruence | exact C].
Qed.

(** X14.  No handler ever stores a sentinel result or reports success
    without a stored result: if the component state has this property,
    it still has it after a run of the analysis, after the selection of a
    file, after a reset, after the dismissal of the modal and after a
    move of the countdown. *)
Theorem consistency_is_kept {World : Type} (host : Host) (env : Env World)
    (parse : string -> Outcome JsValue) (s : Sys World) :
  Notions.consistent (app s) ->
  Notions.consistent (app (snd (startAnalysis host env parse s)))
  /\ (forall file, Notions.consistent (handleFileSelection file (app s)))
  /\ Notions.consistent (resetAnalysis (app s))
  /\ Notions.consistent (dismissError (app s))
  /\ (forall st', countdownStep (app s) = Some st' -> Notions.consistent st').
Proof.
  intros C. split; [|split; [|split; [|split]]].
  - pose proof (startAnalysis_cases host env parse s) as K.
    assert (P : Notions.consistent (Notions.parsingState (app s)))
      by (apply (consistent_carried (app s)); [reflexivity | discriminate | exact C]).
    assert (A : Notions.consistent (Spec.analyzingState (app s)))
      by (apply (consistent_carried (app s)); [reflexivity | discriminate | exact C]).
    destruct (selectedFile (app s)) as [file|].
    + destruct (extractContentFromFile host file) as [content | e].
      * destruct K as [(text & _ & _ & ->) | [_ ->]].
        -- apply handleFailure_keeps_consistent; [discriminate | exact P].
        -- destruct (analyzeResume env content (svc s)) as [[analysis | e] svc1].
           ++ destruct (isSentinel analysis) eqn:Hs.
              ** apply handleFailure_keeps_consistent; [discriminate | exact A].
              ** cbn [snd app]. split; [discriminate|].
                 intros r [= <-]. exact Hs.
           ++ apply handleFailure_keeps_consistent; [discriminate | exact A].
      * rewrite K. apply handleFailure_keeps_consistent; [discriminate | exact P].
    + rewrite K. cbn [snd app]. destruct C as [C1 C2]. split; [exact C1 | exact C2].
  - intros [f|]; [|exact C]. unfold handleFileSelection.
    destruct C as [C1 C2].
    destruct (status (app s)) eqn:St;
      (split; [cbn; first [discriminate | rewrite St; discriminate]
              | first [intros r H; discriminate H | exact C2]]).
  - split; [discriminate | intros r H; discriminate H].
  - exact C.
  - intros st' H. unfold countdownStep, countdownEffect in H.
    destruct C as [C1 C2].
    destruct (retryCountdown (app s)) as [n|]; [|discriminate H].
    destruct (n <=? 0)%Z; injection H as <-; split; assumption.
Qed.

Lemma consistency_example :
  Notions.consistent
    (app (snd (startAnalysis Samples.longTextHost
                 (Samples.answeringEnv
                    (Samples.analysisOf (0 # 1) "INVALID_RESUME: a recipe."))
                 Samples.noJson
                 (Samples.sysWith Samples.shortCv Samples.freshSvc)))).
Proof.
  refine (proj1 (consistency_is_kept Samples.longTextHost
                   (Samples.answeringEnv
                      (Samples.analysisOf (0 # 1) "INVALID_RESUME: a recipe."))
                   Samples.noJson
                   (Samples.sysWith Samples.shortCv Samples.freshSvc) _)).
  split; [discriminate | intros r H; discriminate H].
Defined.

(** X15.  In a state where a stored result always accompanies success,
    exactly one of the three views is rendered: the landing page for the
    statuses idle and error, the loading view for parsing, validating
    and analyzing, and the results for success. *)
Theorem one_view_at_a_time (st : AppState) :
  Notions.consistent st ->
  match status st with
  | idle | error =>
      showsLanding st = true /\ showsLoading st = false /\ showsResults st = false
  | parsing | validating | analyzing =>
      showsLanding st = false /\ showsLoading st = true /\ showsResults st = false
  | success =>
      showsLanding st = false /\ showsLoading st = false /\ showsResults st = true
  end.
Proof.
  intros [C _]. unfold showsLanding, showsLoading, showsResults.
  destruct (status st) eqn:S; try (repeat split; reflexivity).
  destruct (result st); [repeat split; reflexivity | now elim C].
Qed.

Lemma one_view_example :
  showsLanding Samples.countingAtThree = true
  /\ showsLoading Samples.countingAtThree = false
  /\ showsResults Samples.countingAtThree = false.
Proof.
  apply (one_view_at_a_time Samples.countingAtThree).
  split; [discriminate | intros r H; discriminate H].
Defined.

Lemma classify_key_missing (parse : string -> Outcome JsValue) :
  classify parse (mkError Notions.KEY_MISSING_MESSAGE)
  = Returned {| kind := AuthError; userMessage := AUTH_MESSAGE;
                retryAfterSeconds := Some 0%Z |}.
Proof. vm_compute. reflexivity. Qed.

(** X16.  With a file whose content passes the gate but no configured
    key, the run ends in the error state showing the authentication
    message; the analysis was entered, no remote call was made, and the
    countdown is left alone. *)
Theorem missing_key_is_an_auth_error {World : Type} (host : Host)
    (env : Env World) (parse : string -> Outcome JsValue) (s : Sys World)
    (file : File) (content : FileContent) :
  selectedFile (app s) = Some file ->
  extractContentFromFile host file = Returned content ->
  (forall text, content = TextContent text -> (200 <= String.length text)%nat) ->
  Notions.keyMissing env ->
  let s' := snd (startAnalysis host env parse s) in
  fst (startAnalysis host env parse s) = Returned tt
  /\ svc s' = Spec.entered content (svc s)
  /\ status (app s') = error
  /\ errorMsg (app s') = Some AUTH_MESSAGE
  /\ showErrorModal (app s') = true
  /\ retryCountdown (app s') = retryCountdown (app s).
Proof.
  intros Hsel Hext Hlen Hkey.
  rewrite (startAnalysis_after_gate host env parse s file content Hsel Hext Hlen).
  unfold analyzeResume, bind, record, modify, await.
  rewrite (GeminiMore.getAI_missing env Hkey).
  rewrite (handleFailure_classified parse _ _ _ (classify_key_missing parse)).
  repeat split.
Qed.

Lemma missing_key_pipeline_example :
  let run := startAnalysis Samples.longTextHost MoreSamples.keylessEnv
               Samples.noJson
               (Samples.sysWith MoreSamples.longCv Samples.freshSvc) in
  fst run = Returned tt
  /\ svc (snd run) = Spec.entered (TextContent Samples.longText) Samples.freshSvc
  /\ status (app (snd run)) = error
  /\ errorMsg (app (snd run)) = Some AUTH_MESSAGE
  /\ showErrorModal (app (snd run)) = true
  /\ retryCountdown (app (snd run)) = None.
Proof.
  apply (missing_key_is_an_auth_error Samples.longTextHost MoreSamples.keylessEnv
           Samples.noJson (Samples.sysWith MoreSamples.longCv Samples.freshSvc)
           MoreSamples.longCv (TextContent Samples.longText)).
  - reflexivity.
  - reflexivity.
  - intros text H. injection H as <-. apply Nat.leb_le. reflexivity.
  - now left.
Defined.

Lemma classify_empty (parse : string -> Outcome JsValue) (e : JsError) :
  message e = "" ->
  classify parse e
  = Returned {| kind := Unknown; userMessage := "";
                retryAfterSeconds := Some 0%Z |}.
Proof. destruct e as [m]. simpl. intros ->. reflexivity. Qed.

(** X17.  When the extraction fails with an error that has no message
    (as a file reader's error event has none), the run ends in the error
    state with the empty text as its message, and although the modal
    flag is raised no error modal is rendered: the landing page is shown
    without any notice. *)
Theorem silent_failure {World : Type} (host : Host) (env : Env World)
    (parse : string -> Outcome JsValue) (s : Sys World) (file : File)
    (e : JsError) :
  selectedFile (app s) = Some file ->
  extractContentFromFile host file = Thrown e ->
  message e = "" ->
  let s' := snd (startAnalysis host env parse s) in
  fst (startAnalysis host env parse s) = Returned tt
  /\ status (app s') = error
  /\ errorMsg (app s') = Some ""
  /\ showErrorModal (app s') = true
  /\ errorModalVisible (app s') = false
  /\ showsLanding (app s') = true.
Proof.
  intros Hsel Hext Hmsg.
  pose proof (startAnalysis_cases host env parse s) as K.
  rewrite Hsel, Hext in K. rewrite K.
  rewrite (handleFailure_classified parse _ _ _ (classify_empty parse e Hmsg)).
  repeat split.
Qed.

Lemma silent_failure_example :
  let run := startAnalysis Samples.textHost
               (Samples.answeringEnv (Samples.analysisOf (7 # 1) "Solid."))
               Samples.noJson
               (Samples.sysWith Samples.untypedPhoto Samples.freshSvc) in
  fst run = Returned tt
  /\ status (app (snd run)) = error
  /\ errorMsg (app (snd run)) = Some ""
  /\ showErrorModal (app (snd run)) = true
  /\ errorModalVisible (app (snd run)) = false
  /\ showsLanding (app (snd run)) = true.
Proof.
  apply (silent_failure Samples.textHost
           (Samples.answeringEnv (Samples.analysisOf (7 # 1) "Solid."))
           Samples.noJson (Samples.sysWith Samples.untypedPhoto Samples.freshSvc)
           Samples.untypedPhoto (mkError "")); reflexivity.
Defined.

(** X18.  When the analysis fails with an error whose message unwraps to
    something that is not a string, the [catch] block itself throws: the
    run is rejected, no error is reported (message, modal flag and
    countdown stay as they were) and the status stays at analyzing, so
    the loading view remains on screen. *)
Theorem classifier_crash {World : Type} (host : Host) (env : Env World)
    (parse : string -> Outcome JsValue) (s : Sys World) (file : File)
    (content : FileContent) (e : JsError) (svc1 : Svc World) :
  selectedFile (app s) = Some file ->
  extractContentFromFile host file = Returned content ->
  (forall text, content = TextContent text -> (200 <= String.length text)%nat) ->
  analyzeResume env content (svc s) = (Thrown e, svc1) ->
  (forall m, unwrapMessage parse (message e) <> JString m) ->
  let s' := snd (startAnalysis host env parse s) in
  (exists err, fst (startAnalysis host env parse s) = Thrown err)
  /\ status (app s') = analyzing
  /\ showsLoading (app s') = true
  /\ errorMsg (app s') = None
  /\ showErrorModal (app s') = showErrorModal (app s)
  /\ retryCountdown (app s') = retryCountdown (app s).
Proof.
  intros Hsel Hext Hlen Hrun Hbad.
  rewrite (startAnalysis_after_gate host env parse s file content Hsel Hext Hlen).
  rewrite Hrun. unfold handleFailure, bind, await, classify.
  destruct (unwrapMessage parse (message e)) as [| | |m| |] eqn:U;
    try (cbv zeta; cbn [fst snd app]; split; [eexists; reflexivity | repeat split]).
  now elim (Hbad m).
Qed.

Lemma classifier_crash_example :
  let run := startAnalysis Samples.longTextHost MoreSamples.jsonFailEnv
               MoreSamples.numericMessageJson
               (Samples.sysWith MoreSamples.longCv Samples.freshSvc) in
  (exists err, fst run = Thrown err)
  /\ status (app (snd run)) = analyzing
  /\ showsLoading (app (snd run)) = true
  /\ errorMsg (app (snd run)) = None
  /\ showErrorModal (app (snd run)) = false
  /\ retryCountdown (app (snd run)) = None.
Proof.
  refine (classifier_crash Samples.longTextHost MoreSamples.jsonFailEnv
            MoreSamples.numericMessageJson
            (Samples.sysWith MoreSamples.longCv Samples.freshSvc)
            MoreSamples.longCv (TextContent Samples.longText)
            (mkError ("{" ++ DQ ++ "message" ++ DQ ++ ":404}"))
            (snd (analyzeResume MoreSamples.jsonFailEnv
                    (TextContent Samples.longText) Samples.freshSvc))
            eq_refl eq_refl _ eq_refl _).
  - intros text H. injection H as <-. apply Nat.leb_le. reflexivity.
  - intros m H. discriminate H.
Defined.

(** X26.  Both validation failures are shown in a modal titled "Invalid
    Document": the run on a text shorter than 200 characters, and the run
    whose analysis returns the sentinel. *)
Theorem validation_failures_titled_invalid {World : Type} (host : Host)
    (env : Env World) (parse : string -> Outcome JsValue) (s : Sys World)
    (file : File) (content : FileContent) :
  selectedFile (app s) = Some file ->
  extractContentFromFile host file = Returned content ->
  (exists text, content = TextContent text /\ (String.length text < 200)%nat)
  \/ ((forall text, content = TextContent text -> (200 <= String.length text)%nat)
      /\ exists analysis svc1,
           analyzeResume env content (svc s) = (Returned analysis, svc1)
           /\ Spec.isSentinel analysis) ->
  let s' := snd (startAnalysis host env parse s) in
  errorModalVisible (app s') = true
  /\ modalTitle (app s') = "Invalid Document"
  /\ showsLanding (app s') = true.
Proof.
  intros Hsel Hext [(text & -> & Hshort) | (Hlen & analysis & svc1 & Hrun & Hs)].
  - pose proof (startAnalysis_cases host env parse s) as K.
    rewrite Hsel, Hext in K.
    destruct K as [(t & [= <-] & _ & ->) | [G _]].
    + rewrite (handleFailure_classified parse _ _ _ (classify_too_short parse)).
      repeat split.
    + specialize (G text eq_refl). lia.
  - rewrite (startAnalysis_after_gate host env parse s file content Hsel Hext Hlen).
    rewrite Hrun. apply isSentinel_iff in Hs. rewrite Hs.
    rewrite (handleFailure_classified parse _ _ _ (classify_invalid_document parse)).
    repeat split.
Qed.

Lemma validation_titles_example :
  let run := startAnalysis Samples.textHost
               (Samples.answeringEnv (Samples.analysisOf (7 # 1) "Solid."))
               Samples.noJson (Samples.sysWith Samples.shortCv Samples.freshSvc) in
  errorModalVisible (app (snd run)) = true
  /\ modalTitle (app (snd run)) = "Invalid Document"
  /\ showsLanding (app (snd run)) = true.
Proof.
  apply (validation_failures_titled_invalid Samples.textHost
           (Samples.answeringEnv (Samples.analysisOf (7 # 1) "Solid."))
           Samples.noJson (Samples.sysWith Samples.shortCv Samples.freshSvc)
           Samples.shortCv (TextContent "curriculum vitae")).
  - reflexivity.
  - reflexivity.
  - left. exists "curriculum vitae". split; [reflexivity | simpl; lia].
Defined.

(** X27.  A run started right after a reset asks for a file and does
    nothing else: the modal shows "Please select a file to analyze."
    under the title "Something went wrong", the status is idle with the
    landing page on screen, nothing is stored as a result, and the
    service is untouched. *)
Theorem start_after_reset {World : Type} (host : Host) (env : Env World)
    (parse : string -> Outcome JsValue) (s : Sys World) :
  let run := startAnalysis host env parse
               {| app := resetAnalysis (app s); svc := svc s |} in
  fst run = Returned tt
  /\ svc (snd run) = svc s
  /\ status (app (snd run)) = idle
  /\ result (app (snd run)) = None
  /\ errorMsg (app (snd run)) = Some "Please select a file to analyze."
  /\ errorModalVisible (app (snd run)) = true
  /\ modalTitle (app (snd run)) = "Something went wrong"
  /\ showsLanding (app (snd run)) = true.
Proof. cbv zeta. unfold startAnalysis. cbn. repeat split. Qed.

(** X19.  When the message of an error looks like JSON (it starts with
    a brace or a bracket) and parses, the classification works on the
    text found under [error.message], or failing that under [message],
    and no longer on the raw text: markers that occur only elsewhere in
    the raw text do not count.  When the text does not parse, the raw
    text is classified. *)
Theorem json_body_is_classified_by_its_message
    (parse : string -> Outcome JsValue) (raw : string) :
  startsWith "{" raw = true \/ startsWith "[" raw = true ->
  (forall parsed m,
      parse raw = Returned parsed ->
      optProp (optProp (Some parsed) "error") "message" = Some (JString m) ->
      m <> "" ->
      classify parse (mkError raw) = Returned (classifyMessage m))
  /\ (forall parsed m,
        parse raw = Returned parsed ->
        truthyValue (optProp (optProp (Some parsed) "error") "message") = false ->
        optProp (Some parsed) "message" = Some (JString m) ->
        m <> "" ->
        classify parse (mkError raw) = Returned (classifyMessage m))
  /\ (forall e, parse raw = Thrown e ->
                classify parse (mkError raw) = Returned (classifyMessage raw)).
Proof.
  intros Hlooks.
  assert (L : startsWith "{" raw || startsWith "[" raw = true)
    by (apply orb_true_iff; exact Hlooks).
  unfold classify, unwrapMessage; cbn [message]; rewrite L.
  split; [|split].
  - intros parsed m Hp Hm Hne. rewrite Hp, Hm. unfold orValue.
    destruct m; [congruence | reflexivity].
  - intros parsed m Hp Hfalse Hm Hne. rewrite Hp, Hm. unfold orValue at 1.
    destruct (optProp (optProp (Some parsed) "error") "message") as [v|].
    + rewrite Hfalse. unfold orValue. destruct m; [congruence | reflexivity].
    + unfold orValue. destruct m; [congruence | reflexivity].
  - intros e Hp. now rewrite Hp.
Qed.

(** The raw text holds 429, yet the class is decided by the inner
    message, which has no marker. *)
Lemma json_body_example :
  Spec.contains "429" MoreSamples.exhaustedBodyText
  /\ classify MoreSamples.exhaustedBodyJson (mkError MoreSamples.exhaustedBodyText)
     = Returned {| kind := Unknown;
                   userMessage := "Resource has been exhausted";
                   retryAfterSeconds := Some 0%Z |}.
Proof.
  split.
  - exists ("{" ++ DQ ++ "error" ++ DQ ++ ":{" ++ DQ ++ "code" ++ DQ ++ ":"),
      ("," ++ DQ ++ "message" ++ DQ ++ ":" ++ DQ ++ "Resource has been exhausted"
       ++ DQ ++ "}}").
    reflexivity.
  - refine (proj1 (json_body_is_classified_by_its_message
                     MoreSamples.exhaustedBodyJson MoreSamples.exhaustedBodyText _)
              _ "Resource has been exhausted" eq_refl eq_refl _).
    + now left.
    + discriminate.
Defined.

Lemma rate_limited_message (parse : string -> Outcome JsValue) (err : JsError)
    (c : Classified) :
  classify parse err = Returned c -> kind c = RateLimited ->
  userMessage c = RATE_LIMIT_MESSAGE.
Proof.
  unfold classify.
  destruct (unwrapMessage parse (message err)); try discriminate.
  intros [= <-]. unfold classifyMessage.
  repeat match goal with
         | |- context [if ?b then _ else _] => destruct b
         end; cbn [kind userMessage]; intros H; first [reflexivity | discriminate H].
Qed.

Lemma countdownStep_keeps (st st' : AppState) :
  countdownStep st = Some st' ->
  status st' = status st /\ errorMsg st' = errorMsg st /\ result st' = result st.
Proof.
  unfold countdownStep, countdownEffect.
  destruct (retryCountdown st) as [n|]; [|discriminate].
  destruct (n <=? 0)%Z; intros [= <-]; repeat split.
Qed.

Lemma countdownRun_keeps (k : nat) :
  forall st,
    status (countdownRun k st) = status st
    /\ errorMsg (countdownRun k st) = errorMsg st
    /\ result (countdownRun k st) = result st.
Proof.
  induction k as [|k IH]; intros st; [repeat split|].
  cbn [countdownRun]. destruct (countdownStep st) as [st'|] eqn:E; [|repeat split].
  destruct (countdownStep_keeps st st' E) as (S1 & M1 & R1).
  destruct (IH st') as (S2 & M2 & R2).
  repeat split; congruence.
Qed.

Lemma countdownRun_succ (k : nat) :
  forall st,
    countdownRun (S k) st
    = match countdownStep (countdownRun k st) with
      | Some st' => st'
      | None => countdownRun k st
      end.
Proof.
  induction k as [|k IH]; intros st.
  - cbn [countdownRun]. now destruct (countdownStep st).
  - change (countdownRun (S (S k)) st)
      with (match countdownStep st with
            | Some st1 => countdownRun (S k) st1
            | None => st
            end).
    cbn [countdownRun].
    destruct (countdownStep st) as [st1|] eqn:E.
    + now rewrite <- (IH st1).
    + now rewrite E.
Qed.

(** X20.  After the [catch] block has reported a rate-limit error with a
    delay of [n > 0] seconds, read from a retry numeral of at most 15
    characters (so that [n] is the delay the doubles of the source
    compute, and at most 2^53), the error modal is on screen during the
    [n] ticks of the countdown, showing the retry line as long as the
    remaining time is above zero; at the next move the countdown is back
    at [null] and the modal is gone, while the status stays at error and
    the message stays stored. *)
Theorem rate_limit_modal_closes_itself {World : Type}
    (parse : string -> Outcome JsValue) (err : JsError) (c : Classified)
    (n : Z) (s : Sys World) :
  Notions.shortDelay parse err ->
  classify parse err = Returned c ->
  kind c = RateLimited ->
  retryAfterSeconds c = Some n ->
  (0 < n)%Z ->
  (n <= 2 ^ 53)%Z ->
  let st1 := app (snd (handleFailure parse err s)) in
  (forall k : nat, (Z.of_nat k <= n)%Z ->
      errorModalVisible (countdownRun k st1) = true
      /\ retryLineVisible (countdownRun k st1) = (Z.of_nat k <? n)%Z
      /\ retryCountdown (countdownRun k st1) = Some (n - Z.of_nat k)%Z)
  /\ (let st2 := countdownRun (S (Z.to_nat n)) st1 in
      errorModalVisible st2 = false
      /\ retryCountdown st2 = None
      /\ status st2 = error
      /\ errorMsg st2 = Some RATE_LIMIT_MESSAGE).
Proof.
  intros _ Hc Hk Hr Hn Hb. cbv zeta.
  rewrite (handleFailure_classified parse err c s Hc). cbn [snd app].
  set (st1 := Spec.reported c (app s)).
  assert (F : status st1 = error /\ errorMsg st1 = Some RATE_LIMIT_MESSAGE
              /\ showErrorModal st1 = true /\ retryCountdown st1 = Some n).
  { unfold st1, Spec.reported, Spec.armed. rewrite Hk, Hr. cbn [isPositive].
    destruct (Z.ltb_spec 0 n) as [_ | L]; [|lia].
    rewrite (rate_limited_message parse err c Hc Hk). repeat split. }
  destruct F as (S1 & M1 & O1 & C1).
  split.
  - intros k Hle.
    destruct (countdownRun_counting k st1 n Hb C1 Hle) as [Hcd Hmod].
    destruct (countdownRun_keeps k st1) as (_ & Hmsg & _).
    unfold retryLineVisible, errorModalVisible.
    rewrite Hmod, O1, Hmsg, M1, Hcd. cbn.
    repeat split.
    destruct (Z.ltb_spec 0 (n - Z.of_nat k)), (Z.ltb_spec (Z.of_nat k) n);
      reflexivity || lia.
  - destruct (countdownRun_counting (Z.to_nat n) st1 n Hb C1) as [Hcd _]; [lia|].
    rewrite Z2Nat.id, Z.sub_diag in Hcd by lia.
    rewrite countdownRun_succ, (countdownStep_zero _ Hcd).
    destruct (countdownRun_keeps (Z.to_nat n) st1) as (Hs & Hm & _).
    unfold errorModalVisible. cbn.
    repeat split; [now rewrite Hs | now rewrite Hm].
Qed.

Lemma rate_limit_modal_example :
  let st1 := app (snd (handleFailure Samples.noJson
                         (mkError "Quota exceeded. Please retry in 1.2s.")
                         {| app := MoreSamples.afterSuccess;
                            svc := Samples.freshSvc |})) in
  (errorModalVisible (countdownRun 1 st1) = true
   /\ retryLineVisible (countdownRun 1 st1) = true
   /\ retryCountdown (countdownRun 1 st1) = Some 1%Z)
  /\ (errorModalVisible (countdownRun 3 st1) = false
      /\ retryCountdown (countdownRun 3 st1) = None
      /\ status (countdownRun 3 st1) = error
      /\ errorMsg (countdownRun 3 st1) = Some RATE_LIMIT_MESSAGE).
Proof.
  destruct (rate_limit_modal_closes_itself Samples.noJson
              (mkError "Quota exceeded. Please retry in 1.2s.")
              {| kind := RateLimited; userMessage := RATE_LIMIT_MESSAGE;
                 retryAfterSeconds := Some 2%Z |}
              2 {| app := MoreSamples.afterSuccess; svc := Samples.freshSvc |})
    as [Hk Hend].
  - intros msg captured Hm Hr. injection Hm as <-.
    vm_compute in Hr. injection Hr as <-. simpl. lia.
  - reflexivity.
  - reflexivity.
  - reflexivity.
  - reflexivity.
  - discriminate.
  - split; [|exact Hend].
    apply (Hk 1%nat). discriminate.
Defined.

End RunMore.

(* ================================================================== *)
(** ** The score gauge, the heading and the report name *)

From Stdlib Require Import Lqa.

Module RenderMore.

Import Js App AppRender ScoreGauge JsFacts.
Local Open Scope string_scope.

Lemma Qle_bool_false (a b : Q) : Qle_bool a b = false <-> (b < a)%Q.
Proof.
  rewrite <- Bool.not_true_iff_false, Qle_bool_iff. split.
  - apply Qnot_le_lt.
  - apply Qlt_not_le.
Qed.

Ltac decide_Qle a b :=
  let H := fresh "H" in
  destruct (Qle_bool a b) eqn:H;
  [apply Qle_bool_iff in H | apply Qle_bool_false in H].

(** X21.  The progress of the gauge is the score clamped to the range
    from 0 to 10, so the dash offset of the arc always lies between 0
    (full ring, for every score of 10 or more) and the circumference
    (empty ring, for every score of 0 or less). *)
Theorem gauge_stays_in_range (circumference score : Q) :
  (0 <= circumference)%Q ->
  (0 <= progress score)%Q /\ (progress score <= 10)%Q
  /\ ((0 <= score)%Q -> (score <= 10)%Q -> (progress score == score)%Q)
  /\ (0 <= strokeDashoffset circumference score)%Q
  /\ (strokeDashoffset circumference score <= circumference)%Q
  /\ ((10 <= score)%Q -> (strokeDashoffset circumference score == 0)%Q)
  /\ ((score <= 0)%Q -> (strokeDashoffset circumference score == circumference)%Q).
Proof.
  intros HC.
  assert (P : (0 <= progress score)%Q /\ (progress score <= 10)%Q
              /\ ((0 <= score)%Q -> (score <= 10)%Q -> (progress score == score)%Q)
              /\ ((10 <= score)%Q -> (progress score == 10)%Q)
              /\ ((score <= 0)%Q -> (progress score == 0)%Q)).
  { unfold progress, Math_min, Math_max.
    decide_Qle score 0%Q; [decide_Qle 0%Q 10%Q | decide_Qle score 10%Q];
      repeat split; intros; lra. }
  destruct P as (P0 & P10 & Pin & Phi & Plo).
  split; [exact P0 | split; [exact P10 | split; [exact Pin|]]].
  unfold strokeDashoffset.
  set (p := progress score) in *.
  assert (E : (circumference - p / 10 * circumference
               == circumference * ((10 - p) / 10))%Q) by field.
  rewrite !E.
  assert (F0 : (0 <= (10 - p) / 10)%Q)
    by (apply Qle_shift_div_l; lra).
  assert (F1 : ((10 - p) / 10 <= 1)%Q)
    by (apply Qle_shift_div_r; lra).
  split; [now apply Qmult_le_0_compat|].
  split.
  { rewrite <- (Qmult_1_r circumference) at 2.
    rewrite !(Qmult_comm circumference).
    now apply Qmult_le_compat_r. }
  split.
  - intros H. rewrite (Phi H). field.
  - intros H. rewrite (Plo H). field.
Qed.

Lemma gauge_example :
  (progress (7 # 1) == 7 # 1)%Q
  /\ (0 <= strokeDashoffset (264 # 1) (7 # 1))%Q
  /\ (strokeDashoffset (264 # 1) (7 # 1) <= 264 # 1)%Q.
Proof.
  destruct (gauge_stays_in_range (264 # 1) (7 # 1)) as (_ & _ & Hin & H0 & HC & _).
  - discriminate.
  - split; [apply Hin; discriminate | split; assumption].
Defined.

(** X22.  The sparkles are rendered exactly when the gauge is drawn in
    gold: both happen for the scores of 9.8 and more and for no other
    score, and the grey of "Not Capable" is used exactly for the scores
    of 0 and less. *)
Theorem sparkles_with_gold_only (score : Q) :
  (isPerfect score = true <-> color (getScoreDetails score) = "#FFD700")
  /\ (isPerfect score = true <-> (49 # 5 <= score)%Q)
  /\ (color (getScoreDetails score) = "#4B5563" <-> (score <= 0)%Q).
Proof.
  unfold isPerfect, getScoreDetails.
  decide_Qle score 0%Q;
    [|decide_Qle score (7 # 2)%Q;
      [|decide_Qle score (11 # 2)%Q;
        [|decide_Qle score (15 # 2)%Q;
          [|decide_Qle (49 # 5)%Q score]]]];
    cbn [negb color];
    (split; [|split]);
    try rewrite Qle_bool_iff;
    split; intros; try discriminate; try reflexivity; try lra.
Qed.

(** X23.  The heading and the colour of the gauge never contradict each
    other: under "Excellent Potential" (scores from 8) the gauge is green
    or gold, under "Good Potential" (from 6, below 8) it is yellow or
    green, and under "Needs Improvement" (below 6) it is never green or
    gold. *)
Theorem heading_matches_gauge (score : Q) :
  (headline score = "Excellent Potential" ->
   (8 <= score)%Q
   /\ (color (getScoreDetails score) = "#22C55E"
       \/ color (getScoreDetails score) = "#FFD700"))
  /\ (headline score = "Good Potential" ->
      (6 <= score)%Q /\ (score < 8)%Q
      /\ (color (getScoreDetails score) = "#EAB308"
          \/ color (getScoreDetails score) = "#22C55E"))
  /\ (headline score = "Needs Improvement" ->
      (score < 6)%Q
      /\ color (getScoreDetails score) <> "#22C55E"
      /\ color (getScoreDetails score) <> "#FFD700").
Proof.
  unfold headline, getScoreDetails.
  decide_Qle 8%Q score; [|decide_Qle 6%Q score];
    (decide_Qle score 0%Q;
     [|decide_Qle score (7 # 2)%Q;
       [|decide_Qle score (11 # 2)%Q;
         [|decide_Qle score (15 # 2)%Q;
           [|decide_Qle (49 # 5)%Q score]]]]);
    cbn [negb color];
    (split; [|split]); intros Hh; try discriminate Hh;
    repeat split; try lra; try discriminate; try (now left); try (now right).
Qed.

Lemma heading_example :
  (8 <= 17 # 2)%Q
  /\ (color (getScoreDetails (17 # 2)) = "#22C55E"
      \/ color (getScoreDetails (17 # 2)) = "#FFD700").
Proof. apply (proj1 (heading_matches_gauge (17 # 2))). reflexivity. Defined.

Lemma every_with_dot (a b : string) :
  every isStemChar (a ++ String "." b) = false.
Proof.
  induction a as [|c a IH]; [reflexivity|].
  cbn [append every]. rewrite IH. apply andb_false_r.
Qed.

Lemma stripExtension_no_dot (s : string) :
  occurs "." s = false -> stripExtension s = s.
Proof.
  induction s as [|c s IH]; [reflexivity|]. cbn [occurs stripExtension].
  intros H. apply orb_false_iff in H as [Hc Hs].
  rewrite Hc. cbn [andb]. now rewrite (IH Hs).
Qed.

Lemma stripExtension_last (stem ext : string) :
  ext <> "" -> every isStemChar ext = true ->
  stripExtension (stem ++ String "." ext) = stem.
Proof.
  intros Hne Hext. induction stem as [|c stem IH].
  - cbn [append stripExtension]. rewrite Ascii.eqb_refl, Hext.
    destruct ext; [congruence | reflexivity].
  - cbn [append stripExtension]. rewrite every_with_dot, andb_false_r.
    now rewrite IH.
Qed.

(** X24.  The name under which the report is saved is never empty.  A
    file name without a dot is kept whole; from a name that ends in a
    dot and an extension (one or more characters, none of them a dot or
    a slash) exactly that last extension is removed; and when nothing is
    left the name is "resume". *)
Theorem safeFileName_strips_last_extension (fileName : string) :
  safeFileName fileName <> ""
  /\ (occurs "." fileName = false ->
      safeFileName fileName = orElse fileName "resume")
  /\ (forall stem ext,
        fileName = stem ++ "." ++ ext ->
        ext <> "" -> every isStemChar ext = true ->
        safeFileName fileName = orElse stem "resume").
Proof.
  unfold safeFileName. split; [|split].
  - unfold orElse. destruct (stripExtension fileName); cbn; discriminate.
  - intros H. now rewrite stripExtension_no_dot.
  - intros stem ext -> Hne Hext.
    change ("." ++ ext) with (String "." ext).
    now rewrite stripExtension_last.
Qed.

Lemma safeFileName_examples :
  safeFileName "jane.doe.cv.pdf" = "jane.doe.cv"
  /\ safeFileName ".pdf" = "resume"
  /\ safeFileName "notes" = "notes".
Proof.
  split; [|split].
  - apply (proj2 (proj2 (safeFileName_strips_last_extension "jane.doe.cv.pdf"))
             "jane.doe.cv" "pdf"); [reflexivity | discriminate | reflexivity].
  - apply (proj2 (proj2 (safeFileName_strips_last_extension ".pdf"))
             "" "pdf"); [reflexivity | discriminate | reflexivity].
  - apply (proj1 (proj2 (safeFileName_strips_last_extension "notes"))).
    reflexivity.
Defined.

End RenderMore.
